(** * Tool-calling clients of mcp-streamlit-app: a shallow embedding

    The development follows [src/mcp_client/client_st.py]: the two clients
    [MCPClient] (a child process speaking the protocol over its standard
    streams) and [CustomMCPClient] (tools loaded and called in the client's
    own interpreter), the argument conversion of [CustomMCPClient.call_tool]
    and the query loop of both [process_query] methods. It also covers the
    earlier client and wrapper of [src/mcp-client/streamlit_app.py] and the
    connect, query and disconnect handlers of
    [src/mcp_client/streamlit_app.py].

    Conventions.
    - Python [str] is [string]; the literals of the source are kept byte for
      byte (UTF-8).
    - Python values that travel through the code are [PyValue]; a [dict] is an
      association list in insertion order with unique keys.
    - Everything outside the file (the model API, the child process, the file
      system, the tool script, string parsing of the interpreter) is a field
      of [Builtins] or [Env]: theorems quantify over them.
    - Side effects that the properties count (requests, spawns, file reads,
      module executions, tool calls) are appended to the [trace] of the
      [World].
    - A [ClientSession] whose context managers were left raises on every
      request; nothing else is assumed of the protocol library.
    - A raising computation returns [Raise e]. The handlers of the source are
      [except Exception] or narrower, and the model is of runs in which
      whatever is raised derives from [Exception]; what the code never raises
      is stated for such environments ([exceptions_only]). *)

From Stdlib Require Import String Ascii List ZArith Bool Lia PeanoNat.
From Stdlib Require Import PrimFloat SpecFloat FloatOps.
Import ListNotations.
Open Scope string_scope.
Open Scope list_scope.

Set Implicit Arguments.
Set Warnings "-register-all".

(** ** Strings *)

Module Str.

(** [needle in hay] on Python strings. *)
Fixpoint contains (needle hay : string) : bool :=
  if String.prefix needle hay then true
  else match hay with
       | EmptyString => false
       | String _ rest => contains needle rest
       end.

(** [s.endswith(suffix)]. *)
Definition endswith (s suffix : string) : bool :=
  let n := String.length s in
  let k := String.length suffix in
  (k <=? n)%nat && String.eqb (String.substring (n - k) k s) suffix.

Definition is_upper (c : ascii) : bool :=
  let n := nat_of_ascii c in ((65 <=? n) && (n <=? 90))%nat.

Definition lower_ascii (c : ascii) : ascii :=
  if is_upper c then ascii_of_nat (nat_of_ascii c + 32) else c.

(** [s.lower()]. Only the letters A-Z are mapped; the bytes of a character
    outside ASCII are left alone. Python also lowers letters outside ASCII,
    but none of them becomes one of the ASCII letters of the words the
    source compares against, so the comparison is not affected. *)
Fixpoint lower (s : string) : string :=
  match s with
  | EmptyString => EmptyString
  | String c rest => String (lower_ascii c) (lower rest)
  end.

(** [sep.join(parts)]. *)
Definition join (sep : string) (parts : list string) : string :=
  String.concat sep parts.

(** [s[:-k]]. *)
Definition drop_last (k : nat) (s : string) : string :=
  String.substring 0 (String.length s - k) s.

(** [x in (w1, ..., wn)] for strings. *)
Definition mem (x : string) (ws : list string) : bool :=
  existsb (String.eqb x) ws.

(** Python's whitespace below U+0080. *)
Definition is_space (c : ascii) : bool :=
let n := nat_of_ascii c in
(((9 <=? n) && (n <=? 13)) || ((28 <=? n) && (n <=? 32)))%nat.

(** The whitespace of two bytes: U+0085 and U+00A0. *)
Definition is_space2 (c1 c2 : ascii) : bool :=
let a := nat_of_ascii c1 in
let b := nat_of_ascii c2 in
((a =? 194) && ((b =? 133) || (b =? 160)))%nat.

(** The whitespace of three bytes: U+1680, U+2000 to U+200A, U+2028, U+2029,
    U+202F, U+205F and U+3000. *)
Definition is_space3 (c1 c2 c3 : ascii) : bool :=
let a := nat_of_ascii c1 in
let b := nat_of_ascii c2 in
let c := nat_of_ascii c3 in
(((a =? 225) && (b =? 154) && (c =? 128))
 || ((a =? 226) && (b =? 128) &&
     (((128 <=? c) && (c <=? 138)) || (c =? 168) || (c =? 169) || (c =? 175)))
 || ((a =? 226) && (b =? 129) && (c =? 159))
 || ((a =? 227) && (b =? 128) && (c =? 128)))%nat.

(** [s.lstrip()]: the characters for which [str.isspace] holds are removed
    from the front, whatever the number of bytes of their encoding. *)
Fixpoint lstrip (s : string) : string :=
match s with
| EmptyString => EmptyString
| String c1 r1 =>
    if is_space c1 then lstrip r1
    else match r1 with
         | EmptyString => s
         | String c2 r2 =>
             if is_space2 c1 c2 then lstrip r2
             else match r2 with
                  | EmptyString => s
                  | String c3 r3 => if is_space3 c1 c2 c3 then lstrip r3 else s
                  end
         end
end.

(** [s.rstrip()]: the string is cut where what is left is whitespace only. *)
Fixpoint rstrip (s : string) : string :=
match s with
| EmptyString => EmptyString
| String c rest =>
    if String.eqb (lstrip s) "" then EmptyString else String c (rstrip rest)
end.

(** [s.strip()]. *)
Definition strip (s : string) : string := rstrip (lstrip s).

(** [s.split(sep)] for a separator of one character. *)
Fixpoint split (sep : ascii) (s : string) : list string :=
match s with
| EmptyString => [EmptyString]
| String c rest =>
  let parts := split sep rest in
  if Ascii.eqb c sep then EmptyString :: parts
  else match parts with
       | [] => [String c EmptyString]
       | p :: ps => String c p :: ps
       end
end.

End Str.

(** ** Values and exceptions *)

Inductive PyValue : Type :=
| VNone
| VBool (b : bool)
| VInt (z : Z)
| VFloat (f : float)
| VStr (s : string)
| VList (l : list PyValue)
| VDict (d : list (string * PyValue)).

Inductive ExnKind : Type :=
| ValueError
| TypeError
| OverflowError
| AttributeError
| IndexError
| ImportError          (* ImportError and its subclasses *)
| OtherException (cls : string)   (* any other class, by its name *).

Record Exn : Type := mkExn { exn_kind : ExnKind; exn_msg : string }.

(** The outcome of a statement that may raise. *)
Inductive Result (A : Type) : Type :=
| Ok (a : A)
| Raise (e : Exn).
Arguments Ok {A} a.
Arguments Raise {A} e.

Definition is_ok {A} (r : Result A) : bool :=
  match r with Ok _ => true | Raise _ => false end.

(** The classes that derive from [BaseException] without deriving from
    [Exception]: an [except Exception] lets them pass. *)
Definition outside_exception : list string :=
  ["BaseException"; "SystemExit"; "KeyboardInterrupt"; "GeneratorExit";
   "CancelledError"; "BaseExceptionGroup"].

(** [isinstance(e, Exception)]. *)
Definition is_exception (e : Exn) : bool :=
  match exn_kind e with
  | OtherException cls => negb (existsb (String.eqb cls) outside_exception)
  | _ => true
  end.

(** ** Dictionaries in insertion order *)

Module Dict.

Definition t (V : Type) := list (string * V).

Fixpoint get {V} (d : t V) (k : string) : option V :=
  match d with
  | [] => None
  | (k', v) :: rest => if String.eqb k k' then Some v else get rest k
  end.

Definition mem {V} (d : t V) (k : string) : bool :=
  match get d k with Some _ => true | None => false end.

(** [d[k] = v]: an existing key keeps its position. *)
Fixpoint set {V} (d : t V) (k : string) (v : V) : t V :=
  match d with
  | [] => [(k, v)]
  | (k', v') :: rest =>
      if String.eqb k k' then (k', v) :: rest else (k', v') :: set rest k v
  end.

Definition keys {V} (d : t V) : list string := map fst d.

End Dict.

(** ** What the interpreter and its libraries provide

  [float_of_str] is the parser behind [float(s)], [py_repr] the text of a
  value that is not a string, [err_text op v] the message of the exception
  a built-in operation raises on [v] (for an attribute [op] that an object
  lacks, [v] names the object: [None], or the type of a content block),
  [json_loads] is [json.loads] ([None] for [JSONDecodeError]) and [basename]
  is [os.path.basename]. *)

Record Builtins : Type := mkBuiltins {
  float_of_str : string -> option float;
  py_repr : PyValue -> string;
  err_text : string -> PyValue -> string;
  json_loads : string -> option PyValue;
  basename : string -> string
}.

Module Py.
Section WithBuiltins.

Variable B : Builtins.

Definition isinstance_bool (v : PyValue) : bool :=
  match v with VBool _ => true | _ => false end.

(** [bool] is a subclass of [int]. *)
Definition isinstance_int (v : PyValue) : bool :=
  match v with VBool _ | VInt _ => true | _ => false end.

Definition isinstance_int_float (v : PyValue) : bool :=
  match v with VBool _ | VInt _ | VFloat _ => true | _ => false end.

Definition raise_on {A} (k : ExnKind) (op : string) (v : PyValue) : Result A :=
  Raise (mkExn k (err_text B op v)).

(** [float(z)] for an integer: round to nearest, [OverflowError] when the
    integer is too large. *)
Definition float_of_Z (z : Z) : Result float :=
  match binary_normalize prec emax z 0 false with
  | S754_infinity _ => raise_on OverflowError "float" (VInt z)
  | sf => Ok (SF2Prim sf)
  end.

(** [float(v)]. *)
Definition float_ (v : PyValue) : Result float :=
  match v with
  | VFloat f => Ok f
  | VInt z => float_of_Z z
  | VBool b => Ok (if b then 1%float else 0%float)
  | VStr s =>
      match float_of_str B s with
      | Some f => Ok f
      | None => raise_on ValueError "float" v
      end
  | VNone | VList _ | VDict _ => raise_on TypeError "float" v
  end.

(** [int(f)] for a float: truncation toward zero; [ValueError] on NaN and
    [OverflowError] on an infinity. *)
Definition int_of_float (f : float) : Result Z :=
  match Prim2SF f with
  | S754_zero _ => Ok 0%Z
  | S754_finite s m e =>
      let a := match e with
               | Z0 => Zpos m
               | Zpos p => Z.shiftl (Zpos m) (Zpos p)
               | Zneg p => Z.shiftr (Zpos m) (Zpos p)
               end in
      Ok (if s then Z.opp a else a)
  | S754_infinity _ => raise_on OverflowError "int" (VFloat f)
  | S754_nan => raise_on ValueError "int" (VFloat f)
  end.

(** [bool(v)]. *)
Definition bool_ (v : PyValue) : bool :=
  match v with
  | VNone => false
  | VBool b => b
  | VInt z => negb (Z.eqb z 0)
  | VFloat f => negb (PrimFloat.eqb f 0%float)
  | VStr s => negb (String.eqb s "")
  | VList l => match l with [] => false | _ => true end
  | VDict d => match d with [] => false | _ => true end
  end.

(** [str(v)]. *)
Definition str_ (v : PyValue) : string :=
  match v with
  | VStr s => s
  | _ => py_repr B v
  end.

Definition is_str (name : string) (v : PyValue) : bool :=
  match v with VStr s => String.eqb s name | _ => false end.

(** [name in container]. *)
Definition contains_ (container : PyValue) (name : string) : Result bool :=
  match container with
  | VDict d => Ok (Dict.mem d name)
  | VList l => Ok (existsb (is_str name) l)
  | VStr s => Ok (Str.contains name s)
  | VNone | VBool _ | VInt _ | VFloat _ => raise_on TypeError "in" container
  end.

(** [container[name]] for a string [name]. *)
Definition getitem (container : PyValue) (name : string) : Result PyValue :=
  match container with
  | VDict d =>
      match Dict.get d name with
      | Some v => Ok v
      | None => Raise (mkExn (OtherException "KeyError") (py_repr B (VStr name)))
      end
  | _ => raise_on TypeError "getitem" container
  end.

End WithBuiltins.
End Py.

(** ** Messages, requests and the trace of effects *)

Inductive Role : Type := User | Assistant.

(** A content block of a model response: [type == "text"], [type ==
    "tool_use"], or any other type (the loops skip those). *)
Inductive ContentBlock : Type :=
| TextBlock (text : string)
| ToolUseBlock (id name : string) (input : PyValue)
| OtherBlock (type_ : string).

(** [{"type": "tool_result", "tool_use_id": ..., "content": ...}] *)
Record ToolResult : Type := mkToolResult {
  tool_use_id : string;
  result_content : PyValue
}.

Inductive MsgContent : Type :=
| CValue (v : PyValue)
| CBlocks (blocks : list ContentBlock)
| CToolResults (entries : list ToolResult).

Record Message : Type := mkMessage { role : Role; content : MsgContent }.

(** A tool as advertised to the model. *)
Record ToolDecl : Type := mkToolDecl {
  decl_name : string;
  decl_description : string;
  input_schema : PyValue
}.

(** The [tools] argument of [messages.create]: absent, [None] or a list. *)
Inductive ToolsArg : Type :=
| ToolsOmitted
| ToolsNone
| ToolsGiven (tools : list ToolDecl).

Inductive Event : Type :=
| EvSpawn (command : string) (args : list string)
| EvSessionOpen (handle : nat)
| EvInitialize
| EvListTools
| EvCallTool (name : string) (args : PyValue)
| EvClose (handle : nat)
| EvModelRequest (messages : list Message) (tools : ToolsArg)
| EvReadScript (path : string)
| EvExecModule (path : string)
| EvInvoke (name : string) (kwargs : Dict.t PyValue) (awaited : bool).

(** A function of the tool script: [asyncio.iscoroutinefunction] and what a
    call with keyword arguments gives, after the effects so far. *)
Record PyFunction : Type := mkPyFunction {
  is_coroutine : bool;
  fn_call : list Event -> Dict.t PyValue -> Result PyValue
}.

(** A loaded module: [getattr(module, name)], [None] when [hasattr] fails. *)
Definition PyModule : Type := string -> option PyFunction.

(** The environment. Every answer may depend on the effects so far.
    [findall_tools] is [re.findall] with the pattern of
    [extract_tools_from_script]: the four groups of every match.
    [exec_module] gives what the script had defined when its execution ended
    and the exception that ended it, if any. A request on a session whose
    streams were closed never reaches [session_call_tool]. *)
Record Env : Type := mkEnv {
  anthropic_create : list Event -> list Message -> ToolsArg -> Result (list ContentBlock);
  read_script : list Event -> string -> Result string;
  findall_tools : string -> list (string * string * string * string);
  exec_module : list Event -> string -> PyModule * option Exn;
  stdio_client : list Event -> string -> list string -> Result unit;
  session_initialize : list Event -> Result unit;
  session_list_tools : list Event -> Result (list ToolDecl);
  session_call_tool : list Event -> string -> PyValue -> Result PyValue
}.

(** The state outside the client object: the effects so far, [sys.modules],
    and the handles of the context managers that were closed. *)
Record World : Type := mkWorld {
  trace : list Event;
  sys_modules : Dict.t PyModule;
  next_handle : nat;
  closed : list nat
}.

(** An environment in which whatever is raised derives from [Exception]:
    no cancellation, no interrupt, and a tool script that neither exits the
    interpreter nor raises a class of its own outside [Exception]. The
    handlers of the source are all [except Exception] (or narrower), and
    [try_except] below is that handler for such an environment. *)
Definition exceptions_only (E : Env) : Prop :=
  (forall t m tools e, anthropic_create E t m tools = Raise e -> is_exception e = true) /\
  (forall t p e, read_script E t p = Raise e -> is_exception e = true) /\
  (forall t p e, snd (exec_module E t p) = Some e -> is_exception e = true) /\
  (forall t p name f t' kwargs e,
     fst (exec_module E t p) name = Some f ->
     fn_call f t' kwargs = Raise e -> is_exception e = true) /\
  (forall t c a e, stdio_client E t c a = Raise e -> is_exception e = true) /\
  (forall t e, session_initialize E t = Raise e -> is_exception e = true) /\
  (forall t e, session_list_tools E t = Raise e -> is_exception e = true) /\
  (forall t n a e, session_call_tool E t n a = Raise e -> is_exception e = true).

Definition emit (e : Event) (w : World) : World :=
mkWorld (trace w ++ [e]) (sys_modules w) (next_handle w) (closed w).

Definition empty_world : World := mkWorld [] [] 0 [].

Definition is_model_request (e : Event) : bool :=
match e with EvModelRequest _ _ => true | _ => false end.

Definition is_spawn (e : Event) : bool :=
match e with EvSpawn _ _ => true | _ => false end.

Definition is_read_script (e : Event) : bool :=
match e with EvReadScript _ => true | _ => false end.

Definition is_exec_module (e : Event) : bool :=
match e with EvExecModule _ => true | _ => false end.

Definition count (p : Event -> bool) (w : World) : nat :=
List.length (filter p (trace w)).

(** The messages of the model requests, oldest first. *)
Fixpoint model_requests (t : list Event) : list (list Message * ToolsArg) :=
match t with
| [] => []
| EvModelRequest m ts :: rest => (m, ts) :: model_requests rest
| _ :: rest => model_requests rest
end.

(** ** The state and exception monad of the methods *)

Definition M (A : Type) : Type := World -> World * Result A.

Definition ret {A} (a : A) : M A := fun w => (w, Ok a).

Definition raise {A} (e : Exn) : M A := fun w => (w, Raise e).

Definition bind {A C} (m : M A) (k : A -> M C) : M C :=
fun w => match m w with
         | (w', Ok a) => k a w'
         | (w', Raise e) => (w', Raise e)
         end.

Notation "x <- m ;; k" := (bind m (fun x => k))
  (at level 61, m at next level, right associativity).

(** [try: m except Exception as e: h e], for a computation that raises
    inside [Exception] only (see [exceptions_only]): the handler gets
    whatever was raised. *)
Definition try_except {A} (m : M A) (h : Exn -> M A) : M A :=
fun w => match m w with
         | (w', Ok a) => (w', Ok a)
         | (w', Raise e) => h e w'
         end.

Definition lift {A} (r : Result A) : M A := fun w => (w, r).

(** Ask the environment, after recording the request. *)
Definition ask {A} (e : Event) (oracle : list Event -> Result A) : M A :=
fun w => let w' := emit e w in (w', oracle (trace w')).

(** ** What both clients share *)

Definition newline : string := String (ascii_of_nat 10) EmptyString.

Definition call_marker (name : string) : string := "[ツール呼び出し: " ++ name ++ "]".

Definition result_line (B : Builtins) (v : PyValue) : string := "結果: " ++ Py.str_ B v.

(** [block.type]. *)
Definition block_type (b : ContentBlock) : string :=
match b with
| TextBlock _ => "text"
| ToolUseBlock _ _ _ => "tool_use"
| OtherBlock type_ => type_
end.

(** [block.text]: only a text block has the attribute. The message of the
    [AttributeError] is the interpreter's, for the attribute and the class of
    the block, which its type decides. *)
Definition block_text (B : Builtins) (b : ContentBlock) : Result string :=
match b with
| TextBlock text => Ok text
| _ => Raise (mkExn AttributeError (err_text B "text" (VStr (block_type b))))
end.

(** [self.anthropic.messages.create(...)]: the content of the response. *)
Definition create (E : Env) (messages : list Message) (tools : ToolsArg)
  : M (list ContentBlock) :=
ask (EvModelRequest messages tools) (fun t => anthropic_create E t messages tools).

(** ** [SimpleResponse] and the tool table *)

Record SimpleResponse : Type := mkSimpleResponse { response_content : PyValue }.

(** An entry of [available_tools]: [params] maps a parameter name to the text
    of its annotation ([{"type": param_type}] in the source). *)
Record ToolInfo : Type := mkToolInfo {
  tool_name : string;
  tool_description : string;
  tool_params : Dict.t string;
  tool_return_type : string
}.

(** The parameter loop of [extract_tools_from_script]. *)
Definition parse_param_line (params : Dict.t string) (param_line : string) : Dict.t string :=
if Str.contains ":" param_line then
  let param_parts := Str.split ":" (Str.strip param_line) in
  let param_name := Str.strip (nth 0 param_parts "") in
  let param_type := Str.strip (nth 1 param_parts "") in
  Dict.set params param_name param_type
else params.

Definition parse_params (params_str : string) : Dict.t string :=
if negb (String.eqb (Str.strip params_str) "") then
  fold_left parse_param_line (Str.split "," (Str.strip params_str)) []
else [].

Definition tool_of_match (m : string * string * string * string) : ToolInfo :=
let '(func_name, params_str, return_type, description) := m in
mkToolInfo func_name (Str.strip description) (parse_params params_str) return_type.

(** [extract_tools_from_script]: a failure to read the file is logged and
    the tools found so far (none) are returned; the function never raises. *)
Definition extract_tools_from_script (E : Env) (script_path : string) : M (list ToolInfo) :=
try_except
  (script_content <- ask (EvReadScript script_path) (fun t => read_script E t script_path) ;;
   ret (map tool_of_match (findall_tools E script_content)))
  (fun _ => ret []).

(** ** [CustomMCPClient] *)

Module CustomMCPClient.

(** The attributes of the object. [anthropic] is the truth value of the
    attribute: [__init__] leaves it set. *)
Record t : Type := mk {
  anthropic : bool;
  available_tools : list ToolInfo;
  server_script_path : option string
}.

Definition init : t := mk true [] None.

Definition bad_extension : Exn :=
mkExn ValueError "サーバースクリプトは.pyまたは.jsファイルでなければなりません".

(** [connect_to_server]: the new object state, the world and the outcome. *)
Definition connect_to_server (E : Env) (self : t) (path : string) (w : World)
  : t * World * Result bool :=
let self1 := mk (anthropic self) (available_tools self) (Some path) in
let is_python := Str.endswith path ".py" in
let is_js := Str.endswith path ".js" in
if negb (is_python || is_js) then (self1, w, Raise bad_extension)
else
  match extract_tools_from_script E path w with
  | (w', Ok tools) => (mk (anthropic self1) tools (server_script_path self1), w', Ok true)
  | (w', Raise e) => (self1, w', Raise e)
  end.

(** The schema type of an annotation, as [list_tools] and [process_query]
    compute it. *)
Definition schema_type (param_type : string) : string :=
if Str.contains "float" param_type then "number"
else if Str.contains "int" param_type then "integer"
else if Str.contains "bool" param_type then "boolean"
else "string".

Definition schema_properties (ti : ToolInfo) : PyValue :=
VDict (fold_left (fun props p => Dict.set props (fst p) (VDict [("type", VStr (schema_type (snd p)))]))
                 (tool_params ti) []).

(** [list_tools]: the schema has no ["required"] entry. *)
Definition list_tools (self : t) : list ToolDecl :=
map (fun ti => mkToolDecl (tool_name ti) (tool_description ti)
                 (VDict [("type", VStr "object"); ("properties", schema_properties ti)]))
    (available_tools self).

Definition anthropic_tools (self : t) : list ToolDecl :=
map (fun ti => mkToolDecl (tool_name ti) (tool_description ti)
                 (VDict [("type", VStr "object");
                         ("properties", schema_properties ti);
                         ("required", VList (map (fun p => VStr (fst p)) (tool_params ti)))]))
    (available_tools self).

(** The type conversion of one argument (the inner [try] of [call_tool]). *)
Definition convert (B : Builtins) (param_type : string) (param_value : PyValue) : Result PyValue :=
if Str.contains "float" param_type then
  if negb (Py.isinstance_int_float param_value) then
    match Py.float_ B param_value with
    | Ok f => Ok (VFloat f)
    | Raise e => Raise e
    end
  else Ok param_value
else if Str.contains "int" param_type then
  if negb (Py.isinstance_int param_value) then
    match Py.float_ B param_value with
    | Ok f => match Py.int_of_float B f with
              | Ok z => Ok (VInt z)
              | Raise e => Raise e
              end
    | Raise e => Raise e
    end
  else Ok param_value
else if Str.contains "bool" param_type then
  if negb (Py.isinstance_bool param_value) then
    match param_value with
    | VStr s => Ok (VBool (Str.mem (Str.lower s) ["true"; "yes"; "1"; "y"]))
    | _ => Ok (VBool (Py.bool_ param_value))
    end
  else Ok param_value
else Ok (VStr (Py.str_ B param_value)).

Definition caught_by_inner (k : ExnKind) : bool :=
match k with ValueError | TypeError => true | _ => false end.

Definition conversion_failed (param_name : string) (e : Exn) : SimpleResponse :=
mkSimpleResponse (VStr ("パラメータ " ++ param_name ++ " の型変換に失敗しました: " ++ exn_msg e)).

Definition processing_failed (e : Exn) : SimpleResponse :=
mkSimpleResponse (VStr ("引数処理中にエラーが発生しました: " ++ exn_msg e)).

(** The loop over the declared parameters: [inr] is an early [return]. *)
Fixpoint process_params (B : Builtins) (tool_args : PyValue) (params : Dict.t string)
  (processed_args : Dict.t PyValue) : Dict.t PyValue + SimpleResponse :=
match params with
| [] => inl processed_args
| (param_name, param_type) :: rest =>
    match Py.contains_ B tool_args param_name with
    | Raise e => inr (processing_failed e)
    | Ok false => process_params B tool_args rest processed_args
    | Ok true =>
        match Py.getitem B tool_args param_name with
        | Raise e => inr (processing_failed e)
        | Ok param_value =>
            match convert B param_type param_value with
            | Ok v => process_params B tool_args rest (Dict.set processed_args param_name v)
            | Raise e =>
                if caught_by_inner (exn_kind e) then inr (conversion_failed param_name e)
                else inr (processing_failed e)
            end
        end
    end
end.

(** The preprocessing of the arguments (the outer [try]). *)
Definition process_args (B : Builtins) (ti : ToolInfo) (tool_args : PyValue)
  : Dict.t PyValue + SimpleResponse :=
match tool_args with
| VStr s =>
    match json_loads B s with
    | None => inr (mkSimpleResponse (VStr ("引数の解析に失敗しました: " ++ s)))
    | Some parsed => process_params B parsed (tool_params ti) []
    end
| _ => process_params B tool_args (tool_params ti) []
end.

Definition missing_args (ti : ToolInfo) (processed_args : Dict.t PyValue) : list string :=
filter (fun param_name => negb (Dict.mem processed_args param_name)) (Dict.keys (tool_params ti)).

Definition find_tool (self : t) (name : string) : option ToolInfo :=
find (fun tool => String.eqb (tool_name tool) name) (available_tools self).

(** [spec.loader.exec_module(module)], with the module already registered in
    [sys.modules]. *)
Definition load_module (B : Builtins) (E : Env) (script_path : string) : M PyModule :=
fun w =>
  let module_name := Str.drop_last 3 (basename B script_path) in
  let w1 := emit (EvExecModule script_path) w in
  let '(module, failure) := exec_module E (trace w1) script_path in
  let w2 := mkWorld (trace w1) (Dict.set (sys_modules w1) module_name module)
                    (next_handle w1) (closed w1) in
  match failure with
  | None => (w2, Ok module)
  | Some e => (w2, Raise e)
  end.

Definition not_python : SimpleResponse :=
mkSimpleResponse (VStr "現在はPythonスクリプト(.py)のみサポートしています").

Definition no_such_function (name : string) : SimpleResponse :=
mkSimpleResponse (VStr ("関数 '" ++ name ++ "' がサーバースクリプトに見つかりません")).

Definition execution_failed (e : Exn) : SimpleResponse :=
match exn_kind e with
| ImportError => mkSimpleResponse (VStr ("サーバースクリプトのインポートエラー: " ++ exn_msg e))
| _ => mkSimpleResponse (VStr ("ツール実行エラー: " ++ exn_msg e))
end.

(** The last [try] of [call_tool]: import the script and run the function.
    [script_path.endswith] raises while the attribute is still [None]. *)
Definition import_and_run (B : Builtins) (E : Env) (self : t) (name : string)
  (processed_args : Dict.t PyValue) : M SimpleResponse :=
try_except
  (match server_script_path self with
   | None => raise (mkExn AttributeError (err_text B "endswith" VNone))
   | Some script_path =>
       if negb (Str.endswith script_path ".py") then ret not_python
       else
         module <- load_module B E script_path ;;
         match module name with
         | None => ret (no_such_function name)
         | Some tool_function =>
             result <- ask (EvInvoke name processed_args (is_coroutine tool_function))
                           (fun t => fn_call tool_function t processed_args) ;;
             ret (mkSimpleResponse result)
         end
   end)
  (fun e => ret (execution_failed e)).

Definition no_such_tool (name : string) : SimpleResponse :=
mkSimpleResponse (VStr ("ツール '" ++ name ++ "' は存在しません")).

Definition missing_parameters (missing : list string) : SimpleResponse :=
mkSimpleResponse (VStr ("必須パラメータが不足しています: " ++ Str.join ", " missing)).

(** [call_tool]. Every path returns a [SimpleResponse]. *)
Definition call_tool (B : Builtins) (E : Env) (self : t) (name : string) (tool_args : PyValue)
  : M SimpleResponse :=
match find_tool self name with
| None => ret (no_such_tool name)
| Some tool_info =>
    match process_args B tool_info tool_args with
    | inr early => ret early
    | inl processed_args =>
        match missing_args tool_info processed_args with
        | [] => import_and_run B E self name processed_args
        | missing => ret (missing_parameters missing)
        end
    end
end.

(** An element of [tool_uses]. *)
Record ToolUse : Type := mkToolUse {
  use_id : string;
  use_name : string;
  use_result : PyValue
}.

(** The loop over [response.content]. *)
Fixpoint handle_blocks (B : Builtins) (E : Env) (self : t) (blocks : list ContentBlock)
  (final_text : list string) (tool_uses : list ToolUse) : M (list string * list ToolUse) :=
match blocks with
| [] => ret (final_text, tool_uses)
| TextBlock text :: rest =>
    handle_blocks B E self rest (final_text ++ [text]) tool_uses
| ToolUseBlock tool_id name tool_args :: rest =>
    tool_result <- call_tool B E self name tool_args ;;
    let tool_result_content := response_content tool_result in
    handle_blocks B E self rest
      (final_text ++ [call_marker name; result_line B tool_result_content])
      (tool_uses ++ [mkToolUse tool_id name tool_result_content])
| OtherBlock _ :: rest => handle_blocks B E self rest final_text tool_uses
end.

Definition tool_result_of (u : ToolUse) : ToolResult :=
mkToolResult (use_id u) (use_result u).

Definition follow_up_messages (query : string) (response : list ContentBlock)
  (tool_uses : list ToolUse) : list Message :=
[mkMessage User (CValue (VStr query));
 mkMessage Assistant (CBlocks response);
 mkMessage User (CToolResults (map tool_result_of tool_uses))].

(** The part of [process_query] after the loop. *)
Definition follow_up (B : Builtins) (E : Env) (query : string) (response : list ContentBlock)
  (final_text : list string) (tool_uses : list ToolUse) : M (list string) :=
match tool_uses with
| [] => ret final_text
| _ =>
    follow_up_response <- create E (follow_up_messages query response tool_uses) ToolsOmitted ;;
    match follow_up_response with
    | [] => ret final_text
    | first :: _ =>
        text <- lift (block_text B first) ;;
        ret (final_text ++ [text])
    end
end.

(** [tools=anthropic_tools if anthropic_tools else None] *)
Definition tools_argument (self : t) : ToolsArg :=
match anthropic_tools self with
| [] => ToolsNone
| tools => ToolsGiven tools
end.

Definition process_query (B : Builtins) (E : Env) (self : t) (query : string) : M string :=
if negb (anthropic self) then
  ret "Anthropicライブラリが利用できないため、応答を生成できません。"
else
  let messages := [mkMessage User (CValue (VStr query))] in
  response <- create E messages (tools_argument self) ;;
  looped <- handle_blocks B E self response [] [] ;;
  final_text <- follow_up B E query response (fst looped) (snd looped) ;;
  ret (Str.join newline final_text).

(** [cleanup] only logs: the object and the world stay as they are. *)
Definition cleanup (self : t) (w : World) : t * World * Result bool :=
(self, w, Ok true).

End CustomMCPClient.

(** ** [MCPClient] *)

Module MCPClient.

(** [session] is the handle of the [ClientSession] ([None] before a
    connection); [exit_stack] holds the handles of the context managers
    entered through the [AsyncExitStack], the last one first. *)
Record t : Type := mk {
  session : option nat;
  exit_stack : list nat
}.

Definition init : t := mk None [].

Definition bad_extension : Exn :=
mkExn ValueError "サーバースクリプトは.pyまたは.jsファイルでなければなりません".

(** A fresh handle for a context manager that was entered. *)
Definition fresh_handle (w : World) : nat * World :=
(next_handle w, mkWorld (trace w) (sys_modules w) (S (next_handle w)) (closed w)).

Definition is_closed (h : nat) (w : World) : bool :=
existsb (Nat.eqb h) (closed w).

(** [connect_to_server]: the new object state, the world and the outcome. *)
Definition connect_to_server (E : Env) (self : t) (path : string) (w : World)
  : t * World * Result bool :=
let is_python := Str.endswith path ".py" in
let is_js := Str.endswith path ".js" in
if negb (is_python || is_js) then (self, w, Raise bad_extension)
else
  let command := if is_python then "python" else "node" in
  let w1 := emit (EvSpawn command [path]) w in
  match stdio_client E (trace w1) command [path] with
  | Raise e => (self, w1, Raise e)
  | Ok _ =>
      let '(transport, w2) := fresh_handle w1 in
      let '(sess, w3) := fresh_handle w2 in
      let w4 := emit (EvSessionOpen sess) w3 in
      let self1 := mk (Some sess) (sess :: transport :: exit_stack self) in
      match ask EvInitialize (session_initialize E) w4 with
      | (w5, Raise e) => (self1, w5, Raise e)
      | (w5, Ok _) =>
          match ask EvListTools (session_list_tools E) w5 with
          | (w6, Raise e) => (self1, w6, Raise e)
          | (w6, Ok _) => (self1, w6, Ok true)
          end
      end
  end.

Definition no_session (B : Builtins) (attr : string) : Exn :=
mkExn AttributeError (err_text B attr VNone).

Definition session_closed : Exn :=
mkExn (OtherException "ClosedResourceError") "".

(** A request on [self.session]: an attribute error while it is [None], the
    library's error once its streams were closed. *)
Definition on_session {A} (B : Builtins) (self : t) (attr : string) (request : M A) : M A :=
match session self with
| None => raise (no_session B attr)
| Some h => fun w => if is_closed h w then (w, Raise session_closed) else request w
end.

Definition session_list_tools_ (B : Builtins) (E : Env) (self : t) : M (list ToolDecl) :=
on_session B self "list_tools" (ask EvListTools (session_list_tools E)).

Definition session_call_tool_ (B : Builtins) (E : Env) (self : t) (name : string)
  (args : PyValue) : M PyValue :=
on_session B self "call_tool"
  (ask (EvCallTool name args) (fun t => session_call_tool E t name args)).

(** [list_tools]. *)
Definition list_tools (B : Builtins) (E : Env) (self : t) : M (list ToolDecl) :=
match session self with
| None => raise (mkExn ValueError "サーバーに接続されていません")
| Some _ => session_list_tools_ B E self
end.

Definition call_error (e : Exn) : PyValue :=
VStr ("ツール呼び出しエラー: " ++ exn_msg e).

(** [hasattr(content, "text") and content.text] *)
Definition has_text (b : ContentBlock) : option string :=
match b with
| TextBlock text => if String.eqb text "" then None else Some text
| _ => None
end.

(** The local variables of [process_query] that the loop updates. *)
Record Locals : Type := mkLocals {
  messages : list Message;
  tool_results : list (string * PyValue);
  final_text : list string
}.

(** [follow_up_response.content[0].text] *)
Definition first_text (B : Builtins) (response : list ContentBlock) : Result string :=
match response with
| [] => Raise (mkExn IndexError "list index out of range")
| first :: _ => block_text B first
end.

(** The body of the loop for a [tool_use] block, after the call: the result
    is recorded, the conversation is continued with it and the next response
    is requested. *)
Definition continue_conversation (B : Builtins) (E : Env) (block : ContentBlock)
  (tool_name : string) (tool_result_content : PyValue) (l : Locals) : M Locals :=
let messages1 :=
  match has_text block with
  | Some text => messages l ++ [mkMessage Assistant (CValue (VStr text))]
  | None => messages l
  end in
let messages2 := messages1 ++ [mkMessage User (CValue tool_result_content)] in
follow_up_response <- create E messages2 ToolsOmitted ;;
text <- lift (first_text B follow_up_response) ;;
ret (mkLocals messages2
              (tool_results l ++ [(tool_name, tool_result_content)])
              (final_text l ++ [call_marker tool_name; result_line B tool_result_content; text])).

(** The call of a [tool_use] block: an exception becomes the result. *)
Definition execute_tool_call (B : Builtins) (E : Env) (self : t) (tool_name : string)
  (tool_args : PyValue) : M PyValue :=
try_except (session_call_tool_ B E self tool_name tool_args)
           (fun e => ret (call_error e)).

(** The body of the loop for a [tool_use] block. *)
Definition handle_tool_use (B : Builtins) (E : Env) (self : t) (block : ContentBlock)
  (tool_name : string) (tool_args : PyValue) (l : Locals) : M Locals :=
tool_result_content <- execute_tool_call B E self tool_name tool_args ;;
continue_conversation B E block tool_name tool_result_content l.

(** The loop over [response.content]. *)
Fixpoint handle_blocks (B : Builtins) (E : Env) (self : t) (blocks : list ContentBlock)
  (l : Locals) : M Locals :=
match blocks with
| [] => ret l
| TextBlock text :: rest =>
    handle_blocks B E self rest
      (mkLocals (messages l) (tool_results l) (final_text l ++ [text]))
| (ToolUseBlock _ tool_name tool_args as block) :: rest =>
    l' <- handle_tool_use B E self block tool_name tool_args l ;;
    handle_blocks B E self rest l'
| OtherBlock _ :: rest => handle_blocks B E self rest l
end.

Definition process_query (B : Builtins) (E : Env) (self : t) (query : string) : M string :=
let messages0 := [mkMessage User (CValue (VStr query))] in
available_tools <- session_list_tools_ B E self ;;
response <- create E messages0 (ToolsGiven available_tools) ;;
l <- handle_blocks B E self response (mkLocals messages0 [] []) ;;
ret (Str.join newline (final_text l)).

(** [exit_stack.aclose()]: the context managers are left in the reverse
    order of their entry and the stack is empty afterwards. *)
Fixpoint aclose (stack : list nat) (w : World) : World :=
match stack with
| [] => w
| h :: rest =>
    let w1 := emit (EvClose h) w in
    aclose rest (mkWorld (trace w1) (sys_modules w1) (next_handle w1) (h :: closed w1))
end.

(** [cleanup]. *)
Definition cleanup (self : t) (w : World) : t * World * Result unit :=
(mk (session self) [], aclose (exit_stack self) w, Ok tt).

End MCPClient.

(** ** [process_query_async] *)

Inductive Client : Type :=
| Remote (c : MCPClient.t)
| InProcess (c : CustomMCPClient.t).

(** Both classes have [process_query]; an exception becomes the text of the
    answer. *)
Definition process_query_async (B : Builtins) (E : Env) (client : Client) (query : string)
  : M string :=
try_except
  (match client with
   | Remote c => MCPClient.process_query B E c query
   | InProcess c => CustomMCPClient.process_query B E c query
   end)
  (fun e => ret ("エラーが発生しました: " ++ exn_msg e)%string).

(** ** Vocabulary of the statements *)

Definition is_tool_use (b : ContentBlock) : bool :=
match b with ToolUseBlock _ _ _ => true | _ => false end.

(** The number k of tool-use blocks of a response. *)
Definition tool_use_count (blocks : list ContentBlock) : nat :=
List.length (filter is_tool_use blocks).

(** The ids of the tool-use blocks of a response, in order. *)
Fixpoint tool_use_ids (blocks : list ContentBlock) : list string :=
match blocks with
| [] => []
| ToolUseBlock tool_id _ _ :: rest => tool_id :: tool_use_ids rest
| _ :: rest => tool_use_ids rest
end.

(** The tool-result entries of a message. *)
Definition entries_of (m : Message) : list ToolResult :=
match content m with
| CToolResults entries => entries
| _ => []
end.

(** The model requests issued between two worlds. *)
Definition requests_between (w w' : World) : list (list Message * ToolsArg) :=
skipn (List.length (model_requests (trace w))) (model_requests (trace w')).

(** The in-process calls that the tool-use blocks of a response stand for,
    made one after the other from [w], each paired with the id of its block. *)
Fixpoint results_in_order (B : Builtins) (E : Env) (self : CustomMCPClient.t)
  (blocks : list ContentBlock) (w : World) : list ToolResult :=
match blocks with
| [] => []
| ToolUseBlock tool_id name tool_args :: rest =>
    match CustomMCPClient.call_tool B E self name tool_args w with
    | (w', Ok r) => mkToolResult tool_id (response_content r) :: results_in_order B E self rest w'
    | (w', Raise _) => results_in_order B E self rest w'
    end
| _ :: rest => results_in_order B E self rest w
end.

(** What the remote client takes as the result of the call that a tool-use
    block stands for, made at [w]: the content that the session returned, or,
    when the request raised, the error text of the exception. *)
Definition remote_result (B : Builtins) (E : Env) (self : MCPClient.t) (name : string)
  (tool_args : PyValue) (w : World) : World * PyValue :=
match MCPClient.session_call_tool_ B E self name tool_args w with
| (w', Ok v) => (w', v)
| (w', Raise e) => (w', MCPClient.call_error e)
end.

(** The requests that the remote client issues for the tool-use blocks of a
    response, from the conversation [history] and the world [w]: after each
    call the history grows by one user message whose content is the result of
    that call, and the whole history is sent, without tools. The blocks that
    follow are reached when the answer begins with a text. *)
Fixpoint remote_follow_ups (B : Builtins) (E : Env) (self : MCPClient.t)
  (blocks : list ContentBlock) (history : list Message) (w : World)
  : list (list Message * ToolsArg) :=
match blocks with
| [] => []
| ToolUseBlock _ name tool_args :: rest =>
    let '(w1, v) := remote_result B E self name tool_args w in
    let history' := history ++ [mkMessage User (CValue v)] in
    let w2 := emit (EvModelRequest history' ToolsOmitted) w1 in
    (history', ToolsOmitted)
    :: match anthropic_create E (trace w2) history' ToolsOmitted with
       | Ok (TextBlock _ :: _) => remote_follow_ups B E self rest history' w2
       | _ => []
       end
| _ :: rest => remote_follow_ups B E self rest history w
end.



(** A call that gets as far as importing the script: the tool is in the
    table, its arguments are processed, none is missing and the path of the
    session ends in [.py]. *)
Definition reaches_import (B : Builtins) (self : CustomMCPClient.t) (call : string * PyValue) : bool :=
match CustomMCPClient.find_tool self (fst call) with
| None => false
| Some tool_info =>
    match CustomMCPClient.process_args B tool_info (snd call) with
    | inr _ => false
    | inl processed_args =>
        match CustomMCPClient.missing_args tool_info processed_args with
        | [] => match CustomMCPClient.server_script_path self with
                | Some p => Str.endswith p ".py"
                | None => false
                end
        | _ => false
        end
    end
end.

(** Calls made one after the other on one session. *)
Fixpoint call_all (B : Builtins) (E : Env) (self : CustomMCPClient.t)
  (calls : list (string * PyValue)) (w : World) : World :=
match calls with
| [] => w
| call :: rest => call_all B E self rest (fst (CustomMCPClient.call_tool B E self (fst call) (snd call) w))
end.

(** The dictionary a call's raw arguments denote, when they denote one. *)
Definition args_dict (B : Builtins) (tool_args : PyValue) : option (Dict.t PyValue) :=
match tool_args with
| VDict d => Some d
| VStr s => match json_loads B s with Some (VDict d) => Some d | _ => None end
| _ => None
end.

(** The session handle of a client is among the context managers of its
    exit stack, or already closed. *)
Definition session_managed (self : MCPClient.t) (w : World) : Prop :=
  forall h, MCPClient.session self = Some h ->
            In h (MCPClient.exit_stack self) \/ MCPClient.is_closed h w = true.

(** ** The earlier client of [src/mcp-client/streamlit_app.py]

    The file has its own [CustomMCPClient], with the attributes and the
    [connect_to_server], [list_tools] and [cleanup] of the later one, and its
    own [process_query_async]. Its [call_tool] has the statements of the
    later one, but the class [SimpleResponse] is defined inside the function,
    after the tool function has returned, and nowhere else in the file: the
    name is local to [call_tool], and every [return SimpleResponse(...)]
    that is reached before the definition raises [UnboundLocalError]. *)

Module Legacy.

Definition unbound_local (B : Builtins) : Exn :=
mkExn (OtherException "UnboundLocalError") (err_text B "SimpleResponse" VNone).

(** The last [try] of [call_tool]: both handlers build a [SimpleResponse]
    and so raise in their turn. *)
Definition import_and_run (B : Builtins) (E : Env) (self : CustomMCPClient.t) (name : string)
  (processed_args : Dict.t PyValue) : M SimpleResponse :=
try_except
  (match CustomMCPClient.server_script_path self with
   | None => raise (mkExn AttributeError (err_text B "endswith" VNone))
   | Some script_path =>
       if negb (Str.endswith script_path ".py") then raise (unbound_local B)
       else
         module <- CustomMCPClient.load_module B E script_path ;;
         match module name with
         | None => raise (unbound_local B)
         | Some tool_function =>
             result <- ask (EvInvoke name processed_args (is_coroutine tool_function))
                           (fun t => fn_call tool_function t processed_args) ;;
             ret (mkSimpleResponse result)
         end
   end)
  (fun _ => raise (unbound_local B)).

(** [call_tool]. The early returns of the argument processing raise inside
    handlers of the outer [try], whose own handler raises again. *)
Definition call_tool (B : Builtins) (E : Env) (self : CustomMCPClient.t) (name : string)
  (tool_args : PyValue) : M SimpleResponse :=
match CustomMCPClient.find_tool self name with
| None => raise (unbound_local B)
| Some tool_info =>
    match CustomMCPClient.process_args B tool_info tool_args with
    | inr _ => raise (unbound_local B)
    | inl processed_args =>
        match CustomMCPClient.missing_args tool_info processed_args with
        | [] => import_and_run B E self name processed_args
        | _ => raise (unbound_local B)
        end
    end
end.

Definition error_text (e : Exn) : string := "エラーが発生しました: " ++ exn_msg e.

(** [CustomMCPClient.process_query]: one request, the text of its first
    block; any exception becomes the answer. *)
Definition process_query (B : Builtins) (E : Env) (self : CustomMCPClient.t) (query : string)
  : M string :=
if negb (CustomMCPClient.anthropic self) then
  ret "Anthropicライブラリが利用できないため、応答を生成できません。"
else
  try_except
    (response <- create E [mkMessage User (CValue (VStr query))]
                          (CustomMCPClient.tools_argument self) ;;
     lift (MCPClient.first_text B response))
    (fun e => ret (error_text e)).

(** An element of [tool_uses] in [process_query_async]. *)
Record ToolUse : Type := mkToolUse {
  use_id : string;
  use_name : string;
  use_args : PyValue;
  use_result : PyValue
}.

(** The blocks copied into [assistant_message]: texts and tool uses. *)
Definition copied_blocks (response : list ContentBlock) : list ContentBlock :=
filter (fun b => match b with OtherBlock _ => false | _ => true end) response.

(** The loop over [response.content] in [process_query_async]. *)
Fixpoint handle_blocks (B : Builtins) (E : Env) (client : CustomMCPClient.t)
  (blocks : list ContentBlock) (final_text : list string) (tool_uses : list ToolUse)
  : M (list string * list ToolUse) :=
match blocks with
| [] => ret (final_text, tool_uses)
| TextBlock text :: rest => handle_blocks B E client rest (final_text ++ [text]) tool_uses
| ToolUseBlock tool_id name tool_args :: rest =>
    tool_result_content <-
      try_except (tool_result <- call_tool B E client name tool_args ;;
                  ret (response_content tool_result))
                 (fun e => ret (MCPClient.call_error e)) ;;
    handle_blocks B E client rest
      (final_text ++ [call_marker name; result_line B tool_result_content])
      (tool_uses ++ [mkToolUse tool_id name tool_args tool_result_content])
| OtherBlock _ :: rest => handle_blocks B E client rest final_text tool_uses
end.

Definition follow_up_messages (query : string) (response : list ContentBlock)
  (tool_uses : list ToolUse) : list Message :=
[mkMessage User (CValue (VStr query));
 mkMessage Assistant (CBlocks (copied_blocks response));
 mkMessage User (CToolResults (map (fun u => mkToolResult (use_id u) (use_result u)) tool_uses))].

Definition follow_up_failed (e : Exn) : string :=
"エラー: フォローアップ応答の取得に失敗しました: " ++ exn_msg e.

(** The part of [process_query_async] after the loop. *)
Definition follow_up (B : Builtins) (E : Env) (query : string) (response : list ContentBlock)
  (final_text : list string) (tool_uses : list ToolUse) : M (list string) :=
match tool_uses with
| [] => ret final_text
| _ =>
    try_except
      (follow_up_response <- create E (follow_up_messages query response tool_uses)
                                    ToolsOmitted ;;
       match follow_up_response with
       | [] => ret final_text
       | first :: _ =>
           text <- lift (block_text B first) ;;
           ret (final_text ++ [text])
       end)
      (fun e => ret (final_text ++ [follow_up_failed e]))
end.

(** The inner [try] of [process_query_async]. *)
Definition tool_turn (B : Builtins) (E : Env) (client : CustomMCPClient.t) (query : string)
  : M string :=
if negb (CustomMCPClient.anthropic client) then
  ret "エラー: Anthropicクライアントが初期化されていません"
else
  response <- create E [mkMessage User (CValue (VStr query))]
                       (ToolsGiven (CustomMCPClient.anthropic_tools client)) ;;
  looped <- handle_blocks B E client response [] [] ;;
  final_text <- follow_up B E query response (fst looped) (snd looped) ;;
  ret (Str.join newline final_text).

(** [process_query_async], for a client of the class of this file. *)
Definition process_query_async (B : Builtins) (E : Env) (client : CustomMCPClient.t)
  (query : string) : M string :=
try_except
  (match CustomMCPClient.available_tools client with
   | [] => process_query B E client query
   | _ => try_except (tool_turn B E client query)
                     (fun _ => process_query B E client query)
   end)
  (fun e => ret (error_text e)).

End Legacy.

(** ** The handlers of [src/mcp_client/streamlit_app.py]

    The script keeps its state in [st.session_state]; [run_async] runs a
    coroutine to its end. [path_exists] is [os.path.exists]. *)

Module Ui.

Record SessionState : Type := mk {
  client : option Client;
  connected : bool;
  chat_history : list (string * string);
  execution_mode : string;
  available_tools : list (string * string)
}.

Definition compat_mode : string := "Windows互換モード".

(** [CustomMCPClient()] or [MCPClient()], then [connect_to_server]. *)
Definition new_client_connect (E : Env) (mode path : string) (w : World)
  : Client * World * Result bool :=
if String.eqb mode compat_mode then
  let '(c, w', r) := CustomMCPClient.connect_to_server E CustomMCPClient.init path w in
  (InProcess c, w', r)
else
  let '(c, w', r) := MCPClient.connect_to_server E MCPClient.init path w in
  (Remote c, w', r).

(** [client.list_tools()] of either class. *)
Definition list_tools (B : Builtins) (E : Env) (c : Client) : M (list ToolDecl) :=
match c with
| Remote m => MCPClient.list_tools B E m
| InProcess p => ret (CustomMCPClient.list_tools p)
end.

(** The block under [if connect_button and server_script_path]. *)
Definition connect_pressed (B : Builtins) (E : Env) (path_exists : string -> bool)
  (server_script_path mode : string) (st : SessionState) (w : World)
  : SessionState * World :=
if String.eqb server_script_path "" then (st, w)
else
  let st1 := mk (client st) (connected st) (chat_history st) mode (available_tools st) in
  if negb (path_exists server_script_path) then (st1, w)
  else
    match new_client_connect E mode server_script_path w with
    | (_, w1, Raise _) => (st1, w1)
    | (c, w1, Ok _) =>
        let '(w2, listed) := list_tools B E c w1 in
        let shown :=
          match listed with
          | Ok tools => map (fun t => (decl_name t, decl_description t)) tools
          | Raise _ => available_tools st1
          end in
        (mk (Some c) true (chat_history st1) mode shown, w2)
    end.

(** [process_query_async(st.session_state.client, query)]: without a client
    there is no [process_query] to call. *)
Definition ask_client (B : Builtins) (E : Env) (c : option Client) (query : string)
  : M string :=
match c with
| Some c => process_query_async B E c query
| None => ret "エラー: 対応していないクライアントタイプです"
end.

(** The block under [if query], reached when the state is connected. *)
Definition query_submitted (B : Builtins) (E : Env) (query : string)
  (st : SessionState) (w : World) : SessionState * World :=
if negb (connected st) then (st, w)
else if String.eqb query "" then (st, w)
else
  match ask_client B E (client st) query w with
  | (w', Ok response) =>
      (mk (client st) (connected st) (chat_history st ++ [(query, response)])
          (execution_mode st) (available_tools st), w')
  | (w', Raise _) => (st, w')
  end.

(** A disconnect button: [cleanup] of the client, then the state is reset. *)
Definition disconnect_pressed (st : SessionState) (w : World) : SessionState * World :=
if negb (connected st) then (st, w)
else
  let w' := match client st with
            | Some (Remote m) => snd (fst (MCPClient.cleanup m w))
            | Some (InProcess p) => snd (fst (CustomMCPClient.cleanup p w))
            | None => w
            end in
  (mk None false [] (execution_mode st) [], w').

End Ui.

(** ** Vocabulary of the further statements *)

(** The effects between two worlds, oldest first. *)
Definition new_events (w w' : World) : list Event :=
skipn (List.length (trace w)) (trace w').

(** The texts of the text blocks of a response, in order. *)
Fixpoint block_texts (blocks : list ContentBlock) : list string :=
match blocks with
| [] => []
| TextBlock text :: rest => text :: block_texts rest
| _ :: rest => block_texts rest
end.

(** The Python values that pass for a schema type in the conversion:
    [isinstance(v, (int, float))], [isinstance(v, int)], [isinstance(v, bool)]
    and [isinstance(v, str)]. *)
Definition has_schema_type (schema : string) (v : PyValue) : bool :=
if String.eqb schema "number" then Py.isinstance_int_float v
else if String.eqb schema "integer" then Py.isinstance_int v
else if String.eqb schema "boolean" then Py.isinstance_bool v
else match v with VStr _ => true | _ => false end.

(** Connection attempts made one after the other on one remote client,
    whatever their outcome. *)
Fixpoint connect_all (E : Env) (self : MCPClient.t) (paths : list string) (w : World)
  : MCPClient.t * World :=
match paths with
| [] => (self, w)
| path :: rest =>
    let '(self', w', _) := MCPClient.connect_to_server E self path w in
    connect_all E self' rest w'
end.

(** Every handle handed out so far is on the exit stack of the client or
    closed. *)
Definition handles_accounted (self : MCPClient.t) (w : World) : Prop :=
  forall h, h < next_handle w ->
            In h (MCPClient.exit_stack self) \/ MCPClient.is_closed h w = true.

(** The outcomes of the calls that the tool-use blocks of a response stand
    for in the earlier [process_query_async], made one after the other from
    [w], each under the id of its block: the content of the response, or the
    error text of the exception that the call raised. *)
Fixpoint legacy_results_in_order (B : Builtins) (E : Env) (client : CustomMCPClient.t)
  (blocks : list ContentBlock) (w : World) : list ToolResult :=
match blocks with
| [] => []
| ToolUseBlock tool_id name tool_args :: rest =>
    match Legacy.call_tool B E client name tool_args w with
    | (w', Ok r) =>
        mkToolResult tool_id (response_content r)
        :: legacy_results_in_order B E client rest w'
    | (w', Raise e) =>
        mkToolResult tool_id (MCPClient.call_error e)
        :: legacy_results_in_order B E client rest w'
    end
| _ :: rest => legacy_results_in_order B E client rest w
end.

(** ** A small world to run the clients in

    One tool, [join(x: str, y: str) -> str], which joins its arguments with a
    hyphen; a model that asks for it twice and then answers in text. *)
Module Sample.

(** The interpreter, as far as the examples need it: [float] parses "1.5",
    [json.loads] parses "{}", paths have no directory part. *)
Definition builtins : Builtins :=
mkBuiltins
  (fun s => if String.eqb s "1.5" then Some 1.5%float else None)
  (fun _ => "<value>")
  (fun op v =>
     match v with
     | VStr s => if String.eqb op "float"
                 then ("could not convert string to float: '" ++ s ++ "'")%string
                 else ("bad operand for " ++ op)%string
     | _ => ("bad operand for " ++ op)%string
     end)
  (fun s => if String.eqb s "{}" then Some (VDict []) else None)
  (fun p => p).

Definition join_args : PyValue := VDict [("x", VStr "a"); ("y", VStr "b")].

Definition first_response : list ContentBlock :=
[TextBlock "joining"; ToolUseBlock "toolu_1" "join" join_args;
 ToolUseBlock "toolu_2" "join" join_args].

Definition join_function : PyFunction :=
mkPyFunction true
  (fun _ kwargs =>
     match Dict.get kwargs "x", Dict.get kwargs "y" with
     | Some (VStr x), Some (VStr y) => Ok (VStr (x ++ "-" ++ y)%string)
     | _, _ => Raise (mkExn TypeError "join")
     end).

Definition script_module : PyModule :=
fun name => if String.eqb name "join" then Some join_function else None.

Definition join_decl : ToolDecl :=
mkToolDecl "join" "Join two strings" (VDict [("type", VStr "object")]).

Definition env : Env :=
mkEnv
  (fun _ _ tools => match tools with
                    | ToolsOmitted => Ok [TextBlock "done"]
                    | _ => Ok first_response
                    end)
  (fun _ _ => Ok "script")
  (fun _ => [("join", "x: str, y: str", "str", "Join two strings")])
  (fun _ _ => (script_module, None))
  (fun _ _ _ => Ok tt)
  (fun _ => Ok tt)
  (fun _ => Ok [join_decl])
  (fun _ _ _ => Ok (VList [VStr "a-b"])).

(** The same world with a script in which the pattern finds nothing. *)
Definition env_no_tools : Env :=
mkEnv (anthropic_create env) (read_script env) (fun _ => [])
      (exec_module env) (stdio_client env) (session_initialize env)
      (session_list_tools env) (session_call_tool env).



(** A model that fails when asked without tools. *)
Definition env_failing_follow_up : Env :=
mkEnv (fun _ _ tools => match tools with
                        | ToolsOmitted => Raise (mkExn (OtherException "APIError") "overloaded")
                        | _ => Ok first_response
                        end)
      (read_script env) (findall_tools env) (exec_module env)
      (stdio_client env) (session_initialize env)
      (session_list_tools env) (session_call_tool env).

(** A model that fails on its first request only. *)
Definition env_failing_once : Env :=
mkEnv (fun t _ _ => if (List.length t <=? 1)%nat
                    then Raise (mkExn (OtherException "APIError") "overloaded")
                    else Ok [TextBlock "late"])
      (read_script env) (findall_tools env) (exec_module env)
      (stdio_client env) (session_initialize env)
      (session_list_tools env) (session_call_tool env).

(** The client of the sample script. *)
Definition join_client : CustomMCPClient.t :=
CustomMCPClient.mk true
  [mkToolInfo "join" "Join two strings" [("x", "str"); ("y", "str")] "str"]
  (Some "server.py").

Definition ab_tool : ToolInfo :=
mkToolInfo "f" "two integers" [("a", "int"); ("b", "int")] "int".

Definition ab_client : CustomMCPClient.t :=
CustomMCPClient.mk true [ab_tool] (Some "server.py").

End Sample.

(** * Properties *)

Unset Implicit Arguments.

(** ** The model at work *)

(** The tool of the sample world, called in process and through the child
    process. *)
Example in_process_round_trip :
  snd (CustomMCPClient.call_tool Sample.builtins Sample.env
         (CustomMCPClient.mk true
            [mkToolInfo "join" "Join two strings" [("x", "str"); ("y", "str")] "str"]
            (Some "server.py"))
         "join" Sample.join_args empty_world)
  = Ok (mkSimpleResponse (VStr "a-b")).
Proof. reflexivity. Qed.

Example remote_round_trip :
  snd (MCPClient.execute_tool_call Sample.builtins Sample.env (MCPClient.mk (Some 1) [1; 0])
         "join" Sample.join_args empty_world)
  = Ok (VList [VStr "a-b"]).
Proof. reflexivity. Qed.

Example static_extraction :
  tool_of_match ("add", "a: int, b: float", "float", " Add two numbers. ")
  = mkToolInfo "add" "Add two numbers." [("a", "int"); ("b", "float")] "float".
Proof. reflexivity. Qed.

(** Whitespace outside ASCII is stripped as well: U+3000 around a
    parameter. *)
Example strip_ideographic_space :
  parse_params "　a: int,　b: float　" = [("a", "int"); ("b", "float")].
Proof. reflexivity. Qed.

Example truncation : Py.int_of_float Sample.builtins (-3.75)%float = Ok (-3)%Z.
Proof. reflexivity. Qed.

(** ** Argument conversion *)

Section Conversion.

Variable B : Builtins.

Lemma schema_type_boolean (param_type : string) :
  CustomMCPClient.schema_type param_type = "boolean" ->
  Str.contains "float" param_type = false /\
  Str.contains "int" param_type = false /\
  Str.contains "bool" param_type = true.
Proof.
  unfold CustomMCPClient.schema_type.
  destruct (Str.contains "float" param_type); [discriminate|].
  destruct (Str.contains "int" param_type); [discriminate|].
  destruct (Str.contains "bool" param_type); [tauto | discriminate].
Qed.

Lemma mem_false_iff (x : string) (ws : list string) :
  Str.mem x ws = false <-> ~ In x ws.
Proof.
  unfold Str.mem. split.
  - intros H Hin.
    assert (existsb (String.eqb x) ws = true) as Ht.
    { apply existsb_exists. exists x. split; [assumption | apply String.eqb_refl]. }
    congruence.
  - intros Hn. destruct (existsb (String.eqb x) ws) eqn:Hex; [|reflexivity].
    apply existsb_exists in Hex. destruct Hex as [y [Hy Heq]].
    apply String.eqb_eq in Heq. subst y. contradiction.
Qed.

Lemma convert_boolean_str (param_type s : string) :
  CustomMCPClient.schema_type param_type = "boolean" ->
  CustomMCPClient.convert B param_type (VStr s)
  = Ok (VBool (Str.mem (Str.lower s) ["true"; "yes"; "1"; "y"])).
Proof.
  intros H. apply schema_type_boolean in H. destruct H as [Hf [Hi Hb]].
  unfold CustomMCPClient.convert. rewrite Hf, Hi, Hb. reflexivity.
Qed.

(** C6. A parameter whose annotation gives the boolean tag: a boolean value
    passes through unchanged; a string becomes [true] exactly when its
    lower-case form is one of "true", "yes", "1", "y"; so "true", "Yes", "1"
    and "y" give [true], and "false", "no", "0" and every other string give
    [false]. *)
Theorem boolean_coercion (param_type : string) :
  CustomMCPClient.schema_type param_type = "boolean" ->
  (forall b, CustomMCPClient.convert B param_type (VBool b) = Ok (VBool b)) /\
  (forall s, CustomMCPClient.convert B param_type (VStr s)
             = Ok (VBool (Str.mem (Str.lower s) ["true"; "yes"; "1"; "y"]))) /\
  (forall s, In s ["true"; "Yes"; "1"; "y"] ->
             CustomMCPClient.convert B param_type (VStr s) = Ok (VBool true)) /\
  (forall s, In s ["false"; "no"; "0"] ->
             CustomMCPClient.convert B param_type (VStr s) = Ok (VBool false)) /\
  (forall s, ~ In (Str.lower s) ["true"; "yes"; "1"; "y"] ->
             CustomMCPClient.convert B param_type (VStr s) = Ok (VBool false)).
Proof.
  intros H. repeat split.
  - intros b. apply schema_type_boolean in H. destruct H as [Hf [Hi Hb]].
    unfold CustomMCPClient.convert. rewrite Hf, Hi, Hb. reflexivity.
  - intros s. apply convert_boolean_str, H.
  - intros s Hin. rewrite (convert_boolean_str _ s H).
    simpl in Hin. repeat (destruct Hin as [<- | Hin]; [reflexivity|]). contradiction.
  - intros s Hin. rewrite (convert_boolean_str _ s H).
    simpl in Hin. repeat (destruct Hin as [<- | Hin]; [reflexivity|]). contradiction.
  - intros s Hn. rewrite (convert_boolean_str _ s H).
    apply mem_false_iff in Hn. rewrite Hn. reflexivity.
Qed.

End Conversion.

(** The annotation [bool]: "Yes" gives [true], "off" gives [false]. *)
Lemma boolean_coercion_witness :
  CustomMCPClient.schema_type "bool" = "boolean" /\
  CustomMCPClient.convert Sample.builtins "bool" (VStr "Yes") = Ok (VBool true) /\
  CustomMCPClient.convert Sample.builtins "bool" (VStr "off") = Ok (VBool false).
Proof.
  assert (CustomMCPClient.schema_type "bool" = "boolean") as H by reflexivity.
  destruct (boolean_coercion Sample.builtins "bool" H) as [_ [_ [Ht [_ Hother]]]].
  split; [exact H|]. split.
  - apply Ht. simpl. tauto.
  - apply Hother. simpl. intros [K|[K|[K|[K|[]]]]]; discriminate K.
Defined.

Ltac invert_ok :=
  match goal with
  | H : Ok _ = Ok _ |- _ => injection H as H; subst
  | H : Raise _ = Ok _ |- _ => discriminate H
  | H : Ok _ = Raise _ |- _ => discriminate H
  end.

(** C7. Whatever the annotation, a value that a conversion returned is
    converted to itself. *)
Theorem coercion_idempotent (B : Builtins) (param_type : string) (v v' : PyValue) :
  CustomMCPClient.convert B param_type v = Ok v' ->
  CustomMCPClient.convert B param_type v' = Ok v'.
Proof.
  unfold CustomMCPClient.convert.
  destruct (Str.contains "float" param_type).
  - destruct (Py.isinstance_int_float v) eqn:Hnum; simpl.
    + intros H. invert_ok. rewrite Hnum. reflexivity.
    + destruct (Py.float_ B v); intros H; invert_ok. reflexivity.
  - destruct (Str.contains "int" param_type).
    + destruct (Py.isinstance_int v) eqn:Hint; simpl.
      * intros H. invert_ok. rewrite Hint. reflexivity.
      * destruct (Py.float_ B v) as [f|]; [|discriminate].
        destruct (Py.int_of_float B f); intros H; invert_ok. reflexivity.
    + destruct (Str.contains "bool" param_type).
      * destruct (Py.isinstance_bool v) eqn:Hbool; simpl.
        -- intros H. invert_ok. rewrite Hbool. reflexivity.
        -- destruct v; intros H; invert_ok; reflexivity.
      * intros H. invert_ok. reflexivity.
Qed.

(** "1.5" under [int] becomes 1, and 1 stays 1. *)
Lemma coercion_idempotent_witness :
  CustomMCPClient.convert Sample.builtins "int" (VStr "1.5") = Ok (VInt 1) /\
  CustomMCPClient.convert Sample.builtins "int" (VInt 1) = Ok (VInt 1).
Proof.
  assert (CustomMCPClient.convert Sample.builtins "int" (VStr "1.5") = Ok (VInt 1)) as H
    by (vm_compute; reflexivity).
  split; [exact H|].
  exact (coercion_idempotent Sample.builtins "int" (VStr "1.5") (VInt 1) H).
Defined.

(** ** Connecting *)

Lemma endswith_same_length (s a b : string) :
  String.length a = String.length b ->
  Str.endswith s a = true -> Str.endswith s b = true -> a = b.
Proof.
  unfold Str.endswith. intros Hlen Ha Hb.
  apply andb_true_iff in Ha. destruct Ha as [_ Ha].
  apply andb_true_iff in Hb. destruct Hb as [_ Hb].
  apply String.eqb_eq in Ha. apply String.eqb_eq in Hb.
  rewrite Hlen in Ha. congruence.
Qed.

Lemma js_is_not_py (path : string) :
  Str.endswith path ".js" = true -> Str.endswith path ".py" = false.
Proof.
  intros Hjs. destruct (Str.endswith path ".py") eqn:Hpy; [|reflexivity].
  assert (".js" = ".py") as K by (apply (endswith_same_length path); auto).
  discriminate K.
Qed.

(** C8. A path that ends neither in [.py] nor in [.js]: both
    [connect_to_server] methods raise the extension error (a [ValueError])
    and leave the world as it was, so no process was spawned and no file was
    read; the remote client is unchanged, and the in-process client has only
    recorded the path, its tool table is what it was. From a new object the
    session is still [None] and the table still empty, so that every call on
    it is answered with "does not exist". *)
Theorem bad_extension_fails_first (E : Env) (path : string) (w : World) :
  Str.endswith path ".py" = false ->
  Str.endswith path ".js" = false ->
  (forall self,
     MCPClient.connect_to_server E self path w = (self, w, Raise MCPClient.bad_extension)) /\
  (forall self,
     CustomMCPClient.connect_to_server E self path w
     = (CustomMCPClient.mk (CustomMCPClient.anthropic self)
                           (CustomMCPClient.available_tools self) (Some path),
        w, Raise CustomMCPClient.bad_extension)) /\
  (forall self w' r,
     MCPClient.connect_to_server E MCPClient.init path w = (self, w', r) ->
     MCPClient.session self = None /\
     count is_spawn w' = count is_spawn w /\ count is_read_script w' = count is_read_script w) /\
  (forall self w' r,
     CustomMCPClient.connect_to_server E CustomMCPClient.init path w = (self, w', r) ->
     CustomMCPClient.available_tools self = [] /\
     count is_spawn w' = count is_spawn w /\ count is_read_script w' = count is_read_script w /\
     forall B name tool_args w1,
       CustomMCPClient.call_tool B E self name tool_args w1
       = (w1, Ok (CustomMCPClient.no_such_tool name))).
Proof.
  intros Hpy Hjs.
  assert (forall self,
     MCPClient.connect_to_server E self path w = (self, w, Raise MCPClient.bad_extension)) as HM.
  { intros self. unfold MCPClient.connect_to_server. rewrite Hpy, Hjs. reflexivity. }
  assert (forall self,
     CustomMCPClient.connect_to_server E self path w
     = (CustomMCPClient.mk (CustomMCPClient.anthropic self)
                           (CustomMCPClient.available_tools self) (Some path),
        w, Raise CustomMCPClient.bad_extension)) as HC.
  { intros self. unfold CustomMCPClient.connect_to_server. rewrite Hpy, Hjs. reflexivity. }
  split; [exact HM|]. split; [exact HC|]. split.
  - intros self w' r H. rewrite HM in H. injection H as <- <- <-. auto.
  - intros self w' r H. rewrite HC in H. injection H as <- <- <-.
    repeat split; reflexivity.
Qed.

(** [server.rb] is refused by the remote client before anything happens. *)
Lemma bad_extension_fails_first_witness :
  Str.endswith "server.rb" ".py" = false /\
  Str.endswith "server.rb" ".js" = false /\
  MCPClient.connect_to_server Sample.env MCPClient.init "server.rb" empty_world
  = (MCPClient.init, empty_world, Raise MCPClient.bad_extension).
Proof.
  split; [reflexivity|]. split; [reflexivity|].
  exact (proj1 (bad_extension_fails_first Sample.env "server.rb" empty_world
                  eq_refl eq_refl) MCPClient.init).
Defined.

Lemma extract_tools_never_raises (E : Env) (path : string) (w : World) :
  exists tools,
    extract_tools_from_script E path w = (emit (EvReadScript path) w, Ok tools).
Proof.
  unfold extract_tools_from_script, try_except, bind, ask, ret.
  destruct (read_script E (trace (emit (EvReadScript path) w)) path); eauto.
Qed.

(** Against C10 as stated: in a [.js] session whose table is empty (the
    pattern is Python syntax), a call is answered with "does not exist", not
    with "only Python is supported". *)
Lemma js_session_other_error :
  let '(c, w, r) := CustomMCPClient.connect_to_server Sample.env_no_tools
                      CustomMCPClient.init "server.js" empty_world in
  r = Ok true /\
  snd (CustomMCPClient.call_tool Sample.builtins Sample.env_no_tools c "join" Sample.join_args w)
  = Ok (CustomMCPClient.no_such_tool "join") /\
  CustomMCPClient.no_such_tool "join" <> CustomMCPClient.not_python.
Proof.
  vm_compute. repeat split. discriminate.
Qed.

(** C10, as the code has it. A path ending in [.js] connects in the
    in-process client: the file is read, the path recorded. Every later call
    returns a response and leaves the world untouched, so the script is never
    executed and no function is invoked. The response is the "only Python is
    supported" text exactly when the tool is in the table, its arguments are
    processed and none is missing; a call that stops earlier returns the
    error of the step at which it stops. *)
Theorem js_session_runs_no_tool (B : Builtins) (E : Env) (self : CustomMCPClient.t)
  (path : string) (w : World) :
  Str.endswith path ".js" = true ->
  exists self' w',
    CustomMCPClient.connect_to_server E self path w = (self', w', Ok true) /\
    CustomMCPClient.server_script_path self' = Some path /\
    forall name tool_args w1,
      CustomMCPClient.call_tool B E self' name tool_args w1
      = (w1, Ok match CustomMCPClient.find_tool self' name with
                | None => CustomMCPClient.no_such_tool name
                | Some tool_info =>
                    match CustomMCPClient.process_args B tool_info tool_args with
                    | inr early => early
                    | inl processed_args =>
                        match CustomMCPClient.missing_args tool_info processed_args with
                        | [] => CustomMCPClient.not_python
                        | missing => CustomMCPClient.missing_parameters missing
                        end
                    end
                end).
Proof.
  intros Hjs. pose proof (js_is_not_py path Hjs) as Hpy.
  destruct (extract_tools_never_raises E path w) as [tools Hx].
  unfold CustomMCPClient.connect_to_server. rewrite Hjs, Hpy, Hx. simpl.
  eexists. eexists. split; [reflexivity|]. split; [reflexivity|].
  intros name tool_args w1. unfold CustomMCPClient.call_tool.
  destruct (CustomMCPClient.find_tool _ name) as [tool_info|]; [|reflexivity].
  destruct (CustomMCPClient.process_args B tool_info tool_args) as [processed_args|early];
    [|reflexivity].
  destruct (CustomMCPClient.missing_args tool_info processed_args); [|reflexivity].
  unfold CustomMCPClient.import_and_run, try_except. simpl. rewrite Hpy. reflexivity.
Qed.

(** A [.js] session that does know the tool: the call stops at the [.py]
    check. *)
Lemma js_session_runs_no_tool_witness :
  Str.endswith "server.js" ".js" = true /\
  exists self' w',
    CustomMCPClient.connect_to_server Sample.env CustomMCPClient.init "server.js" empty_world
    = (self', w', Ok true) /\
    CustomMCPClient.server_script_path self' = Some "server.js" /\
    CustomMCPClient.call_tool Sample.builtins Sample.env self' "join" Sample.join_args w'
    = (w', Ok CustomMCPClient.not_python).
Proof.
  split; [reflexivity|].
  destruct (js_session_runs_no_tool Sample.builtins Sample.env CustomMCPClient.init
              "server.js" empty_world eq_refl) as [self' [w' [Hc [Hp Hcall]]]].
  exists self', w'. split; [exact Hc|]. split; [exact Hp|].
  rewrite Hcall. vm_compute in Hc. injection Hc as <- <-. reflexivity.
Defined.

(** ** Missing parameters *)

Lemma dict_get_set {V : Type} (d : Dict.t V) (k k' : string) (v : V) :
  Dict.get (Dict.set d k v) k' = if String.eqb k' k then Some v else Dict.get d k'.
Proof.
  induction d as [|[k0 v0] d IH]; simpl.
  - reflexivity.
  - destruct (String.eqb k k0) eqn:E1; simpl.
    + apply String.eqb_eq in E1. subst k0.
      destruct (String.eqb k' k); reflexivity.
    + destruct (String.eqb k' k0) eqn:E2.
      * apply String.eqb_eq in E2. subst k0.
        rewrite String.eqb_sym in E1. rewrite E1. reflexivity.
      * exact IH.
Qed.

Lemma dict_mem_set {V : Type} (d : Dict.t V) (k k' : string) (v : V) :
  Dict.mem (Dict.set d k v) k' = String.eqb k' k || Dict.mem d k'.
Proof.
  unfold Dict.mem. rewrite dict_get_set. destruct (String.eqb k' k); reflexivity.
Qed.

(** With a dictionary whose supplied values all convert, the loop keeps
    exactly the declared parameters that the dictionary has. *)
Lemma process_params_dict (B : Builtins) (d : Dict.t PyValue) (params : Dict.t string) :
  (forall p ty v, In (p, ty) params -> Dict.get d p = Some v ->
                  is_ok (CustomMCPClient.convert B ty v) = true) ->
  forall acc, exists acc',
    CustomMCPClient.process_params B (VDict d) params acc = inl acc' /\
    forall k, Dict.mem acc' k
              = Dict.mem acc k || (existsb (String.eqb k) (Dict.keys params) && Dict.mem d k).
Proof.
  induction params as [|[p ty] params IH]; intros Hconv acc.
  - exists acc. split; [reflexivity|]. intros k. simpl. rewrite orb_false_r. reflexivity.
  - simpl. unfold Dict.mem at 1.
    destruct (Dict.get d p) as [v|] eqn:Hget.
    + pose proof (Hconv p ty v (or_introl eq_refl) Hget) as Hok.
      destruct (CustomMCPClient.convert B ty v) as [v'|e]; [|discriminate Hok].
      destruct (IH (fun p0 ty0 v0 Hin => Hconv p0 ty0 v0 (or_intror Hin))
                   (Dict.set acc p v')) as [acc' [Hrun Hmem]].
      exists acc'. split; [exact Hrun|].
      intros k. rewrite Hmem, dict_mem_set.
      destruct (String.eqb k p) eqn:Ekp.
      * apply String.eqb_eq in Ekp. subst k.
        assert (Dict.mem d p = true) as Hd by (unfold Dict.mem; rewrite Hget; reflexivity).
        rewrite Hd. simpl. rewrite orb_true_r. reflexivity.
      * simpl. reflexivity.
    + destruct (IH (fun p0 ty0 v0 Hin => Hconv p0 ty0 v0 (or_intror Hin)) acc)
        as [acc' [Hrun Hmem]].
      exists acc'. split; [exact Hrun|].
      intros k. rewrite Hmem.
      destruct (String.eqb k p) eqn:Ekp; [|reflexivity].
      apply String.eqb_eq in Ekp. subst k.
      assert (Dict.mem d p = false) as Hd by (unfold Dict.mem; rewrite Hget; reflexivity).
      rewrite Hd, !andb_false_r. reflexivity.
Qed.

Lemma process_args_dict (B : Builtins) (ti : ToolInfo) (tool_args : PyValue) (d : Dict.t PyValue) :
  args_dict B tool_args = Some d ->
  CustomMCPClient.process_args B ti tool_args
  = CustomMCPClient.process_params B (VDict d) (tool_params ti) [].
Proof.
  unfold args_dict, CustomMCPClient.process_args.
  destruct tool_args; try discriminate.
  - destruct (json_loads B s) as [[]|]; try discriminate.
    intros H. injection H as ->. reflexivity.
  - intros H. injection H as ->. reflexivity.
Qed.

(** Against C5 as stated: [f(a: int, b: int)] called with [{"a": "x"}] lacks
    [b], yet the response is the conversion error of [a]. *)
Lemma conversion_error_comes_first :
  filter (fun p => negb (Dict.mem [("a", VStr "x")] p)) (Dict.keys (tool_params Sample.ab_tool))
  = ["b"] /\
  CustomMCPClient.call_tool Sample.builtins Sample.env Sample.ab_client "f"
    (VDict [("a", VStr "x")]) empty_world
  = (empty_world,
     Ok (mkSimpleResponse (VStr "パラメータ a の型変換に失敗しました: could not convert string to float: 'x'"))) /\
  mkSimpleResponse (VStr "パラメータ a の型変換に失敗しました: could not convert string to float: 'x'")
  <> CustomMCPClient.missing_parameters ["b"].
Proof.
  vm_compute. repeat split. discriminate.
Qed.

(** C5, as the code has it. The tool is in the table, the raw arguments are
    a dictionary (or the text of one) and the values it supplies for declared
    parameters all convert. When the dictionary lacks declared parameters,
    the call returns one response: the missing-parameter text with all the
    lacking names, in declaration order, joined by ", ". The world is
    unchanged: the script is not loaded and no function is invoked. (A
    supplied value that does not convert ends the call earlier, with the
    conversion error of that parameter.) *)
Theorem missing_parameters_reported_together (B : Builtins) (E : Env)
  (self : CustomMCPClient.t) (name : string) (tool_args : PyValue)
  (tool_info : ToolInfo) (d : Dict.t PyValue) (w : World) :
  CustomMCPClient.find_tool self name = Some tool_info ->
  args_dict B tool_args = Some d ->
  (forall p ty v, In (p, ty) (tool_params tool_info) -> Dict.get d p = Some v ->
                  is_ok (CustomMCPClient.convert B ty v) = true) ->
  filter (fun p => negb (Dict.mem d p)) (Dict.keys (tool_params tool_info)) <> [] ->
  CustomMCPClient.call_tool B E self name tool_args w
  = (w, Ok (mkSimpleResponse
              (VStr ("必須パラメータが不足しています: "
                     ++ Str.join ", " (filter (fun p => negb (Dict.mem d p))
                                              (Dict.keys (tool_params tool_info))))))).
Proof.
  intros Hfind Hdict Hconv Hmissing.
  unfold CustomMCPClient.call_tool. rewrite Hfind.
  rewrite (process_args_dict B tool_info tool_args d Hdict).
  destruct (process_params_dict B d (tool_params tool_info) Hconv []) as [acc [Hrun Hmem]].
  rewrite Hrun.
  assert (CustomMCPClient.missing_args tool_info acc
          = filter (fun p => negb (Dict.mem d p)) (Dict.keys (tool_params tool_info))) as Heq.
  { unfold CustomMCPClient.missing_args. apply filter_ext_in. intros k Hin.
    rewrite Hmem. simpl.
    assert (existsb (String.eqb k) (Dict.keys (tool_params tool_info)) = true) as Hex.
    { apply existsb_exists. exists k. split; [exact Hin | apply String.eqb_refl]. }
    rewrite Hex. reflexivity. }
  rewrite Heq.
  destruct (filter (fun p => negb (Dict.mem d p)) (Dict.keys (tool_params tool_info)));
    [contradiction|reflexivity].
Qed.

(** [f(a: int, b: int)] called with [{"a": 1}]: one response, naming [b]. *)
Lemma missing_parameters_reported_together_witness :
  CustomMCPClient.call_tool Sample.builtins Sample.env Sample.ab_client "f"
    (VDict [("a", VInt 1)]) empty_world
  = (empty_world, Ok (mkSimpleResponse (VStr "必須パラメータが不足しています: b"))).
Proof.
  apply (missing_parameters_reported_together Sample.builtins Sample.env Sample.ab_client
           "f" (VDict [("a", VInt 1)]) Sample.ab_tool [("a", VInt 1)] empty_world).
  - reflexivity.
  - reflexivity.
  - intros p ty v Hin Hget. simpl in Hin.
    destruct Hin as [Hin|[Hin|[]]]; injection Hin as <- <-.
    + simpl in Hget. injection Hget as <-. reflexivity.
    + simpl in Hget. discriminate Hget.
  - simpl. discriminate.
Defined.

(** ** Loading the script *)

Lemma count_emit (p : Event -> bool) (e : Event) (w : World) :
  count p (emit e w) = count p w + (if p e then 1 else 0).
Proof.
  unfold count, emit. simpl. rewrite filter_app, length_app. simpl.
  destruct (p e); reflexivity.
Qed.

Lemma import_and_run_exec_count (B : Builtins) (E : Env) (self : CustomMCPClient.t)
  (name : string) (processed_args : Dict.t PyValue) (w : World) :
  count is_exec_module (fst (CustomMCPClient.import_and_run B E self name processed_args w))
  = count is_exec_module w
    + (match CustomMCPClient.server_script_path self with
       | Some p => if Str.endswith p ".py" then 1 else 0
       | None => 0
       end).
Proof.
  unfold CustomMCPClient.import_and_run, try_except.
  destruct (CustomMCPClient.server_script_path self) as [p|]; simpl; [|lia].
  destruct (Str.endswith p ".py"); simpl; [|lia].
  unfold bind, CustomMCPClient.load_module.
  destruct (exec_module E (trace (emit (EvExecModule p) w)) p) as [module [e|]]; simpl.
  - unfold count. simpl. rewrite filter_app, length_app. reflexivity.
  - destruct (module name) as [f|]; simpl.
    + unfold ask, emit. simpl.
      destruct (fn_call f _ processed_args); simpl;
        unfold count; simpl; rewrite !filter_app, !length_app; simpl; lia.
    + unfold count. simpl. rewrite filter_app, length_app. reflexivity.
Qed.

Lemma call_tool_exec_count (B : Builtins) (E : Env) (self : CustomMCPClient.t)
  (call : string * PyValue) (w : World) :
  count is_exec_module (fst (CustomMCPClient.call_tool B E self (fst call) (snd call) w))
  = count is_exec_module w + (if reaches_import B self call then 1 else 0).
Proof.
  unfold CustomMCPClient.call_tool, reaches_import.
  destruct (CustomMCPClient.find_tool self (fst call)) as [tool_info|]; simpl; [|lia].
  destruct (CustomMCPClient.process_args B tool_info (snd call)) as [processed_args|early];
    simpl; [|lia].
  destruct (CustomMCPClient.missing_args tool_info processed_args); simpl; [|lia].
  rewrite import_and_run_exec_count.
  destruct (CustomMCPClient.server_script_path self) as [p|]; [|reflexivity].
  destruct (Str.endswith p ".py"); reflexivity.
Qed.

(** Against C3 as stated: two successful calls on one session execute the
    script twice. *)
Lemma script_loaded_twice :
  let '(c, w, _) := CustomMCPClient.connect_to_server Sample.env CustomMCPClient.init
                      "server.py" empty_world in
  let call := ("join", Sample.join_args) in
  snd (CustomMCPClient.call_tool Sample.builtins Sample.env c "join" Sample.join_args w)
  = Ok (mkSimpleResponse (VStr "a-b")) /\
  count is_exec_module w = 0 /\
  count is_exec_module (call_all Sample.builtins Sample.env c [call] w) = 1 /\
  count is_exec_module (call_all Sample.builtins Sample.env c [call; call] w) = 2.
Proof.
  vm_compute. repeat split.
Qed.

(** C3, as the code has it. Nothing is kept between calls: every call that
    gets as far as the import executes the script again, so the number of
    executions of the script grows by the number of such calls; a call that
    stops before the import executes nothing. *)
Theorem script_executed_on_every_call (B : Builtins) (E : Env) (self : CustomMCPClient.t)
  (calls : list (string * PyValue)) (w : World) :
  count is_exec_module (call_all B E self calls w)
  = count is_exec_module w + List.length (filter (reaches_import B self) calls).
Proof.
  revert w. induction calls as [|call calls IH]; intros w; simpl.
  - lia.
  - rewrite IH, call_tool_exec_count.
    destruct (reaches_import B self call); simpl; lia.
Qed.

(** ** Cleanup *)

Lemma aclose_closes (stack : list nat) (h : nat) :
  forall w, In h stack \/ MCPClient.is_closed h w = true ->
            MCPClient.is_closed h (MCPClient.aclose stack w) = true.
Proof.
  induction stack as [|h0 stack IH]; intros w H; simpl.
  - destruct H as [[]|H]. exact H.
  - apply IH. unfold MCPClient.is_closed. simpl.
    destruct (Nat.eqb h h0) eqn:Eh; simpl.
    + right. reflexivity.
    + destruct H as [[H|H]|H].
      * subst h0. rewrite Nat.eqb_refl in Eh. discriminate Eh.
      * left. exact H.
      * right. exact H.
Qed.

(** Against C4 as stated: after [cleanup] the in-process session still runs
    the tool. *)
Lemma cleanup_then_call_succeeds :
  let '(c, w, _) := CustomMCPClient.connect_to_server Sample.env CustomMCPClient.init
                      "server.py" empty_world in
  let '(c', w', r) := CustomMCPClient.cleanup c w in
  r = Ok true /\
  snd (CustomMCPClient.call_tool Sample.builtins Sample.env c' "join" Sample.join_args w')
  = Ok (mkSimpleResponse (VStr "a-b")).
Proof.
  vm_compute. split; reflexivity.
Qed.

Lemma connect_keeps_session_managed (E : Env) (self self' : MCPClient.t) (path : string)
  (w w' : World) (r : Result bool) :
  session_managed self w ->
  MCPClient.connect_to_server E self path w = (self', w', r) ->
  session_managed self' w'.
Proof.
  intros Hm. unfold MCPClient.connect_to_server.
  destruct (negb (Str.endswith path ".py" || Str.endswith path ".js")).
  - intros H. injection H as <- <- _. exact Hm.
  - destruct (stdio_client E _ _ _).
    + unfold MCPClient.fresh_handle, ask. simpl.
      destruct (session_initialize E _); [destruct (session_list_tools E _)|];
        intros H; injection H as <- <- _; intros h Hh; simpl in Hh;
        injection Hh as <-; left; simpl; auto.
    + intros H. injection H as <- <- _.
      intros h Hh. destruct (Hm h Hh) as [Hin|Hc]; [left; exact Hin | right; exact Hc].
Qed.

Lemma closed_session_raises {A : Type} (B : Builtins) (self : MCPClient.t) (attr : string)
  (request : M A) (w : World) :
  (forall h, MCPClient.session self = Some h -> MCPClient.is_closed h w = true) ->
  exists e, MCPClient.on_session B self attr request w = (w, Raise e).
Proof.
  intros H. unfold MCPClient.on_session.
  destruct (MCPClient.session self) as [h|].
  - rewrite (H h eq_refl). eexists. reflexivity.
  - eexists. reflexivity.
Qed.

(** C4, as the code has it. For both clients a second [cleanup] changes
    nothing after the first. The remote client's [cleanup] closes every
    context manager on its exit stack: afterwards a tool call on the session
    raises without reaching the server, and [process_query] raises before any
    model request. The in-process client's [cleanup] leaves the object and
    the world as they were, so a later call does what it would have done
    without it. *)
Theorem cleanup_twice_and_after (B : Builtins) (E : Env) :
  (forall self w,
     MCPClient.cleanup (fst (fst (MCPClient.cleanup self w))) (snd (fst (MCPClient.cleanup self w)))
     = (fst (fst (MCPClient.cleanup self w)), snd (fst (MCPClient.cleanup self w)), Ok tt)) /\
  (forall self w, CustomMCPClient.cleanup self w = (self, w, Ok true)) /\
  (forall self w name args,
     session_managed self w ->
     exists e,
       MCPClient.session_call_tool_ B E (fst (fst (MCPClient.cleanup self w))) name args
         (snd (fst (MCPClient.cleanup self w)))
       = (snd (fst (MCPClient.cleanup self w)), Raise e)) /\
  (forall self w query,
     session_managed self w ->
     exists e,
       MCPClient.process_query B E (fst (fst (MCPClient.cleanup self w))) query
         (snd (fst (MCPClient.cleanup self w)))
       = (snd (fst (MCPClient.cleanup self w)), Raise e)).
Proof.
  assert (forall self w, session_managed self w ->
            forall h, MCPClient.session (fst (fst (MCPClient.cleanup self w))) = Some h ->
                      MCPClient.is_closed h (snd (fst (MCPClient.cleanup self w))) = true) as Hclosed.
  { intros self w Hm h Hh. simpl in *. apply aclose_closes. apply Hm. exact Hh. }
  split; [|split; [|split]].
  - intros self w. reflexivity.
  - intros self w. reflexivity.
  - intros self w name args Hm.
    unfold MCPClient.session_call_tool_.
    apply closed_session_raises. apply Hclosed. exact Hm.
  - intros self w query Hm.
    unfold MCPClient.process_query, MCPClient.session_list_tools_, bind.
    destruct (closed_session_raises B (fst (fst (MCPClient.cleanup self w))) "list_tools"
                (ask EvListTools (session_list_tools E))
                (snd (fst (MCPClient.cleanup self w))) (Hclosed self w Hm)) as [e He].
    rewrite He. exists e. reflexivity.
Qed.

(** A connected remote client (session 1 over transport 0) after [cleanup]. *)
Lemma cleanup_twice_and_after_witness :
  session_managed (MCPClient.mk (Some 1) [1; 0]) empty_world /\
  exists e,
    MCPClient.session_call_tool_ Sample.builtins Sample.env
      (fst (fst (MCPClient.cleanup (MCPClient.mk (Some 1) [1; 0]) empty_world)))
      "join" Sample.join_args
      (snd (fst (MCPClient.cleanup (MCPClient.mk (Some 1) [1; 0]) empty_world)))
    = (snd (fst (MCPClient.cleanup (MCPClient.mk (Some 1) [1; 0]) empty_world)), Raise e).
Proof.
  assert (session_managed (MCPClient.mk (Some 1) [1; 0]) empty_world) as Hm.
  { intros h Hh. simpl in Hh. injection Hh as <-. left. simpl. auto. }
  split; [exact Hm|].
  exact (proj1 (proj2 (proj2 (cleanup_twice_and_after Sample.builtins Sample.env)))
           (MCPClient.mk (Some 1) [1; 0]) empty_world "join" Sample.join_args Hm).
Defined.

(** ** The query loop: requests *)

Lemma model_requests_app (t t' : list Event) :
  model_requests (t ++ t') = model_requests t ++ model_requests t'.
Proof.
  induction t as [|e t IH]; simpl; [reflexivity|].
  destruct e; simpl; rewrite ?IH; reflexivity.
Qed.

Lemma requests_between_delta (w w' : World) (d : list (list Message * ToolsArg)) :
  model_requests (trace w') = model_requests (trace w) ++ d ->
  requests_between w w' = d.
Proof.
  unfold requests_between. intros ->.
  rewrite skipn_app, skipn_all, Nat.sub_diag. reflexivity.
Qed.

Ltac silent :=
  eexists; eexists; split;
  [reflexivity
  | simpl; rewrite ?model_requests_app; simpl; rewrite ?app_nil_r; reflexivity].

Lemma import_and_run_silent (B : Builtins) (E : Env) (self : CustomMCPClient.t)
  (name : string) (processed_args : Dict.t PyValue) (w : World) :
  exists w' r,
    CustomMCPClient.import_and_run B E self name processed_args w = (w', Ok r) /\
    model_requests (trace w') = model_requests (trace w).
Proof.
  unfold CustomMCPClient.import_and_run, try_except.
  destruct (CustomMCPClient.server_script_path self) as [p|]; simpl; [|silent].
  destruct (Str.endswith p ".py"); simpl; [|silent].
  unfold bind, CustomMCPClient.load_module.
  destruct (exec_module E (trace (emit (EvExecModule p) w)) p) as [module [e|]]; simpl.
  - silent.
  - destruct (module name) as [f|]; simpl; [|silent].
    unfold ask, emit. simpl.
    destruct (fn_call f _ processed_args); simpl; silent.
Qed.

(** [call_tool] always returns a response, and asks the model nothing. *)
Lemma call_tool_returns (B : Builtins) (E : Env) (self : CustomMCPClient.t)
  (name : string) (tool_args : PyValue) (w : World) :
  exists w' r,
    CustomMCPClient.call_tool B E self name tool_args w = (w', Ok r) /\
    model_requests (trace w') = model_requests (trace w).
Proof.
  unfold CustomMCPClient.call_tool.
  destruct (CustomMCPClient.find_tool self name) as [tool_info|]; [|silent].
  destruct (CustomMCPClient.process_args B tool_info tool_args) as [processed_args|early];
    [|silent].
  destruct (CustomMCPClient.missing_args tool_info processed_args); [|silent].
  apply import_and_run_silent.
Qed.

(** The loop of the in-process client never raises. It adds one element to
    [tool_uses] for each tool-use block, in order, with the id of the block
    and the content that [call_tool] returned for it. *)
Lemma custom_loop (B : Builtins) (E : Env) (self : CustomMCPClient.t)
  (blocks : list ContentBlock) :
  forall final_text tool_uses w,
  exists w' final_text' added,
    CustomMCPClient.handle_blocks B E self blocks final_text tool_uses w
    = (w', Ok (final_text', tool_uses ++ added)) /\
    map CustomMCPClient.tool_result_of added = results_in_order B E self blocks w /\
    map CustomMCPClient.use_id added = tool_use_ids blocks /\
    List.length added = tool_use_count blocks /\
    model_requests (trace w') = model_requests (trace w) /\
    (forall tool_id name tool_args,
       In (ToolUseBlock tool_id name tool_args) blocks ->
       exists wi wi' r,
         CustomMCPClient.call_tool B E self name tool_args wi = (wi', Ok r) /\
         In (CustomMCPClient.mkToolUse tool_id name (response_content r)) added).
Proof.
  induction blocks as [|block blocks IH]; intros final_text tool_uses w.
  - exists w, final_text, []. simpl. rewrite app_nil_r.
    repeat split; try reflexivity. intros ? ? ? [].
  - destruct block as [text|tool_id name tool_args|ty]; simpl.
    + destruct (IH (final_text ++ [text]) tool_uses w)
        as [w' [ft' [added [Hrun [Hres [Hids [Hlen [Hreq Hin]]]]]]]].
      exists w', ft', added. repeat split; try assumption.
      intros i n a [Hd|Hd]; [discriminate Hd | apply Hin; exact Hd].
    + destruct (call_tool_returns B E self name tool_args w) as [w1 [r [Hcall Hsilent]]].
      unfold bind. rewrite Hcall.
      destruct (IH (final_text ++ [call_marker name; result_line B (response_content r)])
                   (tool_uses ++ [CustomMCPClient.mkToolUse tool_id name (response_content r)]) w1)
        as [w' [ft' [added [Hrun [Hres [Hids [Hlen [Hreq Hin]]]]]]]].
      exists w', ft', (CustomMCPClient.mkToolUse tool_id name (response_content r) :: added).
      split. { rewrite Hrun, <- app_assoc. reflexivity. }
      split. { simpl. rewrite Hres. reflexivity. }
      split. { simpl. rewrite Hids. reflexivity. }
      split. { unfold tool_use_count in *. simpl. rewrite Hlen. reflexivity. }
      split. { rewrite Hreq. exact Hsilent. }
      intros i n a [Hd|Hd].
      * injection Hd as <- <- <-. exists w, w1, r. split; [exact Hcall | left; reflexivity].
      * destruct (Hin i n a Hd) as [wi [wi' [r' [Hc Hi]]]].
        exists wi, wi', r'. split; [exact Hc | right; exact Hi].
    + destruct (IH final_text tool_uses w)
        as [w' [ft' [added [Hrun [Hres [Hids [Hlen [Hreq Hin]]]]]]]].
      exists w', ft', added. repeat split; try assumption.
      intros i n a [Hd|Hd]; [discriminate Hd | apply Hin; exact Hd].
Qed.

Lemma fst_bind_ret {A C : Type} (m : M A) (f : A -> C) (w : World) :
  fst (bind m (fun x => ret (f x)) w) = fst (m w).
Proof. unfold bind, ret. destruct (m w) as [w' [a|e]]; reflexivity. Qed.

Lemma follow_up_trace (B : Builtins) (E : Env) (query : string) (response : list ContentBlock)
  (final_text : list string) (tool_uses : list CustomMCPClient.ToolUse) (w : World) :
  tool_uses <> [] ->
  trace (fst (CustomMCPClient.follow_up B E query response final_text tool_uses w))
  = trace w ++ [EvModelRequest (CustomMCPClient.follow_up_messages query response tool_uses)
                               ToolsOmitted].
Proof.
  intros Hne. unfold CustomMCPClient.follow_up.
  destruct tool_uses as [|u tool_uses]; [contradiction|].
  unfold bind, create, ask, lift, ret.
  destruct (anthropic_create E _ _ _) as [[|first rest]|e]; simpl; try reflexivity.
  destruct (block_text B first); reflexivity.
Qed.

(** A turn of the in-process client whose first response has tool-use
    blocks: the loop ends normally, then exactly one more request is issued,
    without tools, whose last message carries the results. *)
Lemma custom_turn (B : Builtins) (E : Env) (self : CustomMCPClient.t) (query : string)
  (w w1 : World) (response : list ContentBlock) :
  CustomMCPClient.anthropic self = true ->
  create E [mkMessage User (CValue (VStr query))] (CustomMCPClient.tools_argument self) w
  = (w1, Ok response) ->
  1 <= tool_use_count response ->
  exists w2 w' r final_text tool_uses,
    CustomMCPClient.handle_blocks B E self response [] [] w1 = (w2, Ok (final_text, tool_uses)) /\
    CustomMCPClient.process_query B E self query w = (w', r) /\
    trace w' = trace w2 ++ [EvModelRequest
                              (CustomMCPClient.follow_up_messages query response tool_uses)
                              ToolsOmitted] /\
    model_requests (trace w')
    = model_requests (trace w)
      ++ [([mkMessage User (CValue (VStr query))], CustomMCPClient.tools_argument self);
          (CustomMCPClient.follow_up_messages query response tool_uses, ToolsOmitted)] /\
    map CustomMCPClient.tool_result_of tool_uses = results_in_order B E self response w1 /\
    map CustomMCPClient.use_id tool_uses = tool_use_ids response /\
    List.length tool_uses = tool_use_count response /\
    (forall tool_id name tool_args,
       In (ToolUseBlock tool_id name tool_args) response ->
       exists wi wi' r',
         CustomMCPClient.call_tool B E self name tool_args wi = (wi', Ok r') /\
         In (CustomMCPClient.mkToolUse tool_id name (response_content r')) tool_uses).
Proof.
  intros Hanth Hcreate Hk.
  destruct (custom_loop B E self response [] [] w1)
    as [w2 [ft [added [Hrun [Hres [Hids [Hlen [Hreq Hin]]]]]]]].
  simpl in Hrun.
  assert (model_requests (trace w1)
          = model_requests (trace w)
            ++ [([mkMessage User (CValue (VStr query))], CustomMCPClient.tools_argument self)])
    as Hfirst.
  { unfold create, ask in Hcreate. injection Hcreate as <- _. simpl.
    rewrite model_requests_app. reflexivity. }
  assert (added <> []) as Hne.
  { intros ->. simpl in Hlen. lia. }
  assert (trace (fst (CustomMCPClient.process_query B E self query w))
          = trace w2 ++ [EvModelRequest
                           (CustomMCPClient.follow_up_messages query response added)
                           ToolsOmitted]) as Htrace.
  { unfold CustomMCPClient.process_query. rewrite Hanth. simpl.
    unfold bind at 1. rewrite Hcreate.
    unfold bind at 1. rewrite Hrun. simpl.
    rewrite fst_bind_ret. apply follow_up_trace. exact Hne. }
  exists w2, (fst (CustomMCPClient.process_query B E self query w)),
         (snd (CustomMCPClient.process_query B E self query w)), ft, added.
  split; [exact Hrun|].
  split; [apply surjective_pairing|].
  split; [exact Htrace|].
  split. { rewrite Htrace, model_requests_app, Hreq, Hfirst, <- app_assoc. reflexivity. }
  repeat split; assumption.
Qed.

Lemma on_session_silent {A : Type} (B : Builtins) (self : MCPClient.t) (attr : string)
  (e : Event) (oracle : list Event -> Result A) (w w' : World) (r : Result A) :
  is_model_request e = false ->
  MCPClient.on_session B self attr (ask e oracle) w = (w', r) ->
  model_requests (trace w') = model_requests (trace w).
Proof.
  intros He. unfold MCPClient.on_session, raise, ask.
  destruct (MCPClient.session self) as [h|].
  - destruct (MCPClient.is_closed h w); intros H; injection H as <- _; [reflexivity|].
    simpl. rewrite model_requests_app. destruct e; try discriminate He; apply app_nil_r.
  - intros H. injection H as <- _. reflexivity.
Qed.

(** The call of a tool-use block never raises: an exception of the session
    is turned into the error text. *)
Lemma execute_tool_call_returns (B : Builtins) (E : Env) (self : MCPClient.t)
  (name : string) (tool_args : PyValue) (w : World) :
  exists w' v,
    MCPClient.execute_tool_call B E self name tool_args w = (w', Ok v) /\
    model_requests (trace w') = model_requests (trace w) /\
    (forall w1 e, MCPClient.session_call_tool_ B E self name tool_args w = (w1, Raise e) ->
                  w' = w1 /\ v = MCPClient.call_error e).
Proof.
  unfold MCPClient.execute_tool_call, try_except.
  destruct (MCPClient.session_call_tool_ B E self name tool_args w) as [w1 [v|e]] eqn:Hcall;
    unfold ret.
  - exists w1, v. split; [reflexivity|]. split.
    + unfold MCPClient.session_call_tool_ in Hcall.
      apply (on_session_silent B self "call_tool" (EvCallTool name tool_args) _ w w1 _
               eq_refl Hcall).
    + intros w2 e H. discriminate H.
  - exists w1, (MCPClient.call_error e). split; [reflexivity|]. split.
    + unfold MCPClient.session_call_tool_ in Hcall.
      apply (on_session_silent B self "call_tool" (EvCallTool name tool_args) _ w w1 _
               eq_refl Hcall).
    + intros w2 e' H. injection H as <- <-. split; reflexivity.
Qed.

(** After the call of a tool-use block one request is issued, without tools;
    its last message is a user message whose content is the result itself. *)
Lemma continue_conversation_requests (B : Builtins) (E : Env) (tool_id name : string)
  (tool_args v : PyValue) (l : MCPClient.Locals) (w : World) :
  exists r,
    MCPClient.continue_conversation B E (ToolUseBlock tool_id name tool_args) name v l w
    = (emit (EvModelRequest (MCPClient.messages l ++ [mkMessage User (CValue v)]) ToolsOmitted) w,
       r) /\
    (forall l', r = Ok l' ->
                MCPClient.messages l' = MCPClient.messages l ++ [mkMessage User (CValue v)]) /\
    (forall text rest,
       anthropic_create E
         (trace w ++ [EvModelRequest (MCPClient.messages l ++ [mkMessage User (CValue v)])
                                     ToolsOmitted])
         (MCPClient.messages l ++ [mkMessage User (CValue v)]) ToolsOmitted
       = Ok (TextBlock text :: rest) ->
       r = Ok (MCPClient.mkLocals
                 (MCPClient.messages l ++ [mkMessage User (CValue v)])
                 (MCPClient.tool_results l ++ [(name, v)])
                 (MCPClient.final_text l ++ [call_marker name; result_line B v; text]))).
Proof.
  unfold MCPClient.continue_conversation. simpl.
  unfold bind, create, ask, lift, ret. simpl.
  destruct (anthropic_create E _ _ _) as [response|e] eqn:Hresp.
  - destruct (MCPClient.first_text B response) as [text|e] eqn:Htext.
    + eexists. split; [reflexivity|]. split.
      * intros l' H. injection H as <-. reflexivity.
      * intros text' rest H. injection H as ->. simpl in Htext. injection Htext as <-.
        reflexivity.
    + eexists. split; [reflexivity|]. split.
      * intros l' H. discriminate H.
      * intros text' rest H. injection H as ->. simpl in Htext. discriminate Htext.
  - eexists. split; [reflexivity|]. split.
    + intros l' H. discriminate H.
    + intros text' rest H. discriminate H.
Qed.

(** The loop of the remote client issues one request for each tool-use block
    it gets through, every one without tools and made of messages that carry
    no tool-result entry. *)
Lemma mcp_loop (B : Builtins) (E : Env) (self : MCPClient.t) (blocks : list ContentBlock) :
  forall l w,
  Forall (fun m => entries_of m = []) (MCPClient.messages l) ->
  exists w' r d,
    MCPClient.handle_blocks B E self blocks l w = (w', r) /\
    model_requests (trace w') = model_requests (trace w) ++ d /\
    Forall (fun req => snd req = ToolsOmitted /\
                       Forall (fun m => entries_of m = []) (fst req) /\
                       exists earlier v, fst req = earlier ++ [mkMessage User (CValue v)]) d /\
    List.length d <= tool_use_count blocks /\
    (is_ok r = true -> List.length d = tool_use_count blocks).
Proof.
  induction blocks as [|block blocks IH]; intros l w Hplain.
  - exists w, (Ok l), []. simpl. rewrite app_nil_r.
    repeat split; auto.
  - destruct block as [text|tool_id name tool_args|ty]; simpl.
    + destruct (IH (MCPClient.mkLocals (MCPClient.messages l) (MCPClient.tool_results l)
                      (MCPClient.final_text l ++ [text])) w Hplain)
        as [w' [r [d [Hrun [Hreq [Hd [Hle Hok]]]]]]].
      exists w', r, d. repeat split; assumption.
    + destruct (execute_tool_call_returns B E self name tool_args w)
        as [w1 [v [Hexec [Hsilent _]]]].
      destruct (continue_conversation_requests B E tool_id name tool_args v l w1)
        as [r1 [Hcont [Hmsgs _]]].
      assert (Forall (fun m => entries_of m = [])
                     (MCPClient.messages l ++ [mkMessage User (CValue v)])) as Hplain'.
      { apply Forall_app. split; [exact Hplain|]. constructor; [reflexivity|constructor]. }
      unfold bind, MCPClient.handle_tool_use. unfold bind. rewrite Hexec, Hcont.
      destruct r1 as [l'|e].
      * assert (Forall (fun m => entries_of m = []) (MCPClient.messages l')) as Hl'.
        { rewrite (Hmsgs l' eq_refl). exact Hplain'. }
        destruct (IH l' (emit (EvModelRequest
                                 (MCPClient.messages l ++ [mkMessage User (CValue v)])
                                 ToolsOmitted) w1) Hl')
          as [w' [r [d [Hrun [Hreq [Hd [Hle Hok]]]]]]].
        exists w', r, ((MCPClient.messages l ++ [mkMessage User (CValue v)], ToolsOmitted) :: d).
        split; [exact Hrun|].
        split. { rewrite Hreq. simpl. rewrite model_requests_app, Hsilent. simpl.
                 rewrite <- app_assoc. reflexivity. }
        split. { constructor; [split; [reflexivity | split; [exact Hplain' | eexists; eexists; reflexivity]] | exact Hd]. }
        unfold tool_use_count in *. simpl. split; [lia|]. intros H. rewrite (Hok H). reflexivity.
      * exists (emit (EvModelRequest (MCPClient.messages l ++ [mkMessage User (CValue v)])
                                     ToolsOmitted) w1),
               (Raise e), [(MCPClient.messages l ++ [mkMessage User (CValue v)], ToolsOmitted)].
        split; [reflexivity|].
        split. { simpl. rewrite model_requests_app, Hsilent. reflexivity. }
        split. { constructor; [split; [reflexivity | split; [exact Hplain' | eexists; eexists; reflexivity]] | constructor]. }
        unfold tool_use_count. simpl. split; [lia|]. intros H. discriminate H.
    + destruct (IH l w Hplain) as [w' [r [d [Hrun [Hreq [Hd [Hle Hok]]]]]]].
      exists w', r, d. repeat split; assumption.
Qed.

(** The requests of the loop of the remote client are the ones of
    [remote_follow_ups]. *)
Lemma mcp_loop_exact (B : Builtins) (E : Env) (self : MCPClient.t)
  (blocks : list ContentBlock) :
  forall l w,
    model_requests (trace (fst (MCPClient.handle_blocks B E self blocks l w)))
    = model_requests (trace w)
      ++ remote_follow_ups B E self blocks (MCPClient.messages l) w.
Proof.
  induction blocks as [|block blocks IH]; intros l w.
  - simpl. rewrite app_nil_r. reflexivity.
  - destruct block as [text|tool_id name tool_args|ty]; simpl.
    + rewrite IH. reflexivity.
    + assert (model_requests (trace (fst (remote_result B E self name tool_args w)))
              = model_requests (trace w)) as Hsilent.
      { unfold remote_result.
        destruct (MCPClient.session_call_tool_ B E self name tool_args w) as [w1 r] eqn:Hcall.
        unfold MCPClient.session_call_tool_ in Hcall.
        pose proof (on_session_silent B self "call_tool" (EvCallTool name tool_args) _ w w1 r
                      eq_refl Hcall) as H.
        destruct r; exact H. }
      assert (MCPClient.execute_tool_call B E self name tool_args w
              = (fst (remote_result B E self name tool_args w),
                 Ok (snd (remote_result B E self name tool_args w)))) as Hexec.
      { unfold MCPClient.execute_tool_call, try_except, remote_result, ret.
        destruct (MCPClient.session_call_tool_ B E self name tool_args w) as [w1 [v|e]];
          reflexivity. }
      destruct (remote_result B E self name tool_args w) as [w1 v]. simpl in Hsilent, Hexec.
      unfold bind at 1. unfold MCPClient.handle_tool_use. unfold bind at 1. rewrite Hexec.
      unfold MCPClient.continue_conversation. simpl.
      unfold bind at 1. unfold create, ask. simpl.
      destruct (anthropic_create E _ _ ToolsOmitted) as [[|[text|i n a|ty] rest]|e];
        simpl; try (rewrite model_requests_app, Hsilent; reflexivity).
      rewrite IH. simpl. rewrite model_requests_app, Hsilent, <- app_assoc. reflexivity.
    + apply IH.
Qed.

(** A turn of the remote client, from the first response on. *)
Lemma mcp_turn (B : Builtins) (E : Env) (self : MCPClient.t) (query : string)
  (w w0 w1 : World) (tools : list ToolDecl) (response : list ContentBlock) :
  MCPClient.session_list_tools_ B E self w = (w0, Ok tools) ->
  create E [mkMessage User (CValue (VStr query))] (ToolsGiven tools) w0 = (w1, Ok response) ->
  exists w' r d,
    MCPClient.process_query B E self query w = (w', r) /\
    model_requests (trace w')
    = model_requests (trace w)
      ++ ([mkMessage User (CValue (VStr query))], ToolsGiven tools) :: d /\
    Forall (fun req => snd req = ToolsOmitted /\
                       Forall (fun m => entries_of m = []) (fst req) /\
                       exists earlier v, fst req = earlier ++ [mkMessage User (CValue v)]) d /\
    List.length d <= tool_use_count response /\
    (is_ok r = true -> List.length d = tool_use_count response) /\
    d = remote_follow_ups B E self response [mkMessage User (CValue (VStr query))] w1.
Proof.
  intros Hlist Hcreate.
  assert (Forall (fun m => entries_of m = []) [mkMessage User (CValue (VStr query))]) as Hplain.
  { constructor; [reflexivity | constructor]. }
  destruct (mcp_loop B E self response
              (MCPClient.mkLocals [mkMessage User (CValue (VStr query))] [] []) w1 Hplain)
    as [w' [r [d [Hrun [Hreq [Hd [Hle Hok]]]]]]].
  assert (model_requests (trace w0) = model_requests (trace w)) as H0.
  { unfold MCPClient.session_list_tools_ in Hlist.
    apply (on_session_silent B self "list_tools" EvListTools _ w w0 _ eq_refl Hlist). }
  assert (model_requests (trace w1)
          = model_requests (trace w0)
            ++ [([mkMessage User (CValue (VStr query))], ToolsGiven tools)]) as H1.
  { unfold create, ask in Hcreate. injection Hcreate as <- _. simpl.
    rewrite model_requests_app. reflexivity. }
  exists w', (match r with
              | Ok l => Ok (Str.join newline (MCPClient.final_text l))
              | Raise e => Raise e
              end), d.
  split.
  { unfold MCPClient.process_query. unfold bind at 1. rewrite Hlist.
    unfold bind at 1. rewrite Hcreate. unfold bind, ret. rewrite Hrun.
    destruct r; reflexivity. }
  split. { rewrite Hreq, H1, H0, <- app_assoc. reflexivity. }
  split; [exact Hd|]. split; [exact Hle|].
  split. { intros H. apply Hok. destruct r; [reflexivity | discriminate H]. }
  pose proof (mcp_loop_exact B E self response
                (MCPClient.mkLocals [mkMessage User (CValue (VStr query))] [] []) w1) as Hexact.
  rewrite Hrun in Hexact. simpl in Hexact. rewrite Hreq in Hexact.
  apply app_inv_head in Hexact. exact Hexact.
Qed.

(** ** C1: the number of follow-up requests *)

(** Against C1 as stated: with two tool-use blocks in the first response the
    remote client issues two follow-up requests. *)
Lemma remote_follow_up_per_block :
  let '(c, w, _) := MCPClient.connect_to_server Sample.env MCPClient.init "server.py"
                      empty_world in
  let w' := fst (MCPClient.process_query Sample.builtins Sample.env c "q" w) in
  anthropic_create Sample.env (trace w) [mkMessage User (CValue (VStr "q"))]
    (ToolsGiven [Sample.join_decl]) = Ok Sample.first_response /\
  tool_use_count Sample.first_response = 2 /\
  is_ok (snd (MCPClient.process_query Sample.builtins Sample.env c "q" w)) = true /\
  map snd (requests_between w w') = [ToolsGiven [Sample.join_decl]; ToolsOmitted; ToolsOmitted] /\
  List.length (requests_between w w') - 1 <> 1.
Proof.
  vm_compute. repeat split. discriminate.
Qed.

(** C1, as the code has it. The first response has k >= 1 tool-use blocks.
    The in-process client then issues exactly one more request, without
    tools, whatever k is. The remote client issues one more request after
    each tool-use block: k of them, all without tools, when the turn ends
    normally. *)
Theorem follow_up_requests_per_turn (B : Builtins) (E : Env) (query : string) (w : World) :
  (forall (self : CustomMCPClient.t) w1 response,
     CustomMCPClient.anthropic self = true ->
     create E [mkMessage User (CValue (VStr query))] (CustomMCPClient.tools_argument self) w
     = (w1, Ok response) ->
     1 <= tool_use_count response ->
     exists tool_uses,
       requests_between w (fst (CustomMCPClient.process_query B E self query w))
       = [([mkMessage User (CValue (VStr query))], CustomMCPClient.tools_argument self);
          (CustomMCPClient.follow_up_messages query response tool_uses, ToolsOmitted)]) /\
  (forall (self : MCPClient.t) w0 w1 tools response,
     MCPClient.session_list_tools_ B E self w = (w0, Ok tools) ->
     create E [mkMessage User (CValue (VStr query))] (ToolsGiven tools) w0 = (w1, Ok response) ->
     1 <= tool_use_count response ->
     is_ok (snd (MCPClient.process_query B E self query w)) = true ->
     exists follow_ups,
       requests_between w (fst (MCPClient.process_query B E self query w))
       = ([mkMessage User (CValue (VStr query))], ToolsGiven tools) :: follow_ups /\
       List.length follow_ups = tool_use_count response /\
       Forall (fun req => snd req = ToolsOmitted) follow_ups).
Proof.
  split.
  - intros self w1 response Hanth Hcreate Hk.
    destruct (custom_turn B E self query w w1 response Hanth Hcreate Hk)
      as [w2 [w' [r [ft [tool_uses [_ [Hrun [_ [Hreq _]]]]]]]]].
    exists tool_uses. rewrite Hrun. simpl.
    apply requests_between_delta. exact Hreq.
  - intros self w0 w1 tools response Hlist Hcreate _ Hok.
    destruct (mcp_turn B E self query w w0 w1 tools response Hlist Hcreate)
      as [w' [r [d [Hrun [Hreq [Hd [_ [Hlen _]]]]]]]].
    rewrite Hrun in Hok |- *. simpl in Hok |- *.
    exists d. split; [apply requests_between_delta; exact Hreq|].
    split; [apply Hlen; exact Hok|].
    eapply Forall_impl; [|exact Hd]. intros req [H _]. exact H.
Qed.

(** The sample turn in both clients. *)
Lemma follow_up_requests_per_turn_witness :
  let c := CustomMCPClient.mk true
             [mkToolInfo "join" "Join two strings" [("x", "str"); ("y", "str")] "str"]
             (Some "server.py") in
  let m := MCPClient.mk (Some 1) [1; 0] in
  (CustomMCPClient.anthropic c = true /\
   1 <= tool_use_count Sample.first_response /\
   exists tool_uses,
     requests_between empty_world
       (fst (CustomMCPClient.process_query Sample.builtins Sample.env c "q" empty_world))
     = [([mkMessage User (CValue (VStr "q"))], CustomMCPClient.tools_argument c);
        (CustomMCPClient.follow_up_messages "q" Sample.first_response tool_uses, ToolsOmitted)]) /\
  (is_ok (snd (MCPClient.process_query Sample.builtins Sample.env m "q" empty_world)) = true /\
   exists follow_ups,
     requests_between empty_world
       (fst (MCPClient.process_query Sample.builtins Sample.env m "q" empty_world))
     = ([mkMessage User (CValue (VStr "q"))], ToolsGiven [Sample.join_decl]) :: follow_ups /\
     List.length follow_ups = tool_use_count Sample.first_response /\
     Forall (fun req => snd req = ToolsOmitted) follow_ups).
Proof.
  split.
  - split; [reflexivity|]. split; [vm_compute; lia|].
    apply (proj1 (follow_up_requests_per_turn Sample.builtins Sample.env "q" empty_world)
             _ (emit (EvModelRequest [mkMessage User (CValue (VStr "q"))]
                        (CustomMCPClient.tools_argument
                           (CustomMCPClient.mk true
                              [mkToolInfo "join" "Join two strings"
                                          [("x", "str"); ("y", "str")] "str"]
                              (Some "server.py")))) empty_world)).
    + reflexivity.
    + reflexivity.
    + vm_compute. lia.
  - split; [vm_compute; reflexivity|].
    apply (proj2 (follow_up_requests_per_turn Sample.builtins Sample.env "q" empty_world)
             (MCPClient.mk (Some 1) [1; 0])
             (emit EvListTools empty_world)
             (emit (EvModelRequest [mkMessage User (CValue (VStr "q"))]
                                   (ToolsGiven [Sample.join_decl]))
                   (emit EvListTools empty_world))).
    + reflexivity.
    + reflexivity.
    + vm_compute. lia.
    + vm_compute. reflexivity.
Defined.

(** ** C2: the tool-result entries of the follow-up message *)

(** Against C2 as stated: the user messages that the remote client adds
    after its two calls carry the bare results, no entry and no id. *)
Lemma remote_follow_up_has_no_entries :
  let '(c, w, _) := MCPClient.connect_to_server Sample.env MCPClient.init "server.py"
                      empty_world in
  let w' := fst (MCPClient.process_query Sample.builtins Sample.env c "q" w) in
  let q := mkMessage User (CValue (VStr "q")) in
  let result := mkMessage User (CValue (VList [VStr "a-b"])) in
  tool_use_ids Sample.first_response = ["toolu_1"; "toolu_2"] /\
  requests_between w w'
  = [([q], ToolsGiven [Sample.join_decl]);
     ([q; result], ToolsOmitted);
     ([q; result; result], ToolsOmitted)] /\
  entries_of result = [] /\
  map tool_use_id (entries_of result) <> tool_use_ids Sample.first_response.
Proof.
  vm_compute. repeat split. discriminate.
Qed.

(** C2, as the code has it. In-process client: when the first response has
    tool-use blocks, the one follow-up request consists of the query, the
    assistant's blocks as received and a last user message whose tool-result
    entries are exactly the results of the calls, one per tool-use block, in
    the order of the blocks, each with the id of its block. Remote client: no
    message of any of its requests has a tool-result entry, hence no id; the
    last message of each follow-up request is a user message whose content is
    the result of the call itself. The follow-up requests are exactly those
    of [remote_follow_ups]: after each call the conversation so far, with one
    more user message whose content is what the session returned for that
    call, or the error text of the exception it raised, is sent without
    tools. *)
Theorem tool_results_of_follow_up (B : Builtins) (E : Env) (query : string) (w : World) :
  (forall (self : CustomMCPClient.t) w1 response,
     CustomMCPClient.anthropic self = true ->
     create E [mkMessage User (CValue (VStr query))] (CustomMCPClient.tools_argument self) w
     = (w1, Ok response) ->
     1 <= tool_use_count response ->
     exists final,
       requests_between w (fst (CustomMCPClient.process_query B E self query w))
       = [([mkMessage User (CValue (VStr query))], CustomMCPClient.tools_argument self);
          ([mkMessage User (CValue (VStr query)); mkMessage Assistant (CBlocks response); final],
           ToolsOmitted)] /\
       role final = User /\
       entries_of final = results_in_order B E self response w1 /\
       map tool_use_id (entries_of final) = tool_use_ids response /\
       List.length (entries_of final) = tool_use_count response) /\
  (forall (self : MCPClient.t) w0 w1 tools response,
     MCPClient.session_list_tools_ B E self w = (w0, Ok tools) ->
     create E [mkMessage User (CValue (VStr query))] (ToolsGiven tools) w0 = (w1, Ok response) ->
     exists follow_ups,
       requests_between w (fst (MCPClient.process_query B E self query w))
       = ([mkMessage User (CValue (VStr query))], ToolsGiven tools) :: follow_ups /\
       Forall (fun req => Forall (fun m => entries_of m = []) (fst req) /\
                          exists earlier v, fst req = earlier ++ [mkMessage User (CValue v)])
              follow_ups /\
       follow_ups
       = remote_follow_ups B E self response [mkMessage User (CValue (VStr query))] w1).
Proof.
  split.
  - intros self w1 response Hanth Hcreate Hk.
    destruct (custom_turn B E self query w w1 response Hanth Hcreate Hk)
      as [w2 [w' [r [ft [tool_uses [_ [Hrun [_ [Hreq [Hres [Hids [Hlen _]]]]]]]]]]]].
    exists (mkMessage User (CToolResults (map CustomMCPClient.tool_result_of tool_uses))).
    rewrite Hrun. simpl.
    split; [apply requests_between_delta; exact Hreq|].
    split; [reflexivity|].
    unfold entries_of. simpl.
    split; [exact Hres|].
    split; [rewrite map_map; exact Hids|].
    rewrite length_map. exact Hlen.
  - intros self w0 w1 tools response Hlist Hcreate.
    destruct (mcp_turn B E self query w w0 w1 tools response Hlist Hcreate)
      as [w' [r [d [Hrun [Hreq [Hd [_ [_ Hexact]]]]]]]].
    rewrite Hrun. simpl.
    exists d. split; [apply requests_between_delta; exact Hreq|].
    split; [|exact Hexact].
    eapply Forall_impl; [|exact Hd]. intros req [_ H]. exact H.
Qed.

(** The sample turn in both clients. *)
Lemma tool_results_of_follow_up_witness :
  let c := CustomMCPClient.mk true
             [mkToolInfo "join" "Join two strings" [("x", "str"); ("y", "str")] "str"]
             (Some "server.py") in
  let m := MCPClient.mk (Some 1) [1; 0] in
  let first := emit (EvModelRequest [mkMessage User (CValue (VStr "q"))]
                                    (CustomMCPClient.tools_argument c)) empty_world in
  (CustomMCPClient.anthropic c = true /\
   1 <= tool_use_count Sample.first_response /\
   exists final,
     requests_between empty_world
       (fst (CustomMCPClient.process_query Sample.builtins Sample.env c "q" empty_world))
     = [([mkMessage User (CValue (VStr "q"))], CustomMCPClient.tools_argument c);
        ([mkMessage User (CValue (VStr "q")); mkMessage Assistant (CBlocks Sample.first_response);
          final], ToolsOmitted)] /\
     role final = User /\
     entries_of final = results_in_order Sample.builtins Sample.env c Sample.first_response first /\
     map tool_use_id (entries_of final) = tool_use_ids Sample.first_response /\
     List.length (entries_of final) = tool_use_count Sample.first_response) /\
  (exists follow_ups,
     requests_between empty_world
       (fst (MCPClient.process_query Sample.builtins Sample.env m "q" empty_world))
     = ([mkMessage User (CValue (VStr "q"))], ToolsGiven [Sample.join_decl]) :: follow_ups /\
     Forall (fun req => Forall (fun msg => entries_of msg = []) (fst req) /\
                        exists earlier v, fst req = earlier ++ [mkMessage User (CValue v)])
            follow_ups /\
     follow_ups
     = remote_follow_ups Sample.builtins Sample.env m Sample.first_response
         [mkMessage User (CValue (VStr "q"))]
         (emit (EvModelRequest [mkMessage User (CValue (VStr "q"))]
                               (ToolsGiven [Sample.join_decl]))
               (emit EvListTools empty_world))).
Proof.
  split.
  - split; [reflexivity|]. split; [vm_compute; lia|].
    apply (proj1 (tool_results_of_follow_up Sample.builtins Sample.env "q" empty_world)).
    + reflexivity.
    + reflexivity.
    + vm_compute. lia.
  - apply (proj2 (tool_results_of_follow_up Sample.builtins Sample.env "q" empty_world)
             (MCPClient.mk (Some 1) [1; 0])
             (emit EvListTools empty_world)
             (emit (EvModelRequest [mkMessage User (CValue (VStr "q"))]
                                   (ToolsGiven [Sample.join_decl]))
                   (emit EvListTools empty_world))
             [Sample.join_decl] Sample.first_response).
    + reflexivity.
    + reflexivity.
Defined.

(** ** C9: a failed call *)







Ltac sample_exceptions :=
  unfold exceptions_only; simpl; repeat split; intros;
  unfold Sample.script_module in *;
  repeat (match goal with
          | H : Ok _ = Raise _ |- _ => discriminate H
          | H : None = Some _ |- _ => discriminate H
          | H : Some _ = Some _ |- _ => injection H as H; subst
          | H : Raise _ = Raise _ |- _ => injection H as H; subst
          | H : context [match ?x with _ => _ end] |- _ => destruct x eqn:?
          end; simpl in *);
  try reflexivity; try discriminate.

Lemma sample_exceptions_only : exceptions_only Sample.env.
Proof. sample_exceptions. Qed.



Lemma failing_follow_up_exceptions_only : exceptions_only Sample.env_failing_follow_up.
Proof. sample_exceptions. Qed.

Lemma failing_once_exceptions_only : exceptions_only Sample.env_failing_once.
Proof. sample_exceptions. Qed.


(** * Further properties of the code *)

Lemma new_events_delta (w w' : World) (delta : list Event) :
  trace w' = trace w ++ delta -> new_events w w' = delta.
Proof.
  unfold new_events. intros ->. rewrite skipn_app, skipn_all, Nat.sub_diag. reflexivity.
Qed.

Lemma tools_argument_given (client : CustomMCPClient.t) :
  CustomMCPClient.available_tools client <> [] ->
  CustomMCPClient.tools_argument client = ToolsGiven (CustomMCPClient.anthropic_tools client).
Proof.
  unfold CustomMCPClient.tools_argument, CustomMCPClient.anthropic_tools.
  destruct (CustomMCPClient.available_tools client); [contradiction|reflexivity].
Qed.

(** ** Static extraction *)

Lemma dict_keys_set_new {V : Type} (d : Dict.t V) (k : string) (v : V) :
  Dict.mem d k = false -> Dict.keys (Dict.set d k v) = Dict.keys d ++ [k].
Proof.
  unfold Dict.mem. induction d as [|[k0 v0] d IH]; simpl.
  - reflexivity.
  - destruct (String.eqb k k0) eqn:E; simpl; [discriminate|].
    intros H. rewrite IH; [reflexivity | exact H].
Qed.

Lemma dict_mem_in {V : Type} (d : Dict.t V) (k : string) :
  Dict.mem d k = true <-> In k (Dict.keys d).
Proof.
  unfold Dict.mem. induction d as [|[k0 v0] d IH]; simpl.
  - split; [discriminate | intros []].
  - destruct (String.eqb k k0) eqn:E.
    + apply String.eqb_eq in E. subst. split; auto.
    + rewrite IH. split; [auto|]. intros [H|H]; [|exact H].
      subst. rewrite String.eqb_refl in E. discriminate E.
Qed.

(** X2. Reading the tools of a script never raises and reads the file once.
    When the file cannot be read the result is empty; otherwise there is one
    tool for each match of the pattern, in the order of the matches, with the
    name and the return type of the match. *)
Theorem extraction_never_raises (E : Env) (path : string) (w : World) :
  exists tools,
    extract_tools_from_script E path w = (emit (EvReadScript path) w, Ok tools) /\
    match read_script E (trace w ++ [EvReadScript path]) path with
    | Raise _ => tools = []
    | Ok script_content =>
        map tool_name tools
        = map (fun m => fst (fst (fst m))) (findall_tools E script_content) /\
        map tool_return_type tools
        = map (fun m => snd (fst m)) (findall_tools E script_content)
    end.
Proof.
  unfold extract_tools_from_script, try_except, bind, ask, ret. simpl.
  destruct (read_script E (trace w ++ [EvReadScript path]) path) as [script_content|e].
  - eexists. split; [reflexivity|].
    rewrite !map_map. split; apply map_ext; intros [[[a b] c] d]; reflexivity.
  - eexists. split; reflexivity.
Qed.

(** ** The schema sent to the model and the conversion *)

(** X3. A converted argument has the Python type that the schema type
    advertised for its parameter stands for: a number ([int], [float] or
    [bool]) for "number", an [int] (or [bool]) for "integer", a [bool] for
    "boolean" and a [str] for "string". *)
Theorem converted_value_has_advertised_type (B : Builtins) (param_type : string)
  (v v' : PyValue) :
  CustomMCPClient.convert B param_type v = Ok v' ->
  has_schema_type (CustomMCPClient.schema_type param_type) v' = true.
Proof.
  unfold CustomMCPClient.convert, CustomMCPClient.schema_type.
  destruct (Str.contains "float" param_type).
  - destruct (Py.isinstance_int_float v) eqn:Hnum; simpl.
    + intros H. invert_ok. exact Hnum.
    + destruct (Py.float_ B v); intros H; invert_ok. reflexivity.
  - destruct (Str.contains "int" param_type).
    + destruct (Py.isinstance_int v) eqn:Hint; simpl.
      * intros H. invert_ok. exact Hint.
      * destruct (Py.float_ B v) as [f|]; [|discriminate].
        destruct (Py.int_of_float B f); intros H; invert_ok. reflexivity.
    + destruct (Str.contains "bool" param_type).
      * destruct (Py.isinstance_bool v) eqn:Hbool; simpl.
        -- intros H. invert_ok. exact Hbool.
        -- destruct v; intros H; invert_ok; reflexivity.
      * intros H. invert_ok. reflexivity.
Qed.

(** "1.5" under the annotation [float]. *)
Lemma converted_value_has_advertised_type_witness :
  CustomMCPClient.convert Sample.builtins "float" (VStr "1.5") = Ok (VFloat 1.5%float) /\
  has_schema_type (CustomMCPClient.schema_type "float") (VFloat 1.5%float) = true.
Proof.
  assert (CustomMCPClient.convert Sample.builtins "float" (VStr "1.5") = Ok (VFloat 1.5%float))
    as H by reflexivity.
  split; [exact H|].
  exact (converted_value_has_advertised_type Sample.builtins "float" (VStr "1.5")
           (VFloat 1.5%float) H).
Defined.

Lemma schema_fold_keys (params : Dict.t string) :
  forall props,
    NoDup (Dict.keys props ++ Dict.keys params) ->
    Dict.keys (fold_left (fun props p =>
                            Dict.set props (fst p)
                              (VDict [("type", VStr (CustomMCPClient.schema_type (snd p)))]))
                         params props)
    = Dict.keys props ++ Dict.keys params.
Proof.
  induction params as [|[p ty] params IH]; intros props Hnd; simpl.
  - rewrite app_nil_r. reflexivity.
  - simpl in Hnd.
    assert (Dict.mem props p = false) as Hfresh.
    { destruct (Dict.mem props p) eqn:Hm; [|reflexivity].
      apply dict_mem_in in Hm. apply NoDup_remove_2 in Hnd.
      exfalso. apply Hnd. apply in_or_app. left. exact Hm. }
    rewrite IH.
    + rewrite dict_keys_set_new by exact Hfresh. rewrite <- app_assoc. reflexivity.
    + rewrite dict_keys_set_new by exact Hfresh. rewrite <- app_assoc. exact Hnd.
Qed.

Lemma schema_fold_get (params : Dict.t string) :
  forall props p ty,
    NoDup (Dict.keys params) ->
    In (p, ty) params ->
    Dict.get (fold_left (fun props p =>
                           Dict.set props (fst p)
                             (VDict [("type", VStr (CustomMCPClient.schema_type (snd p)))]))
                        params props) p
    = Some (VDict [("type", VStr (CustomMCPClient.schema_type ty))]).
Proof.
  induction params as [|[p0 ty0] params IH]; intros props p ty Hnd Hin; simpl.
  - destruct Hin.
  - simpl in Hnd. inversion Hnd as [|x l Hnotin Hnd']. subst.
    destruct Hin as [Heq|Hin].
    + injection Heq as -> ->.
      assert (forall l props0,
                ~ In p (Dict.keys l) ->
                Dict.get (fold_left (fun props p =>
                           Dict.set props (fst p)
                             (VDict [("type", VStr (CustomMCPClient.schema_type (snd p)))]))
                        l props0) p = Dict.get props0 p) as Hkeep.
      { clear. induction l as [|[q tq] l IHl]; intros props0 Hn; simpl; [reflexivity|].
        rewrite IHl.
        - rewrite dict_get_set. destruct (String.eqb p q) eqn:E; [|reflexivity].
          apply String.eqb_eq in E. subst q. exfalso. apply Hn. left. reflexivity.
        - intros H. apply Hn. right. exact H. }
      rewrite Hkeep by exact Hnotin.
      rewrite dict_get_set, String.eqb_refl. reflexivity.
    + apply IH; assumption.
Qed.

Lemma forall2_map {A C : Type} (R : A -> C -> Prop) (f : A -> C) (l : list A) :
  (forall x, R x (f x)) -> Forall2 R l (map f l).
Proof.
  intros H. induction l as [|x l IH]; simpl; constructor; [apply H | exact IH].
Qed.

(** X4. No tools argument is sent to the model exactly when the table is
    empty. Otherwise the tools sent are the tools of the table, one for one
    and in the same order, each under its name and with its description; the
    schema of a tool is an object whose required names are the parameters of
    the tool, in order, and, for a tool whose parameter names are distinct,
    whose properties are these parameters, in order, each with the type
    "number" when its annotation contains [float], else "integer" when it
    contains [int], else "boolean" when it contains [bool], else "string".
    [list_tools] gives the same declarations without the required names. *)
Theorem advertised_tools_match_table (self : CustomMCPClient.t) :
  let advertised := fun ty : string =>
    if Str.contains "float" ty then "number"
    else if Str.contains "int" ty then "integer"
    else if Str.contains "bool" ty then "boolean"
    else "string" in
  let declares := fun (schema : Dict.t PyValue -> ToolInfo -> PyValue)
                      (tool_info : ToolInfo) (decl : ToolDecl) =>
    decl_name decl = tool_name tool_info /\
    decl_description decl = tool_description tool_info /\
    exists props,
      input_schema decl = schema props tool_info /\
      (NoDup (Dict.keys (tool_params tool_info)) ->
       Dict.keys props = Dict.keys (tool_params tool_info) /\
       forall p ty, In (p, ty) (tool_params tool_info) ->
                    Dict.get props p = Some (VDict [("type", VStr (advertised ty))])) in
  (CustomMCPClient.tools_argument self = ToolsNone
   <-> CustomMCPClient.available_tools self = []) /\
  (CustomMCPClient.available_tools self <> [] ->
   CustomMCPClient.tools_argument self = ToolsGiven (CustomMCPClient.anthropic_tools self)) /\
  Forall2 (declares (fun props tool_info =>
                       VDict [("type", VStr "object"); ("properties", VDict props);
                              ("required",
                               VList (map VStr (Dict.keys (tool_params tool_info))))]))
          (CustomMCPClient.available_tools self) (CustomMCPClient.anthropic_tools self) /\
  Forall2 (declares (fun props _ =>
                       VDict [("type", VStr "object"); ("properties", VDict props)]))
          (CustomMCPClient.available_tools self) (CustomMCPClient.list_tools self).
Proof.
  intros advertised declares.
  assert (forall tool_info,
            exists props,
              CustomMCPClient.schema_properties tool_info = VDict props /\
              (NoDup (Dict.keys (tool_params tool_info)) ->
               Dict.keys props = Dict.keys (tool_params tool_info) /\
               forall p ty, In (p, ty) (tool_params tool_info) ->
                            Dict.get props p = Some (VDict [("type", VStr (advertised ty))])))
    as Hprops.
  { intros tool_info. unfold CustomMCPClient.schema_properties.
    eexists. split; [reflexivity|]. intros Hnd. split.
    - rewrite schema_fold_keys; [reflexivity | exact Hnd].
    - intros p ty Hin. apply schema_fold_get; assumption. }
  split; [|split; [|split]].
  - unfold CustomMCPClient.tools_argument, CustomMCPClient.anthropic_tools.
    destruct (CustomMCPClient.available_tools self); simpl; split;
      intros H; try reflexivity; discriminate H.
  - apply tools_argument_given.
  - unfold CustomMCPClient.anthropic_tools. apply forall2_map.
    intros tool_info. unfold declares. simpl.
    split; [reflexivity|]. split; [reflexivity|].
    destruct (Hprops tool_info) as [props [Heq Hp]].
    exists props. rewrite Heq. unfold Dict.keys. rewrite map_map.
    split; [reflexivity | exact Hp].
  - unfold CustomMCPClient.list_tools. apply forall2_map.
    intros tool_info. unfold declares. simpl.
    split; [reflexivity|]. split; [reflexivity|].
    destruct (Hprops tool_info) as [props [Heq Hp]].
    exists props. rewrite Heq. split; [reflexivity | exact Hp].
Qed.

(** The tool of the sample table, as it is sent to the model. *)
Lemma advertised_tools_match_table_witness :
  NoDup (Dict.keys (tool_params Sample.ab_tool)) /\
  exists decl props,
    CustomMCPClient.anthropic_tools Sample.ab_client = [decl] /\
    decl_name decl = "f" /\
    decl_description decl = "two integers" /\
    input_schema decl
    = VDict [("type", VStr "object"); ("properties", VDict props);
             ("required", VList [VStr "a"; VStr "b"])] /\
    Dict.keys props = ["a"; "b"] /\
    Dict.get props "b" = Some (VDict [("type", VStr "integer")]).
Proof.
  assert (NoDup (Dict.keys (tool_params Sample.ab_tool))) as Hnd.
  { simpl. constructor; [intros [H|[]]; discriminate H|].
    constructor; [intros []|constructor]. }
  split; [exact Hnd|].
  pose proof (proj1 (proj2 (proj2 (advertised_tools_match_table Sample.ab_client)))) as H.
  cbv zeta in H.
  destruct (CustomMCPClient.anthropic_tools Sample.ab_client) as [|decl decls] eqn:Hdecls;
    [discriminate Hdecls|].
  destruct decls as [|decl' decls]; [|discriminate Hdecls].
  inversion H as [|ti d tis ds [Hname [Hdesc [props [Hschema Hp]]]] Hrest]. subst.
  destruct (Hp Hnd) as [Hkeys Hget].
  exists decl, props. split; [reflexivity|].
  split; [exact Hname|]. split; [exact Hdesc|]. split; [exact Hschema|].
  split; [exact Hkeys|]. apply (Hget "b" "int"). simpl. auto.
Defined.

(** ** Connecting, continued *)

(** X5. With a path ending in [.py] or [.js] the in-process client always
    connects: it reads the file once, starts no process, records the path and
    replaces its table by the tools that [extract_tools_from_script] finds in
    the file, which are none when the file cannot be read. *)
Theorem in_process_connect_always_succeeds (E : Env) (self : CustomMCPClient.t)
  (path : string) (w : World) :
  Str.endswith path ".py" || Str.endswith path ".js" = true ->
  exists tools,
    extract_tools_from_script E path w = (emit (EvReadScript path) w, Ok tools) /\
    CustomMCPClient.connect_to_server E self path w
    = (CustomMCPClient.mk (CustomMCPClient.anthropic self) tools (Some path),
       emit (EvReadScript path) w, Ok true) /\
    (forall e, read_script E (trace w ++ [EvReadScript path]) path = Raise e -> tools = []) /\
    new_events w (emit (EvReadScript path) w) = [EvReadScript path] /\
    count is_spawn (emit (EvReadScript path) w) = count is_spawn w.
Proof.
  intros Hext. unfold CustomMCPClient.connect_to_server. rewrite Hext. simpl.
  destruct (extract_tools_never_raises E path w) as [tools Hx].
  exists tools. rewrite Hx. split; [reflexivity|]. split; [reflexivity|].
  split.
  - intros e He. unfold extract_tools_from_script, try_except, bind, ask, ret in Hx.
    simpl in Hx. rewrite He in Hx. injection Hx as <-. reflexivity.
  - split; [apply new_events_delta; reflexivity|].
    rewrite count_emit. simpl. lia.
Qed.

(** A script that cannot be read. *)
Lemma in_process_connect_always_succeeds_witness :
  let E := mkEnv (anthropic_create Sample.env)
                 (fun _ _ => Raise (mkExn (OtherException "FileNotFoundError") "server.py"))
                 (findall_tools Sample.env) (exec_module Sample.env)
                 (stdio_client Sample.env) (session_initialize Sample.env)
                 (session_list_tools Sample.env) (session_call_tool Sample.env) in
  Str.endswith "server.py" ".py" || Str.endswith "server.py" ".js" = true /\
  CustomMCPClient.connect_to_server E Sample.ab_client "server.py" empty_world
  = (CustomMCPClient.mk true [] (Some "server.py"),
     emit (EvReadScript "server.py") empty_world, Ok true).
Proof.
  split; [reflexivity|].
  destruct (in_process_connect_always_succeeds
              (mkEnv (anthropic_create Sample.env)
                 (fun _ _ => Raise (mkExn (OtherException "FileNotFoundError") "server.py"))
                 (findall_tools Sample.env) (exec_module Sample.env)
                 (stdio_client Sample.env) (session_initialize Sample.env)
                 (session_list_tools Sample.env) (session_call_tool Sample.env))
              Sample.ab_client "server.py" empty_world eq_refl) as [tools [_ [Hc [Ht _]]]].
  rewrite Hc, (Ht _ eq_refl). reflexivity.
Defined.

(** X6. With a path ending in [.py] or [.js] the remote client starts exactly
    one process: [python] for [.py], [node] otherwise, with the path as its
    only argument. When the process cannot be started the object is
    unchanged. When the connection succeeds, the effects were, in this order:
    the start of the process, the opening of the session, the initialization
    and the listing of the tools; the session and its transport are the two
    newest entries of the exit stack. *)
Theorem remote_connect_spawns_once (E : Env) (self self' : MCPClient.t) (path : string)
  (w w' : World) (r : Result bool) :
  Str.endswith path ".py" || Str.endswith path ".js" = true ->
  MCPClient.connect_to_server E self path w = (self', w', r) ->
  let command := if Str.endswith path ".py" then "python" else "node" in
  (exists rest, new_events w w' = EvSpawn command [path] :: rest) /\
  count is_spawn w' = count is_spawn w + 1 /\
  (forall e, stdio_client E (trace w ++ [EvSpawn command [path]]) command [path] = Raise e ->
             self' = self /\ r = Raise e) /\
  (is_ok r = true ->
   new_events w w' = [EvSpawn command [path]; EvSessionOpen (S (next_handle w));
                      EvInitialize; EvListTools] /\
   MCPClient.session self' = Some (S (next_handle w)) /\
   MCPClient.exit_stack self'
   = S (next_handle w) :: next_handle w :: MCPClient.exit_stack self).
Proof.
  intros Hext. unfold MCPClient.connect_to_server, new_events. rewrite Hext. simpl.
  destruct (stdio_client E (trace w ++ [EvSpawn _ [path]]) _ [path]) as [[]|e0] eqn:Hspawn.
  - unfold ask. simpl.
    destruct (session_initialize E _) as [[]|e1];
      [destruct (session_list_tools E _) as [tools|e2]|];
      intros H; injection H as <- <- <-; simpl;
      rewrite <- ?app_assoc; simpl;
      (split; [eexists; rewrite skipn_app, skipn_all, Nat.sub_diag; reflexivity|]);
      (split; [unfold count; simpl; rewrite !filter_app, !length_app; simpl; lia|]);
      (split; [intros e He; discriminate He|]);
      intros Hok; try discriminate Hok.
    rewrite skipn_app, skipn_all, Nat.sub_diag. repeat split.
  - intros H. injection H as <- <- <-. simpl.
    split; [eexists; rewrite skipn_app, skipn_all, Nat.sub_diag; reflexivity|].
    split; [unfold count; simpl; rewrite filter_app, length_app; simpl; lia|].
    split; [intros e He; injection He as <-; split; reflexivity|].
    intros Hok. discriminate Hok.
Qed.

(** The sample server, started from a new object. *)
Lemma remote_connect_spawns_once_witness :
  Str.endswith "server.py" ".py" || Str.endswith "server.py" ".js" = true /\
  new_events empty_world
    (snd (fst (MCPClient.connect_to_server Sample.env MCPClient.init "server.py" empty_world)))
  = [EvSpawn "python" ["server.py"]; EvSessionOpen 1; EvInitialize; EvListTools].
Proof.
  split; [reflexivity|].
  destruct (MCPClient.connect_to_server Sample.env MCPClient.init "server.py" empty_world)
    as [[self' w'] r] eqn:Hc.
  destruct (remote_connect_spawns_once Sample.env MCPClient.init self' "server.py"
              empty_world w' r eq_refl Hc) as [_ [_ [_ Hok]]].
  apply Hok. vm_compute in Hc. injection Hc as _ _ <-. reflexivity.
Defined.

(** ** Releasing what was opened *)

Lemma connect_keeps_handles_accounted (E : Env) (self self' : MCPClient.t) (path : string)
  (w w' : World) (r : Result bool) :
  handles_accounted self w ->
  MCPClient.connect_to_server E self path w = (self', w', r) ->
  handles_accounted self' w'.
Proof.
  intros Hacc. unfold MCPClient.connect_to_server.
  destruct (negb (Str.endswith path ".py" || Str.endswith path ".js")).
  - intros H. injection H as <- <- _. exact Hacc.
  - destruct (stdio_client E _ _ _).
    + unfold MCPClient.fresh_handle, ask. simpl.
      destruct (session_initialize E _); [destruct (session_list_tools E _)|];
        intros H; injection H as <- <- _; intros h Hh; simpl in *;
        (destruct (Nat.eq_dec h (S (next_handle w))) as [->|Hn1]; [left; left; reflexivity|]);
        (destruct (Nat.eq_dec h (next_handle w)) as [->|Hn0];
           [left; right; left; reflexivity|]);
        (destruct (Hacc h ltac:(lia)) as [Hin|Hc];
           [left; right; right; exact Hin | right; exact Hc]).
    + intros H. injection H as <- <- _.
      intros h Hh. simpl in Hh. exact (Hacc h Hh).
Qed.

Lemma connect_all_keeps_handles_accounted (E : Env) (paths : list string) :
  forall self w,
    handles_accounted self w ->
    handles_accounted (fst (connect_all E self paths w)) (snd (connect_all E self paths w)).
Proof.
  induction paths as [|path paths IH]; intros self w Hacc; simpl; [exact Hacc|].
  destruct (MCPClient.connect_to_server E self path w) as [[self' w'] r] eqn:Hc.
  apply IH. exact (connect_keeps_handles_accounted E self self' path w w' r Hacc Hc).
Qed.

Lemma aclose_next_handle (stack : list nat) :
  forall w, next_handle (MCPClient.aclose stack w) = next_handle w.
Proof.
  induction stack as [|h stack IH]; intros w; simpl; [reflexivity|].
  rewrite IH. reflexivity.
Qed.

(** X7. Whatever connections were attempted on a remote client, and however
    each of them ended (refused extension, process not started, failed
    initialization, failed listing, success), one [cleanup] afterwards leaves
    every transport and every session that was opened closed, and the exit
    stack empty. *)
Theorem cleanup_releases_every_handle (E : Env) (paths : list string) :
  let self := fst (connect_all E MCPClient.init paths empty_world) in
  let w := snd (connect_all E MCPClient.init paths empty_world) in
  let after := MCPClient.cleanup self w in
  MCPClient.exit_stack (fst (fst after)) = [] /\
  forall h, h < next_handle (snd (fst after)) ->
            MCPClient.is_closed h (snd (fst after)) = true.
Proof.
  simpl. split; [reflexivity|].
  intros h Hh. rewrite aclose_next_handle in Hh.
  apply aclose_closes.
  apply (connect_all_keeps_handles_accounted E paths MCPClient.init empty_world);
    [|exact Hh].
  intros h0 H0. simpl in H0. lia.
Qed.

(** ** What a call does *)

Lemma import_and_run_events (B : Builtins) (E : Env) (self : CustomMCPClient.t)
  (name : string) (processed_args : Dict.t PyValue) (w : World) :
  exists w' r delta,
    CustomMCPClient.import_and_run B E self name processed_args w = (w', Ok r) /\
    trace w' = trace w ++ delta /\
    (delta = [] \/
     exists p, CustomMCPClient.server_script_path self = Some p /\
               (delta = [EvExecModule p] \/
                exists awaited, delta = [EvExecModule p; EvInvoke name processed_args awaited])).
Proof.
  unfold CustomMCPClient.import_and_run, try_except.
  destruct (CustomMCPClient.server_script_path self) as [p|]; simpl.
  - destruct (Str.endswith p ".py"); simpl.
    + unfold bind, CustomMCPClient.load_module.
      destruct (exec_module E (trace (emit (EvExecModule p) w)) p) as [module [e|]]; simpl.
      * eexists. eexists. exists [EvExecModule p]. split; [reflexivity|].
        split; [reflexivity|]. right. exists p. split; [reflexivity|]. left. reflexivity.
      * destruct (module name) as [f|]; simpl.
        -- unfold ask, emit. simpl.
           destruct (fn_call f _ processed_args); simpl;
             (eexists; eexists;
              exists [EvExecModule p; EvInvoke name processed_args (is_coroutine f)];
              split; [reflexivity|]; split; [simpl; rewrite <- app_assoc; reflexivity|];
              right; exists p; split; [reflexivity|]; right; eexists; reflexivity).
        -- eexists. eexists. exists [EvExecModule p]. split; [reflexivity|].
           split; [reflexivity|]. right. exists p. split; [reflexivity|]. left. reflexivity.
    + eexists. eexists. exists []. split; [reflexivity|].
      split; [symmetry; apply app_nil_r|]. left. reflexivity.
  - eexists. eexists. exists []. split; [reflexivity|].
    split; [symmetry; apply app_nil_r|]. left. reflexivity.
Qed.

Lemma import_and_run_world (B : Builtins) (E : Env) (self : CustomMCPClient.t)
  (name : string) (processed_args : Dict.t PyValue) (w : World) :
  exists w' r,
    CustomMCPClient.import_and_run B E self name processed_args w = (w', Ok r) /\
    next_handle w' = next_handle w /\
    closed w' = closed w /\
    ((trace w' = trace w /\ sys_modules w' = sys_modules w) \/
     exists p,
       CustomMCPClient.server_script_path self = Some p /\
       sys_modules w'
       = Dict.set (sys_modules w) (Str.drop_last 3 (basename B p))
                  (fst (exec_module E (trace w ++ [EvExecModule p]) p)) /\
       (trace w' = trace w ++ [EvExecModule p] \/
        exists awaited,
          trace w' = trace w ++ [EvExecModule p; EvInvoke name processed_args awaited])).
Proof.
  unfold CustomMCPClient.import_and_run, try_except.
  destruct (CustomMCPClient.server_script_path self) as [p|]; simpl.
  2:{ eexists. eexists. split; [reflexivity|]. repeat split. left. split; reflexivity. }
  destruct (Str.endswith p ".py"); simpl.
  2:{ eexists. eexists. split; [reflexivity|]. repeat split. left. split; reflexivity. }
  unfold bind, CustomMCPClient.load_module. simpl.
  destruct (exec_module E (trace w ++ [EvExecModule p]) p) as [module [e|]] eqn:Hexec; simpl.
  - eexists. eexists. split; [reflexivity|]. split; [reflexivity|]. split; [reflexivity|].
    right. exists p. rewrite Hexec. split; [reflexivity|]. split; [reflexivity|].
    left. reflexivity.
  - destruct (module name) as [f|]; simpl.
    + unfold ask, emit. simpl.
      destruct (fn_call f _ processed_args); simpl;
        (eexists; eexists; split; [reflexivity|]; split; [reflexivity|];
         split; [reflexivity|];
         right; exists p; rewrite Hexec; split; [reflexivity|]; split; [reflexivity|];
         right; exists (is_coroutine f); simpl; rewrite <- app_assoc; reflexivity).
    + eexists. eexists. split; [reflexivity|]. split; [reflexivity|]. split; [reflexivity|].
      right. exists p. rewrite Hexec. split; [reflexivity|]. split; [reflexivity|].
      left. reflexivity.
Qed.

(** X8. In an environment that raises inside [Exception] only, a call in
    the in-process client never raises: whatever goes wrong in the arguments,
    the import or the function comes back as the content of a response. Its
    only effects are at most one execution of the session's script, with the
    module it defines registered in [sys.modules] under the name of the file
    without its extension, followed by at most one invocation, of the
    function that was named; no context manager is opened or closed. *)
Theorem call_tool_never_raises (B : Builtins) (E : Env) (self : CustomMCPClient.t)
  (name : string) (tool_args : PyValue) (w : World) :
  exceptions_only E ->
  exists w' r,
    CustomMCPClient.call_tool B E self name tool_args w = (w', Ok r) /\
    next_handle w' = next_handle w /\
    closed w' = closed w /\
    ((new_events w w' = [] /\ sys_modules w' = sys_modules w) \/
     exists p,
       CustomMCPClient.server_script_path self = Some p /\
       sys_modules w'
       = Dict.set (sys_modules w) (Str.drop_last 3 (basename B p))
                  (fst (exec_module E (trace w ++ [EvExecModule p]) p)) /\
       (new_events w w' = [EvExecModule p] \/
        exists kwargs awaited,
          new_events w w' = [EvExecModule p; EvInvoke name kwargs awaited])).
Proof.
  intros _.
  assert (new_events w w = []) as Hnone.
  { apply new_events_delta. symmetry. apply app_nil_r. }
  assert (forall r : SimpleResponse,
            exists w' r',
              (w, Ok r) = (w', Ok r') /\
              next_handle w' = next_handle w /\
              closed w' = closed w /\
              ((new_events w w' = [] /\ sys_modules w' = sys_modules w) \/
               exists p,
                 CustomMCPClient.server_script_path self = Some p /\
                 sys_modules w'
                 = Dict.set (sys_modules w) (Str.drop_last 3 (basename B p))
                            (fst (exec_module E (trace w ++ [EvExecModule p]) p)) /\
                 (new_events w w' = [EvExecModule p] \/
                  exists kwargs awaited,
                    new_events w w' = [EvExecModule p; EvInvoke name kwargs awaited])))
    as Hearly.
  { intros r. exists w, r. repeat split. left. split; [exact Hnone | reflexivity]. }
  unfold CustomMCPClient.call_tool, ret.
  destruct (CustomMCPClient.find_tool self name) as [tool_info|]; [|apply Hearly].
  destruct (CustomMCPClient.process_args B tool_info tool_args) as [processed_args|early];
    [|apply Hearly].
  destruct (CustomMCPClient.missing_args tool_info processed_args); [|apply Hearly].
  destruct (import_and_run_world B E self name processed_args w)
    as [w' [r [Hrun [Hnext [Hclosed Heffects]]]]].
  exists w', r. split; [exact Hrun|]. split; [exact Hnext|]. split; [exact Hclosed|].
  destruct Heffects as [[Htrace Hmod]|[p [Hp [Hmod [Htrace|[awaited Htrace]]]]]].
  - left. split; [|exact Hmod]. apply new_events_delta. rewrite Htrace, app_nil_r. reflexivity.
  - right. exists p. split; [exact Hp|]. split; [exact Hmod|].
    left. apply new_events_delta. exact Htrace.
  - right. exists p. split; [exact Hp|]. split; [exact Hmod|].
    right. exists processed_args, awaited. apply new_events_delta. exact Htrace.
Qed.

(** The sample tool: the script is executed and registered, the function is
    invoked. *)
Lemma call_tool_never_raises_witness :
  exceptions_only Sample.env /\
  exists w' r,
    CustomMCPClient.call_tool Sample.builtins Sample.env Sample.join_client "join"
      Sample.join_args empty_world = (w', Ok r) /\
    Dict.keys (sys_modules w') = ["server"] /\
    new_events empty_world w'
    = [EvExecModule "server.py"; EvInvoke "join" [("x", VStr "a"); ("y", VStr "b")] true].
Proof.
  split; [exact sample_exceptions_only|].
  destruct (call_tool_never_raises Sample.builtins Sample.env Sample.join_client "join"
              Sample.join_args empty_world sample_exceptions_only)
    as [w' [r [Hrun [_ [_ Heffects]]]]].
  exists w', r. split; [exact Hrun|].
  vm_compute in Hrun. injection Hrun as <- _.
  split; reflexivity.
Defined.

Lemma process_params_inl (B : Builtins) (d : Dict.t PyValue) (params : Dict.t string) :
  forall acc acc',
    CustomMCPClient.process_params B (VDict d) params acc = inl acc' ->
    NoDup (Dict.keys params) ->
    (forall k, In k (Dict.keys params) -> Dict.mem acc k = false) ->
    Dict.keys acc' = Dict.keys acc ++ filter (Dict.mem d) (Dict.keys params) /\
    (forall p ty v, In (p, ty) params -> Dict.get d p = Some v ->
                    exists v', CustomMCPClient.convert B ty v = Ok v' /\
                               Dict.get acc' p = Some v') /\
    (forall k, ~ In k (Dict.keys params) -> Dict.get acc' k = Dict.get acc k).
Proof.
  induction params as [|[p ty] params IH]; intros acc acc' Hrun Hnd Hfresh.
  - simpl in Hrun. injection Hrun as <-. simpl. rewrite app_nil_r.
    split; [reflexivity|]. split; [intros ? ? ? []|]. reflexivity.
  - simpl in Hrun, Hnd. inversion Hnd as [|x l Hnotin Hnd']. subst.
    unfold Dict.mem at 1 in Hrun.
    destruct (Dict.get d p) as [v|] eqn:Hget.
    + destruct (CustomMCPClient.convert B ty v) as [v'|e] eqn:Hconv;
        [|destruct (CustomMCPClient.caught_by_inner (exn_kind e)); discriminate Hrun].
      assert (Dict.mem acc p = false) as Hp by (apply Hfresh; left; reflexivity).
      destruct (IH (Dict.set acc p v') acc' Hrun Hnd') as [Hkeys [Hvals Hother]].
      { intros k Hk. rewrite dict_mem_set.
        destruct (String.eqb k p) eqn:E.
        - apply String.eqb_eq in E. subst k. contradiction.
        - simpl. apply Hfresh. right. exact Hk. }
      split.
      { rewrite Hkeys, dict_keys_set_new by exact Hp. simpl.
        unfold Dict.mem at 2. rewrite Hget. rewrite <- app_assoc. reflexivity. }
      split.
      { intros q tq u [Heq|Hin] Hu.
        - injection Heq as <- <-. rewrite Hget in Hu. injection Hu as <-.
          exists v'. split; [exact Hconv|].
          rewrite (Hother p Hnotin), dict_get_set, String.eqb_refl. reflexivity.
        - exact (Hvals q tq u Hin Hu). }
      intros k Hk. rewrite Hother.
      * rewrite dict_get_set. destruct (String.eqb k p) eqn:E; [|reflexivity].
        apply String.eqb_eq in E. subst k. exfalso. apply Hk. left. reflexivity.
      * intros H. apply Hk. right. exact H.
    + destruct (IH acc acc' Hrun Hnd') as [Hkeys [Hvals Hother]].
      { intros k Hk. apply Hfresh. right. exact Hk. }
      split.
      { rewrite Hkeys. simpl. unfold Dict.mem at 2. rewrite Hget. reflexivity. }
      split.
      { intros q tq u [Heq|Hin] Hu.
        - injection Heq as <- <-. rewrite Hget in Hu. discriminate Hu.
        - exact (Hvals q tq u Hin Hu). }
      intros k Hk. apply Hother. intros H. apply Hk. right. exact H.
Qed.

Lemma filter_all_true {A : Type} (f : A -> bool) (l : list A) :
  (forall x, In x l -> f x = true) -> filter f l = l.
Proof.
  induction l as [|a l IH]; intros H; simpl; [reflexivity|].
  rewrite (H a (or_introl eq_refl)), IH; [reflexivity|].
  intros x Hx. apply H. right. exact Hx.
Qed.

Lemma filter_none_left {A : Type} (f : A -> bool) (l : list A) :
  filter (fun x => negb (f x)) l = [] -> forall x, In x l -> f x = true.
Proof.
  induction l as [|a l IH]; intros H x Hx; simpl in *; [destruct Hx|].
  destruct (f a) eqn:Ha; simpl in H; [|discriminate H].
  destruct Hx as [<-|Hx]; [exact Ha | exact (IH H x Hx)].
Qed.

(** X9. The tool is in the table with distinct parameter names and the raw
    arguments are a dictionary (or the text of one). If the call invokes a
    function at all, it is the function that was named, and its keyword
    arguments are exactly the declared parameters, in declaration order, each
    bound to the conversion of the value supplied for it: whatever else the
    dictionary holds is not passed on. *)
Theorem invoked_with_declared_parameters (B : Builtins) (E : Env)
  (self : CustomMCPClient.t) (name : string) (tool_args : PyValue)
  (tool_info : ToolInfo) (d : Dict.t PyValue) (w : World)
  (invoked : string) (kwargs : Dict.t PyValue) (awaited : bool) :
  CustomMCPClient.find_tool self name = Some tool_info ->
  args_dict B tool_args = Some d ->
  NoDup (Dict.keys (tool_params tool_info)) ->
  In (EvInvoke invoked kwargs awaited)
     (new_events w (fst (CustomMCPClient.call_tool B E self name tool_args w))) ->
  invoked = name /\
  Dict.keys kwargs = Dict.keys (tool_params tool_info) /\
  forall p ty, In (p, ty) (tool_params tool_info) ->
               exists v v', Dict.get d p = Some v /\
                            CustomMCPClient.convert B ty v = Ok v' /\
                            Dict.get kwargs p = Some v'.
Proof.
  intros Hfind Hdict Hnd.
  assert (new_events w w = []) as Hnone.
  { apply new_events_delta. symmetry. apply app_nil_r. }
  unfold CustomMCPClient.call_tool. rewrite Hfind.
  rewrite (process_args_dict B tool_info tool_args d Hdict).
  destruct (CustomMCPClient.process_params B (VDict d) (tool_params tool_info) [])
    as [processed_args|early] eqn:Hrun;
    [|simpl; rewrite Hnone; intros []].
  destruct (CustomMCPClient.missing_args tool_info processed_args) eqn:Hmissing;
    [|simpl; rewrite Hnone; intros []].
  destruct (import_and_run_events B E self name processed_args w)
    as [w' [r [delta [Himport [Htrace Hdelta]]]]].
  rewrite Himport. simpl. rewrite (new_events_delta w w' delta Htrace).
  intros Hin.
  assert (invoked = name /\ kwargs = processed_args) as [-> ->].
  { destruct Hdelta as [->|[p [_ [->|[a ->]]]]].
    - destruct Hin.
    - destruct Hin as [H|[]]. discriminate H.
    - destruct Hin as [H|[H|[]]]; [discriminate H|].
      injection H as <- <- _. split; reflexivity. }
  destruct (process_params_inl B d (tool_params tool_info) [] processed_args Hrun Hnd
              (fun k _ => eq_refl)) as [Hkeys [Hvals _]].
  simpl in Hkeys.
  assert (forall k, In k (Dict.keys (tool_params tool_info)) -> Dict.mem d k = true) as Hall.
  { intros k Hk.
    pose proof (filter_none_left (Dict.mem processed_args)
                  (Dict.keys (tool_params tool_info)) Hmissing k Hk) as Hmem.
    apply dict_mem_in in Hmem. rewrite Hkeys in Hmem.
    apply filter_In in Hmem. exact (proj2 Hmem). }
  split; [reflexivity|]. split.
  - rewrite Hkeys. apply filter_all_true. exact Hall.
  - intros p ty Hp.
    assert (Dict.mem d p = true) as Hmem.
    { apply Hall. apply (in_map fst) in Hp. exact Hp. }
    unfold Dict.mem in Hmem. destruct (Dict.get d p) as [v|] eqn:Hget; [|discriminate Hmem].
    destruct (Hvals p ty v Hp Hget) as [v' [Hconv Hgot]].
    exists v, v'. repeat split; assumption.
Qed.

(** [join(x, y)] called with an argument it does not declare. *)
Lemma invoked_with_declared_parameters_witness :
  let c := CustomMCPClient.mk true
             [mkToolInfo "join" "Join two strings" [("x", "str"); ("y", "str")] "str"]
             (Some "server.py") in
  let args := [("z", VInt 0); ("y", VStr "b"); ("x", VStr "a")] in
  let kwargs := [("x", VStr "a"); ("y", VStr "b")] in
  In (EvInvoke "join" kwargs true)
     (new_events empty_world
        (fst (CustomMCPClient.call_tool Sample.builtins Sample.env c "join" (VDict args)
                empty_world))) /\
  Dict.keys kwargs = ["x"; "y"].
Proof.
  assert (In (EvInvoke "join" [("x", VStr "a"); ("y", VStr "b")] true)
            (new_events empty_world
               (fst (CustomMCPClient.call_tool Sample.builtins Sample.env
                       (CustomMCPClient.mk true
                          [mkToolInfo "join" "Join two strings"
                                      [("x", "str"); ("y", "str")] "str"]
                          (Some "server.py"))
                       "join" (VDict [("z", VInt 0); ("y", VStr "b"); ("x", VStr "a")])
                       empty_world)))) as Hin.
  { vm_compute. right. left. reflexivity. }
  split; [exact Hin|].
  assert (NoDup (Dict.keys [("x", "str"); ("y", "str")])) as Hnd.
  { simpl. constructor; [intros [H|[]]; discriminate H|].
    constructor; [intros []|constructor]. }
  exact (proj1 (proj2 (invoked_with_declared_parameters Sample.builtins Sample.env
                         (CustomMCPClient.mk true
                            [mkToolInfo "join" "Join two strings"
                                        [("x", "str"); ("y", "str")] "str"]
                            (Some "server.py"))
                         "join" (VDict [("z", VInt 0); ("y", VStr "b"); ("x", VStr "a")])
                         (mkToolInfo "join" "Join two strings"
                                     [("x", "str"); ("y", "str")] "str")
                         [("z", VInt 0); ("y", VStr "b"); ("x", VStr "a")]
                         empty_world "join" [("x", VStr "a"); ("y", VStr "b")] true
                         eq_refl eq_refl Hnd Hin))).
Defined.

Lemma process_params_app (B : Builtins) (tool_args : PyValue) (pre rest : Dict.t string) :
  forall acc,
    CustomMCPClient.process_params B tool_args (pre ++ rest) acc
    = match CustomMCPClient.process_params B tool_args pre acc with
      | inl acc' => CustomMCPClient.process_params B tool_args rest acc'
      | inr early => inr early
      end.
Proof.
  induction pre as [|[p ty] pre IH]; intros acc; simpl; [reflexivity|].
  destruct (Py.contains_ B tool_args p) as [[|]|e]; try reflexivity; [|apply IH].
  destruct (Py.getitem B tool_args p) as [v|e]; [|reflexivity].
  destruct (CustomMCPClient.convert B ty v) as [v'|e]; [apply IH|].
  destruct (CustomMCPClient.caught_by_inner (exn_kind e)); reflexivity.
Qed.

(** X10. The tool is in the table and the raw arguments are a dictionary (or
    the text of one). When a supplied value does not convert, the call ends
    at the first such parameter in declaration order: its response names
    that parameter and carries the message of the exception when this is a
    [ValueError] or a [TypeError], and is the general argument-processing
    error for any other exception (the [OverflowError] of an infinite number
    under [int]). Nothing is loaded or invoked. *)
Theorem conversion_error_names_first_offender (B : Builtins) (E : Env)
  (self : CustomMCPClient.t) (name : string) (tool_args : PyValue)
  (tool_info : ToolInfo) (d : Dict.t PyValue) (w : World)
  (pre post : Dict.t string) (p ty : string) (v : PyValue) (e : Exn) :
  CustomMCPClient.find_tool self name = Some tool_info ->
  args_dict B tool_args = Some d ->
  tool_params tool_info = pre ++ (p, ty) :: post ->
  (forall q tq u, In (q, tq) pre -> Dict.get d q = Some u ->
                  is_ok (CustomMCPClient.convert B tq u) = true) ->
  Dict.get d p = Some v ->
  CustomMCPClient.convert B ty v = Raise e ->
  CustomMCPClient.call_tool B E self name tool_args w
  = (w, Ok (if CustomMCPClient.caught_by_inner (exn_kind e)
            then mkSimpleResponse
                   (VStr ("パラメータ " ++ p ++ " の型変換に失敗しました: " ++ exn_msg e))
            else mkSimpleResponse
                   (VStr ("引数処理中にエラーが発生しました: " ++ exn_msg e)))).
Proof.
  intros Hfind Hdict Hparams Hpre Hget Hconv.
  unfold CustomMCPClient.call_tool. rewrite Hfind.
  rewrite (process_args_dict B tool_info tool_args d Hdict), Hparams, process_params_app.
  destruct (process_params_dict B d pre Hpre []) as [acc [Hrun _]].
  rewrite Hrun. simpl. unfold Dict.mem. rewrite Hget, Hconv.
  destruct (CustomMCPClient.caught_by_inner (exn_kind e)); reflexivity.
Qed.

(** [f(a: int, b: int)] with an infinite [b]. *)
Lemma conversion_error_names_first_offender_witness :
  CustomMCPClient.call_tool Sample.builtins Sample.env Sample.ab_client "f"
    (VDict [("a", VInt 1); ("b", VFloat infinity)]) empty_world
  = (empty_world,
     Ok (mkSimpleResponse (VStr "引数処理中にエラーが発生しました: bad operand for int"))).
Proof.
  apply (conversion_error_names_first_offender Sample.builtins Sample.env Sample.ab_client
           "f" _ Sample.ab_tool [("a", VInt 1); ("b", VFloat infinity)] empty_world
           [("a", "int")] [] "b" "int" (VFloat infinity)
           (mkExn OverflowError "bad operand for int")).
  - reflexivity.
  - reflexivity.
  - reflexivity.
  - intros q tq u [H|[]] Hu. injection H as <- <-. simpl in Hu. injection Hu as <-.
    reflexivity.
  - reflexivity.
  - reflexivity.
Defined.

(** ** Turns, continued *)

Lemma custom_loop_text_only (B : Builtins) (E : Env) (self : CustomMCPClient.t)
  (blocks : list ContentBlock) :
  tool_use_count blocks = 0 ->
  forall final_text tool_uses w,
    CustomMCPClient.handle_blocks B E self blocks final_text tool_uses w
    = (w, Ok (final_text ++ block_texts blocks, tool_uses)).
Proof.
  unfold tool_use_count.
  induction blocks as [|block blocks IH]; intros Hk final_text tool_uses w; simpl.
  - rewrite app_nil_r. reflexivity.
  - destruct block as [text|tool_id name tool_args|ty]; simpl in Hk.
    + rewrite IH by exact Hk. rewrite <- app_assoc. reflexivity.
    + discriminate Hk.
    + apply IH. exact Hk.
Qed.

Lemma mcp_loop_text_only (B : Builtins) (E : Env) (self : MCPClient.t)
  (blocks : list ContentBlock) :
  tool_use_count blocks = 0 ->
  forall l w,
    MCPClient.handle_blocks B E self blocks l w
    = (w, Ok (MCPClient.mkLocals (MCPClient.messages l) (MCPClient.tool_results l)
                (MCPClient.final_text l ++ block_texts blocks))).
Proof.
  unfold tool_use_count.
  induction blocks as [|block blocks IH]; intros Hk l w; simpl.
  - rewrite app_nil_r. destruct l; reflexivity.
  - destruct block as [text|tool_id name tool_args|ty]; simpl in Hk.
    + rewrite IH by exact Hk. simpl. rewrite <- app_assoc. reflexivity.
    + discriminate Hk.
    + apply IH. exact Hk.
Qed.

(** X11. A first response without tool-use blocks ends the turn at once, in
    both clients: no further request is issued and no tool is called, and the
    answer is the texts of the response's text blocks, in order, joined by
    newlines (blocks of any other type are left out). *)
Theorem text_only_turn (B : Builtins) (E : Env) (query : string) (w : World) :
  (forall (self : CustomMCPClient.t) w1 response,
     CustomMCPClient.anthropic self = true ->
     create E [mkMessage User (CValue (VStr query))] (CustomMCPClient.tools_argument self) w
     = (w1, Ok response) ->
     tool_use_count response = 0 ->
     CustomMCPClient.process_query B E self query w
     = (w1, Ok (Str.join newline (block_texts response)))) /\
  (forall (self : MCPClient.t) w0 w1 tools response,
     MCPClient.session_list_tools_ B E self w = (w0, Ok tools) ->
     create E [mkMessage User (CValue (VStr query))] (ToolsGiven tools) w0 = (w1, Ok response) ->
     tool_use_count response = 0 ->
     MCPClient.process_query B E self query w
     = (w1, Ok (Str.join newline (block_texts response)))).
Proof.
  split.
  - intros self w1 response Hanth Hcreate Hk.
    unfold CustomMCPClient.process_query. rewrite Hanth. simpl.
    unfold bind at 1. rewrite Hcreate.
    unfold bind at 1. rewrite (custom_loop_text_only B E self response Hk). simpl.
    reflexivity.
  - intros self w0 w1 tools response Hlist Hcreate Hk.
    unfold MCPClient.process_query.
    unfold bind at 1. rewrite Hlist.
    unfold bind at 1. rewrite Hcreate.
    unfold bind. rewrite (mcp_loop_text_only B E self response Hk). simpl.
    reflexivity.
Qed.

(** A model that answers in two text blocks around a block of another type. *)
Lemma text_only_turn_witness :
  let E := mkEnv (fun _ _ _ => Ok [TextBlock "hello"; OtherBlock "thinking"; TextBlock "world"])
                 (read_script Sample.env) (findall_tools Sample.env) (exec_module Sample.env)
                 (stdio_client Sample.env) (session_initialize Sample.env)
                 (session_list_tools Sample.env) (session_call_tool Sample.env) in
  let q := mkMessage User (CValue (VStr "q")) in
  CustomMCPClient.process_query Sample.builtins E CustomMCPClient.init "q" empty_world
  = (emit (EvModelRequest [q] ToolsNone) empty_world,
     Ok (Str.join newline ["hello"; "world"])) /\
  MCPClient.process_query Sample.builtins E (MCPClient.mk (Some 1) [1; 0]) "q" empty_world
  = (emit (EvModelRequest [q] (ToolsGiven [Sample.join_decl])) (emit EvListTools empty_world),
     Ok (Str.join newline ["hello"; "world"])).
Proof.
  split.
  - apply (proj1 (text_only_turn Sample.builtins
                    (mkEnv (fun _ _ _ => Ok [TextBlock "hello"; OtherBlock "thinking";
                                             TextBlock "world"])
                       (read_script Sample.env) (findall_tools Sample.env)
                       (exec_module Sample.env) (stdio_client Sample.env)
                       (session_initialize Sample.env) (session_list_tools Sample.env)
                       (session_call_tool Sample.env))
                    "q" empty_world)
             CustomMCPClient.init
             (emit (EvModelRequest [mkMessage User (CValue (VStr "q"))] ToolsNone) empty_world)
             [TextBlock "hello"; OtherBlock "thinking"; TextBlock "world"]);
      reflexivity.
  - apply (proj2 (text_only_turn Sample.builtins
                    (mkEnv (fun _ _ _ => Ok [TextBlock "hello"; OtherBlock "thinking";
                                             TextBlock "world"])
                       (read_script Sample.env) (findall_tools Sample.env)
                       (exec_module Sample.env) (stdio_client Sample.env)
                       (session_initialize Sample.env) (session_list_tools Sample.env)
                       (session_call_tool Sample.env))
                    "q" empty_world)
             (MCPClient.mk (Some 1) [1; 0])
             (emit EvListTools empty_world)
             (emit (EvModelRequest [mkMessage User (CValue (VStr "q"))]
                                   (ToolsGiven [Sample.join_decl]))
                   (emit EvListTools empty_world))
             [Sample.join_decl]
             [TextBlock "hello"; OtherBlock "thinking"; TextBlock "world"]);
      reflexivity.
Defined.

(** X12. In an environment that raises inside [Exception] only, a turn of
    the in-process client can raise only through the model: the exception is
    one that a request to the model raised, or the [AttributeError] of
    reading the text of a first follow-up block that is not a text block. No
    failure of a tool, of its arguments or of the script makes the turn
    raise. *)
Theorem in_process_turn_raises_only_through_model (B : Builtins) (E : Env)
  (self : CustomMCPClient.t) (query : string) (w : World) (e : Exn) :
  exceptions_only E ->
  snd (CustomMCPClient.process_query B E self query w) = Raise e ->
  (exists t msgs tools, anthropic_create E t msgs tools = Raise e) \/
  (exists t msgs first rest,
     anthropic_create E t msgs ToolsOmitted = Ok (first :: rest) /\
     (forall text, first <> TextBlock text) /\
     e = mkExn AttributeError (err_text B "text" (VStr (block_type first)))).
Proof.
  intros _.
  unfold CustomMCPClient.process_query.
  destruct (negb (CustomMCPClient.anthropic self)); [discriminate|].
  unfold bind at 1. unfold create at 1, ask.
  destruct (anthropic_create E _ _ (CustomMCPClient.tools_argument self))
    as [response|e0] eqn:Hfirst.
  - destruct (custom_loop B E self response [] []
                (emit (EvModelRequest [mkMessage User (CValue (VStr query))]
                                      (CustomMCPClient.tools_argument self)) w))
      as [w2 [ft [added [Hrun _]]]].
    simpl in Hrun. unfold bind at 1. rewrite Hrun. simpl.
    unfold bind, CustomMCPClient.follow_up.
    destruct added as [|u added]; [discriminate|].
    unfold bind, create, ask, lift, ret.
    destruct (anthropic_create E _ _ ToolsOmitted) as [[|first rest]|e1] eqn:Hfollow.
    + discriminate.
    + destruct first as [text|tool_id name tool_args|ty]; simpl; [discriminate| |];
        intros H; injection H as <-; right;
        eexists; eexists; eexists; exists rest;
        (split; [exact Hfollow|]); (split; [intros text; discriminate | reflexivity]).
    + simpl. intros H. injection H as <-. left.
      eexists. eexists. eexists. exact Hfollow.
  - simpl. intros H. injection H as <-. left.
    eexists. eexists. eexists. exact Hfirst.
Qed.

(** A model whose follow-up request fails. *)
Lemma in_process_turn_raises_only_through_model_witness :
  let failing := mkExn (OtherException "APIError") "overloaded" in
  exceptions_only Sample.env_failing_follow_up /\
  snd (CustomMCPClient.process_query Sample.builtins Sample.env_failing_follow_up
         CustomMCPClient.init "q" empty_world)
  = Raise failing /\
  ((exists t msgs tools,
      anthropic_create Sample.env_failing_follow_up t msgs tools = Raise failing) \/
   (exists t msgs first rest,
      anthropic_create Sample.env_failing_follow_up t msgs ToolsOmitted = Ok (first :: rest) /\
      (forall text, first <> TextBlock text) /\
      failing = mkExn AttributeError
                  (err_text Sample.builtins "text" (VStr (block_type first))))).
Proof.
  assert (snd (CustomMCPClient.process_query Sample.builtins Sample.env_failing_follow_up
                 CustomMCPClient.init "q" empty_world)
          = Raise (mkExn (OtherException "APIError") "overloaded")) as H
    by (vm_compute; reflexivity).
  split; [exact failing_follow_up_exceptions_only|].
  split; [exact H|].
  exact (in_process_turn_raises_only_through_model Sample.builtins
           Sample.env_failing_follow_up CustomMCPClient.init "q" empty_world _
           failing_follow_up_exceptions_only H).
Defined.

(** ** The earlier client *)

Lemma legacy_import_and_run_outcomes (B : Builtins) (E : Env) (self : CustomMCPClient.t)
  (name : string) (processed_args : Dict.t PyValue) (w : World) :
  fst (Legacy.import_and_run B E self name processed_args w)
  = fst (CustomMCPClient.import_and_run B E self name processed_args w) /\
  (snd (Legacy.import_and_run B E self name processed_args w) = Raise (Legacy.unbound_local B) \/
   exists p awaited v,
     CustomMCPClient.server_script_path self = Some p /\
     snd (Legacy.import_and_run B E self name processed_args w) = Ok (mkSimpleResponse v) /\
     snd (CustomMCPClient.import_and_run B E self name processed_args w)
     = Ok (mkSimpleResponse v) /\
     new_events w (fst (Legacy.import_and_run B E self name processed_args w))
     = [EvExecModule p; EvInvoke name processed_args awaited]).
Proof.
  unfold Legacy.import_and_run, CustomMCPClient.import_and_run, try_except.
  destruct (CustomMCPClient.server_script_path self) as [p|]; simpl; [|split; [|left]; reflexivity].
  destruct (Str.endswith p ".py"); simpl; [|split; [|left]; reflexivity].
  unfold bind, CustomMCPClient.load_module.
  destruct (exec_module E (trace (emit (EvExecModule p) w)) p) as [module [e|]]; simpl;
    [split; [|left]; reflexivity|].
  destruct (module name) as [f|]; simpl; [|split; [|left]; reflexivity].
  unfold ask, emit. simpl.
  destruct (fn_call f _ processed_args) as [v|e]; simpl; [|split; [|left]; reflexivity].
  split; [reflexivity|]. right. exists p, (is_coroutine f), v.
  split; [reflexivity|]. split; [reflexivity|]. split; [reflexivity|].
  apply new_events_delta. simpl. rewrite <- app_assoc. reflexivity.
Qed.

(** X15. In the earlier file, in an environment that raises inside
    [Exception] only, [call_tool] never returns an error response. It returns
    only when the tool is in the table, its arguments were processed, none is
    missing, the script of the session was executed without an exception and
    the named function was invoked with the processed arguments and
    returned; the response then carries what the function returned. Every
    other outcome (unknown tool, unreadable or unconvertible arguments,
    missing parameters, a script that is not Python or fails to load, a
    missing or failing function) leaves the call as the same
    [UnboundLocalError], the one of the class [SimpleResponse] that is
    defined too late. *)
Theorem legacy_call_tool_outcomes (B : Builtins) (E : Env) (self : CustomMCPClient.t)
  (name : string) (tool_args : PyValue) (w : World) :
  exceptions_only E ->
  snd (Legacy.call_tool B E self name tool_args w)
  = Raise (mkExn (OtherException "UnboundLocalError") (err_text B "SimpleResponse" VNone)) \/
  exists tool_info kwargs p f v,
    CustomMCPClient.find_tool self name = Some tool_info /\
    CustomMCPClient.process_args B tool_info tool_args = inl kwargs /\
    CustomMCPClient.missing_args tool_info kwargs = [] /\
    CustomMCPClient.server_script_path self = Some p /\
    Str.endswith p ".py" = true /\
    snd (exec_module E (trace w ++ [EvExecModule p]) p) = None /\
    fst (exec_module E (trace w ++ [EvExecModule p]) p) name = Some f /\
    fn_call f ((trace w ++ [EvExecModule p]) ++ [EvInvoke name kwargs (is_coroutine f)]) kwargs
    = Ok v /\
    snd (Legacy.call_tool B E self name tool_args w) = Ok (mkSimpleResponse v) /\
    new_events w (fst (Legacy.call_tool B E self name tool_args w))
    = [EvExecModule p; EvInvoke name kwargs (is_coroutine f)].
Proof.
  intros _. unfold Legacy.call_tool.
  destruct (CustomMCPClient.find_tool self name) as [tool_info|]; [|left; reflexivity].
  destruct (CustomMCPClient.process_args B tool_info tool_args) as [kwargs|early] eqn:Hargs;
    [|left; reflexivity].
  destruct (CustomMCPClient.missing_args tool_info kwargs) eqn:Hmissing; [|left; reflexivity].
  unfold Legacy.import_and_run, try_except.
  destruct (CustomMCPClient.server_script_path self) as [p|]; simpl; [|left; reflexivity].
  destruct (Str.endswith p ".py") eqn:Hpy; simpl; [|left; reflexivity].
  unfold bind, CustomMCPClient.load_module. simpl.
  destruct (exec_module E (trace w ++ [EvExecModule p]) p) as [module [e|]] eqn:Hexec; simpl;
    [left; reflexivity|].
  destruct (module name) as [f|] eqn:Hf; simpl; [|left; reflexivity].
  unfold ask, emit. simpl.
  destruct (fn_call f _ kwargs) as [v|e] eqn:Hcall; simpl; [|left; reflexivity].
  right. exists tool_info, kwargs, p, f, v. rewrite Hexec.
  repeat (split; [first [reflexivity | assumption]|]).
  apply new_events_delta. simpl. rewrite <- app_assoc. reflexivity.
Qed.

(** The sample tool in the earlier client: a good call returns the result
    of the function, a call of an unknown tool raises. *)
Lemma legacy_call_tool_outcomes_witness :
  exceptions_only Sample.env /\
  snd (Legacy.call_tool Sample.builtins Sample.env Sample.join_client "join" Sample.join_args
         empty_world)
  = Ok (mkSimpleResponse (VStr "a-b")) /\
  snd (Legacy.call_tool Sample.builtins Sample.env Sample.join_client "split" Sample.join_args
         empty_world)
  = Raise (mkExn (OtherException "UnboundLocalError") "bad operand for SimpleResponse").
Proof.
  split; [exact sample_exceptions_only|]. split.
  - destruct (legacy_call_tool_outcomes Sample.builtins Sample.env Sample.join_client "join"
                Sample.join_args empty_world sample_exceptions_only)
      as [Hraise|[ti [kwargs [p [f [v [_ [_ [_ [_ [_ [_ [_ [_ [Hok _]]]]]]]]]]]]]]].
    + discriminate Hraise.
    + reflexivity.
  - destruct (legacy_call_tool_outcomes Sample.builtins Sample.env Sample.join_client "split"
                Sample.join_args empty_world sample_exceptions_only)
      as [Hraise|[ti [kwargs [p [f [v [Hfind _]]]]]]].
    + exact Hraise.
    + discriminate Hfind.
Defined.

(** X16. The two versions of [call_tool] have the same effects on every
    call, and when the earlier one returns a response the later one returns
    the same response: the later version differs only in answering where the
    earlier one raised. *)
Theorem legacy_call_tool_agrees_with_later (B : Builtins) (E : Env)
  (self : CustomMCPClient.t) (name : string) (tool_args : PyValue) (w : World) :
  fst (Legacy.call_tool B E self name tool_args w)
  = fst (CustomMCPClient.call_tool B E self name tool_args w) /\
  forall r, snd (Legacy.call_tool B E self name tool_args w) = Ok r ->
            snd (CustomMCPClient.call_tool B E self name tool_args w) = Ok r.
Proof.
  unfold Legacy.call_tool, CustomMCPClient.call_tool.
  destruct (CustomMCPClient.find_tool self name) as [tool_info|];
    [|split; [reflexivity | intros r H; discriminate H]].
  destruct (CustomMCPClient.process_args B tool_info tool_args) as [processed_args|early];
    [|split; [reflexivity | intros r H; discriminate H]].
  destruct (CustomMCPClient.missing_args tool_info processed_args);
    [|split; [reflexivity | intros r H; discriminate H]].
  destruct (legacy_import_and_run_outcomes B E self name processed_args w)
    as [Hfst [Hraise|[p [awaited [v [_ [Hok [Hnew _]]]]]]]].
  - split; [exact Hfst|]. intros r H. rewrite Hraise in H. discriminate H.
  - split; [exact Hfst|]. intros r H. rewrite Hok in H. injection H as <-. exact Hnew.
Qed.

(** The sample tool, called with good arguments, in both versions. *)
Lemma legacy_call_tool_agrees_with_later_witness :
  let c := CustomMCPClient.mk true
             [mkToolInfo "join" "Join two strings" [("x", "str"); ("y", "str")] "str"]
             (Some "server.py") in
  snd (Legacy.call_tool Sample.builtins Sample.env c "join" Sample.join_args empty_world)
  = Ok (mkSimpleResponse (VStr "a-b")) /\
  snd (CustomMCPClient.call_tool Sample.builtins Sample.env c "join" Sample.join_args
         empty_world)
  = Ok (mkSimpleResponse (VStr "a-b")).
Proof.
  assert (snd (Legacy.call_tool Sample.builtins Sample.env
                 (CustomMCPClient.mk true
                    [mkToolInfo "join" "Join two strings" [("x", "str"); ("y", "str")] "str"]
                    (Some "server.py"))
                 "join" Sample.join_args empty_world)
          = Ok (mkSimpleResponse (VStr "a-b"))) as H by reflexivity.
  split; [exact H|].
  exact (proj2 (legacy_call_tool_agrees_with_later Sample.builtins Sample.env
                  (CustomMCPClient.mk true
                     [mkToolInfo "join" "Join two strings" [("x", "str"); ("y", "str")] "str"]
                     (Some "server.py"))
                  "join" Sample.join_args empty_world) _ H).
Defined.

Lemma legacy_effects_as_later (B : Builtins) (E : Env) (self : CustomMCPClient.t)
  (name : string) (tool_args : PyValue) (w : World) :
  fst (Legacy.call_tool B E self name tool_args w)
  = fst (CustomMCPClient.call_tool B E self name tool_args w).
Proof.
  unfold Legacy.call_tool, CustomMCPClient.call_tool.
  destruct (CustomMCPClient.find_tool self name) as [tool_info|]; [|reflexivity].
  destruct (CustomMCPClient.process_args B tool_info tool_args) as [processed_args|early];
    [|reflexivity].
  destruct (CustomMCPClient.missing_args tool_info processed_args); [|reflexivity].
  exact (proj1 (legacy_import_and_run_outcomes B E self name processed_args w)).
Qed.

Lemma legacy_call_tool_silent (B : Builtins) (E : Env) (self : CustomMCPClient.t)
  (name : string) (tool_args : PyValue) (w : World) :
  model_requests (trace (fst (Legacy.call_tool B E self name tool_args w)))
  = model_requests (trace w).
Proof.
  rewrite legacy_effects_as_later.
  destruct (call_tool_returns B E self name tool_args w) as [w' [r [Hcall Hsilent]]].
  rewrite Hcall. exact Hsilent.
Qed.

(** The loop of the earlier [process_query_async] never raises; the result
    recorded for a tool use is the content of the response of the call, or
    the error text of its exception. *)
Lemma legacy_loop (B : Builtins) (E : Env) (client : CustomMCPClient.t)
  (blocks : list ContentBlock) :
  forall final_text tool_uses w,
  exists w' final_text' added,
    Legacy.handle_blocks B E client blocks final_text tool_uses w
    = (w', Ok (final_text', tool_uses ++ added)) /\
    map (fun u => mkToolResult (Legacy.use_id u) (Legacy.use_result u)) added
    = legacy_results_in_order B E client blocks w /\
    List.length added = tool_use_count blocks /\
    model_requests (trace w') = model_requests (trace w).
Proof.
  induction blocks as [|block blocks IH]; intros final_text tool_uses w.
  - exists w, final_text, []. simpl. rewrite app_nil_r. repeat split.
  - destruct block as [text|tool_id name tool_args|ty]; simpl.
    + destruct (IH (final_text ++ [text]) tool_uses w)
        as [w' [ft' [added [Hrun [Hres [Hlen Hreq]]]]]].
      exists w', ft', added. repeat split; assumption.
    + pose proof (legacy_call_tool_silent B E client name tool_args w) as Hsilent.
      unfold bind at 1. unfold try_except, bind at 1.
      destruct (Legacy.call_tool B E client name tool_args w) as [w1 [r|e]];
        simpl in Hsilent; unfold ret.
      * destruct (IH (final_text ++ [call_marker name; result_line B (response_content r)])
                     (tool_uses ++ [Legacy.mkToolUse tool_id name tool_args (response_content r)])
                     w1)
          as [w' [ft' [added [Hrun [Hres [Hlen Hreq]]]]]].
        exists w', ft',
               (Legacy.mkToolUse tool_id name tool_args (response_content r) :: added).
        split. { rewrite Hrun, <- app_assoc. reflexivity. }
        split. { simpl. rewrite Hres. reflexivity. }
        split. { unfold tool_use_count in *. simpl. rewrite Hlen. reflexivity. }
        rewrite Hreq. exact Hsilent.
      * destruct (IH (final_text ++ [call_marker name;
                                     result_line B (MCPClient.call_error e)])
                     (tool_uses ++ [Legacy.mkToolUse tool_id name tool_args
                                      (MCPClient.call_error e)]) w1)
          as [w' [ft' [added [Hrun [Hres [Hlen Hreq]]]]]].
        exists w', ft',
               (Legacy.mkToolUse tool_id name tool_args (MCPClient.call_error e) :: added).
        split. { rewrite Hrun, <- app_assoc. reflexivity. }
        split. { simpl. rewrite Hres. reflexivity. }
        split. { unfold tool_use_count in *. simpl. rewrite Hlen. reflexivity. }
        rewrite Hreq. exact Hsilent.
    + destruct (IH final_text tool_uses w)
        as [w' [ft' [added [Hrun [Hres [Hlen Hreq]]]]]].
      exists w', ft', added. repeat split; assumption.
Qed.

(** X17. The earlier [process_query_async], in an environment that raises
    inside [Exception] only, on a client with tools whose first request is
    answered: the turn ends with a text. Without tool-use blocks in the
    response nothing more is requested; otherwise exactly one follow-up
    request is issued, without tools, made of the query, the assistant's text
    and tool-use blocks, and a user message with one tool-result entry for
    each tool-use block, in order and under its id. The content of an entry
    is the outcome of the call made at that point of the loop: the content of
    the response when [call_tool] returned, the error text of its exception
    when it raised. The text of the turn ends with the text of the first
    block of the follow-up response, or, when the follow-up request raises,
    with the line that reports this. *)
Theorem legacy_turn (B : Builtins) (E : Env) (client : CustomMCPClient.t) (query : string)
  (w w1 : World) (response : list ContentBlock) :
  exceptions_only E ->
  CustomMCPClient.available_tools client <> [] ->
  CustomMCPClient.anthropic client = true ->
  create E [mkMessage User (CValue (VStr query))]
           (ToolsGiven (CustomMCPClient.anthropic_tools client)) w = (w1, Ok response) ->
  let follow_up :=
    [mkMessage User (CValue (VStr query));
     mkMessage Assistant (CBlocks (Legacy.copied_blocks response));
     mkMessage User (CToolResults (legacy_results_in_order B E client response w1))] in
  exists w' text,
    Legacy.process_query_async B E client query w = (w', Ok text) /\
    requests_between w w'
    = ([mkMessage User (CValue (VStr query))],
       ToolsGiven (CustomMCPClient.anthropic_tools client))
      :: (if Nat.eqb (tool_use_count response) 0 then [] else [(follow_up, ToolsOmitted)]) /\
    map tool_use_id (legacy_results_in_order B E client response w1) = tool_use_ids response /\
    (tool_use_count response <> 0 ->
     (forall e,
        anthropic_create E (trace w') follow_up ToolsOmitted = Raise e ->
        exists lines,
          text = Str.join newline
                   (lines ++ [("エラー: フォローアップ応答の取得に失敗しました: "
                              ++ exn_msg e)%string])) /\
     (forall answer rest,
        anthropic_create E (trace w') follow_up ToolsOmitted = Ok (TextBlock answer :: rest) ->
        exists lines, text = Str.join newline (lines ++ [answer]))).
Proof.
  intros _ Hne Hanth Hcreate follow_up.
  destruct (legacy_loop B E client response [] [] w1)
    as [w2 [ft [added [Hrun [Hres [Hlen Hreq]]]]]].
  simpl in Hrun.
  assert (Legacy.follow_up_messages query response added = follow_up) as Hmsgs.
  { unfold Legacy.follow_up_messages, follow_up. rewrite Hres. reflexivity. }
  assert (model_requests (trace w1)
          = model_requests (trace w)
            ++ [([mkMessage User (CValue (VStr query))],
                 ToolsGiven (CustomMCPClient.anthropic_tools client))]) as Hfirst.
  { unfold create, ask in Hcreate. injection Hcreate as <- _. simpl.
    rewrite model_requests_app. reflexivity. }
  assert (forall blocks w0,
            map tool_use_id (legacy_results_in_order B E client blocks w0)
            = tool_use_ids blocks) as Hids.
  { induction blocks as [|block blocks IH]; intros w0; simpl; [reflexivity|].
    destruct block as [text|tool_id name tool_args|ty]; simpl; try apply IH.
    destruct (Legacy.call_tool B E client name tool_args w0) as [w3 [r|e]]; simpl;
      rewrite IH; reflexivity. }
  assert (exists w' lines,
            Legacy.follow_up B E query response ft added w2 = (w', Ok lines) /\
            model_requests (trace w')
            = model_requests (trace w2)
              ++ (if Nat.eqb (tool_use_count response) 0 then [] else [(follow_up, ToolsOmitted)]) /\
            (tool_use_count response <> 0 ->
             (forall e,
                anthropic_create E (trace w') follow_up ToolsOmitted = Raise e ->
                lines = ft ++ [Legacy.follow_up_failed e]) /\
             (forall answer rest,
                anthropic_create E (trace w') follow_up ToolsOmitted
                = Ok (TextBlock answer :: rest) ->
                lines = ft ++ [answer])))
    as [w' [lines [Hfollow [Hreq' Htext]]]].
  { unfold Legacy.follow_up. rewrite <- Hlen. destruct added as [|u added].
    - exists w2, ft. split; [reflexivity|]. split; [symmetry; apply app_nil_r|].
      intros H. contradiction.
    - rewrite Hmsgs. simpl Nat.eqb. cbv iota.
      unfold try_except, bind, create, ask, lift, ret.
      destruct (anthropic_create E (trace (emit (EvModelRequest follow_up ToolsOmitted) w2))
                  follow_up ToolsOmitted) as [[|first rest]|e0] eqn:Hresp.
      + eexists. eexists. split; [reflexivity|].
        split; [simpl; rewrite model_requests_app; reflexivity|].
        intros _. split; intros; simpl in *; congruence.
      + destruct first as [answer|tool_id name tool_args|ty]; simpl;
          (eexists; eexists; split; [reflexivity|];
           split; [simpl; rewrite model_requests_app; reflexivity|];
           intros _; split; intros; simpl in *; congruence).
      + eexists. eexists. split; [reflexivity|].
        split; [simpl; rewrite model_requests_app; reflexivity|].
        intros _. split; intros; simpl in *; congruence. }
  exists w', (Str.join newline lines).
  split.
  { unfold Legacy.process_query_async, try_except.
    destruct (CustomMCPClient.available_tools client) as [|ti tis]; [contradiction|].
    unfold Legacy.tool_turn. rewrite Hanth. simpl.
    unfold bind at 1. rewrite Hcreate.
    unfold bind at 1. rewrite Hrun. simpl.
    unfold bind, ret. rewrite Hfollow. reflexivity. }
  split.
  { apply requests_between_delta. rewrite Hreq', Hreq, Hfirst, <- app_assoc. reflexivity. }
  split; [apply Hids|].
  intros Hk. destruct (Htext Hk) as [Hfail Hanswer]. split.
  - intros e He. exists ft. rewrite (Hfail e He). reflexivity.
  - intros answer rest He. exists ft. rewrite (Hanswer answer rest He). reflexivity.
Qed.

(** The sample table and model, with a client of the earlier class: both
    calls succeed and their results are the entries of the follow-up
    request. *)
Lemma legacy_turn_witness :
  let q := mkMessage User (CValue (VStr "q")) in
  exceptions_only Sample.env /\
  CustomMCPClient.available_tools Sample.join_client <> [] /\
  exists w' text,
    Legacy.process_query_async Sample.builtins Sample.env Sample.join_client "q" empty_world
    = (w', Ok text) /\
    requests_between empty_world w'
    = [([q], ToolsGiven (CustomMCPClient.anthropic_tools Sample.join_client));
       ([q; mkMessage Assistant (CBlocks Sample.first_response);
         mkMessage User (CToolResults [mkToolResult "toolu_1" (VStr "a-b");
                                       mkToolResult "toolu_2" (VStr "a-b")])],
        ToolsOmitted)].
Proof.
  assert (CustomMCPClient.available_tools Sample.join_client <> []) as Hne by discriminate.
  split; [exact sample_exceptions_only|]. split; [exact Hne|].
  destruct (legacy_turn Sample.builtins Sample.env Sample.join_client "q" empty_world
              (emit (EvModelRequest [mkMessage User (CValue (VStr "q"))]
                       (ToolsGiven (CustomMCPClient.anthropic_tools Sample.join_client)))
                    empty_world)
              Sample.first_response sample_exceptions_only Hne eq_refl eq_refl)
    as [w' [text [Hrun [Hreq _]]]].
  exists w', text. split; [exact Hrun|]. rewrite Hreq. reflexivity.
Defined.

(** X18. The earlier [process_query_async], in an environment that raises
    inside [Exception] only, on a client with tools whose first request
    raises: the exception is swallowed and [process_query] is called, which
    sends the same request, with the same tools, a second time; the turn ends
    with the text of that response's first block, or with the error text of
    whatever went wrong the second time: the exception of the request, the
    [IndexError] of an empty response, or the [AttributeError] of a first
    block that is not a text block. *)
Theorem legacy_fallback_repeats_request (B : Builtins) (E : Env)
  (client : CustomMCPClient.t) (query : string) (w : World) (e : Exn) :
  exceptions_only E ->
  CustomMCPClient.available_tools client <> [] ->
  CustomMCPClient.anthropic client = true ->
  anthropic_create E
    (trace w ++ [EvModelRequest [mkMessage User (CValue (VStr query))]
                   (ToolsGiven (CustomMCPClient.anthropic_tools client))])
    [mkMessage User (CValue (VStr query))]
    (ToolsGiven (CustomMCPClient.anthropic_tools client)) = Raise e ->
  exists w' text,
    Legacy.process_query_async B E client query w = (w', Ok text) /\
    requests_between w w'
    = [([mkMessage User (CValue (VStr query))],
        ToolsGiven (CustomMCPClient.anthropic_tools client));
       ([mkMessage User (CValue (VStr query))],
        ToolsGiven (CustomMCPClient.anthropic_tools client))] /\
    (text = match anthropic_create E (trace w') [mkMessage User (CValue (VStr query))]
                    (ToolsGiven (CustomMCPClient.anthropic_tools client)) with
            | Ok [] => "エラーが発生しました: list index out of range"
            | Ok (TextBlock first :: _) => first
            | Ok (block :: _) =>
                ("エラーが発生しました: " ++ err_text B "text" (VStr (block_type block)))%string
            | Raise e' => ("エラーが発生しました: " ++ exn_msg e')%string
            end).
Proof.
  intros _ Hne Hanth Hraise.
  assert (Legacy.tool_turn B E client query w
          = (emit (EvModelRequest [mkMessage User (CValue (VStr query))]
                     (ToolsGiven (CustomMCPClient.anthropic_tools client))) w, Raise e))
    as Hturn.
  { unfold Legacy.tool_turn. rewrite Hanth. simpl.
    unfold bind at 1. unfold create, ask. simpl. rewrite Hraise. reflexivity. }
  assert (forall w1,
            exists text,
              Legacy.process_query B E client query w1
              = (emit (EvModelRequest [mkMessage User (CValue (VStr query))]
                         (ToolsGiven (CustomMCPClient.anthropic_tools client))) w1, Ok text) /\
              text = match anthropic_create E
                             (trace w1 ++ [EvModelRequest [mkMessage User (CValue (VStr query))]
                                (ToolsGiven (CustomMCPClient.anthropic_tools client))])
                             [mkMessage User (CValue (VStr query))]
                             (ToolsGiven (CustomMCPClient.anthropic_tools client)) with
                     | Ok [] => "エラーが発生しました: list index out of range"
                     | Ok (TextBlock first :: _) => first
                     | Ok (block :: _) =>
                         ("エラーが発生しました: " ++ err_text B "text" (VStr (block_type block)))%string
                     | Raise e' => ("エラーが発生しました: " ++ exn_msg e')%string
                     end) as Hagain.
  { clear Hraise Hturn. intros w1. unfold Legacy.process_query. rewrite Hanth. simpl.
    rewrite (tools_argument_given client Hne).
    unfold try_except, bind, create, ask, lift, ret. simpl.
    destruct (anthropic_create E _ _ _) as [[|[first|tool_id name tool_args|ty] rest]|e'];
      eexists; split; reflexivity. }
  destruct (Hagain (emit (EvModelRequest [mkMessage User (CValue (VStr query))]
                            (ToolsGiven (CustomMCPClient.anthropic_tools client))) w))
    as [text [Hrun Htext]].
  eexists. exists text. split.
  { unfold Legacy.process_query_async, try_except.
    destruct (CustomMCPClient.available_tools client) as [|ti tis]; [contradiction|].
    rewrite Hturn, Hrun. reflexivity. }
  split.
  - apply requests_between_delta. simpl. rewrite !model_requests_app. simpl.
    rewrite <- app_assoc. reflexivity.
  - exact Htext.
Qed.

(** A model that fails on its first request only. *)
Lemma legacy_fallback_repeats_request_witness :
  let request := ([mkMessage User (CValue (VStr "q"))],
                  ToolsGiven (CustomMCPClient.anthropic_tools Sample.ab_client)) in
  exceptions_only Sample.env_failing_once /\
  exists w',
    Legacy.process_query_async Sample.builtins Sample.env_failing_once Sample.ab_client "q"
      empty_world
    = (w', Ok "late") /\
    requests_between empty_world w' = [request; request].
Proof.
  split; [exact failing_once_exceptions_only|].
  destruct (legacy_fallback_repeats_request Sample.builtins Sample.env_failing_once
              Sample.ab_client "q" empty_world
              (mkExn (OtherException "APIError") "overloaded")
              failing_once_exceptions_only ltac:(discriminate) eq_refl eq_refl)
    as [w' [text [Hrun [Hreq Htext]]]].
  exists w'. split; [|exact Hreq].
  rewrite Hrun. f_equal. f_equal. rewrite Htext.
  assert (List.length (trace w') = 2) as Hlen.
  { pose proof (f_equal (@fst World (Result string)) Hrun) as Hw. simpl in Hw.
    rewrite <- Hw. vm_compute. reflexivity. }
  simpl. destruct (trace w') as [|a [|b [|c t]]]; try discriminate Hlen. reflexivity.
Defined.

(** ** The handlers of the page *)

(** X19. When the file does not exist, or its name ends neither in [.py]
    nor in [.js], pressing the connect button changes nothing but the
    recorded execution mode, with either kind of client: the client, the
    connected flag, the history and the listed tools stay as they were, and
    nothing was started or read. *)
Theorem failed_connect_leaves_page_unconnected (B : Builtins) (E : Env)
  (path_exists : string -> bool) (path mode : string) (st : Ui.SessionState) (w : World) :
  path <> "" ->
  path_exists path = false \/
  (Str.endswith path ".py" = false /\ Str.endswith path ".js" = false) ->
  Ui.connect_pressed B E path_exists path mode st w
  = (Ui.mk (Ui.client st) (Ui.connected st) (Ui.chat_history st) mode (Ui.available_tools st),
     w).
Proof.
  intros Hpath Hbad. unfold Ui.connect_pressed.
  destruct (String.eqb path "") eqn:Hempty.
  { apply String.eqb_eq in Hempty. contradiction. }
  destruct (path_exists path) eqn:Hex; simpl; [|reflexivity].
  destruct Hbad as [Hno|[Hpy Hjs]]; [discriminate Hno|].
  unfold Ui.new_client_connect, CustomMCPClient.connect_to_server,
    MCPClient.connect_to_server.
  rewrite Hpy, Hjs. simpl.
  destruct (String.eqb mode Ui.compat_mode); reflexivity.
Qed.

(** A Ruby script, in the mode that would start a process. *)
Lemma failed_connect_leaves_page_unconnected_witness :
  let st := Ui.mk None false [] "" [] in
  Ui.connect_pressed Sample.builtins Sample.env (fun _ => true) "server.rb" "通常モード"
    st empty_world
  = (Ui.mk None false [] "通常モード" [], empty_world).
Proof.
  apply (failed_connect_leaves_page_unconnected Sample.builtins Sample.env (fun _ => true)
           "server.rb" "通常モード" (Ui.mk None false [] "" []) empty_world).
  - discriminate.
  - right. split; reflexivity.
Defined.

(** X20. In the compatibility mode, pressing the connect button with an
    existing file whose name ends in [.py] or [.js] always leaves the page
    connected to an in-process client: the file was read once and no process
    started, the tools listed on the page are the names and descriptions of
    the client's table, in order, and the history is kept. *)
Theorem compat_connect_lists_the_table (B : Builtins) (E : Env)
  (path_exists : string -> bool) (path : string) (st : Ui.SessionState) (w : World) :
  path <> "" ->
  path_exists path = true ->
  Str.endswith path ".py" || Str.endswith path ".js" = true ->
  exists tools,
    Ui.connect_pressed B E path_exists path Ui.compat_mode st w
    = (Ui.mk (Some (InProcess (CustomMCPClient.mk true tools (Some path)))) true
             (Ui.chat_history st) Ui.compat_mode
             (map (fun t => (tool_name t, tool_description t)) tools),
       emit (EvReadScript path) w).
Proof.
  intros Hpath Hex Hext. unfold Ui.connect_pressed.
  destruct (String.eqb path "") eqn:Hempty.
  { apply String.eqb_eq in Hempty. contradiction. }
  rewrite Hex. simpl. unfold Ui.new_client_connect. rewrite String.eqb_refl.
  unfold CustomMCPClient.connect_to_server. rewrite Hext. simpl.
  destruct (extract_tools_never_raises E path w) as [tools Hx]. rewrite Hx.
  exists tools. unfold Ui.list_tools, ret, CustomMCPClient.list_tools. simpl.
  rewrite map_map. reflexivity.
Qed.

(** The sample script. *)
Lemma compat_connect_lists_the_table_witness :
  exists tools,
    Ui.connect_pressed Sample.builtins Sample.env (fun _ => true) "server.py" Ui.compat_mode
      (Ui.mk None false [] "" []) empty_world
    = (Ui.mk (Some (InProcess (CustomMCPClient.mk true tools (Some "server.py")))) true
             [] Ui.compat_mode
             (map (fun t => (tool_name t, tool_description t)) tools),
       emit (EvReadScript "server.py") empty_world).
Proof.
  apply (compat_connect_lists_the_table Sample.builtins Sample.env (fun _ => true)
           "server.py" (Ui.mk None false [] "" []) empty_world).
  - discriminate.
  - reflexivity.
  - reflexivity.
Defined.

(** X21. In an environment that raises inside [Exception] only, every query
    submitted on a connected page is recorded: the history grows by exactly
    one pair, the query with the answer of [process_query_async], which is
    the text "エラーが発生しました: " followed by the message of the exception
    when the turn of the client raised; nothing else of the page's state
    changes. *)
Theorem every_query_is_recorded (B : Builtins) (E : Env) (query : string)
  (st : Ui.SessionState) (w : World) :
  exceptions_only E ->
  Ui.connected st = true ->
  query <> "" ->
  exists w' answer,
    Ui.ask_client B E (Ui.client st) query w = (w', Ok answer) /\
    Ui.query_submitted B E query st w
    = (Ui.mk (Ui.client st) true (Ui.chat_history st ++ [(query, answer)])
             (Ui.execution_mode st) (Ui.available_tools st), w') /\
    (forall c e,
       Ui.client st = Some c ->
       snd (match c with
            | Remote m => MCPClient.process_query B E m query w
            | InProcess p => CustomMCPClient.process_query B E p query w
            end) = Raise e ->
       answer = ("エラーが発生しました: " ++ exn_msg e)%string) /\
    (forall c text,
       Ui.client st = Some c ->
       snd (match c with
            | Remote m => MCPClient.process_query B E m query w
            | InProcess p => CustomMCPClient.process_query B E p query w
            end) = Ok text ->
       answer = text).
Proof.
  intros _ Hconn Hquery. unfold Ui.query_submitted. rewrite Hconn. simpl.
  destruct (String.eqb query "") eqn:Hempty.
  { apply String.eqb_eq in Hempty. contradiction. }
  unfold Ui.ask_client. destruct (Ui.client st) as [c|].
  - unfold process_query_async, try_except.
    destruct c as [m|p].
    + destruct (MCPClient.process_query B E m query w) as [w' [text|e]] eqn:Hpq;
        (eexists; eexists; split; [reflexivity|]; split; [reflexivity|]; split;
         intros c x Hc Hx; injection Hc as <-; simpl in Hx; rewrite Hpq in Hx;
         simpl in Hx; first [discriminate Hx | injection Hx as <-; reflexivity]).
    + destruct (CustomMCPClient.process_query B E p query w) as [w' [text|e]] eqn:Hpq;
        (eexists; eexists; split; [reflexivity|]; split; [reflexivity|]; split;
         intros c x Hc Hx; injection Hc as <-; simpl in Hx; rewrite Hpq in Hx;
         simpl in Hx; first [discriminate Hx | injection Hx as <-; reflexivity]).
  - eexists. eexists. split; [reflexivity|]. split; [reflexivity|].
    split; intros c x Hc; discriminate Hc.
Qed.

(** A page connected to a client that does not know the tool the model asks
    for. *)
Lemma every_query_is_recorded_witness :
  let st := Ui.mk (Some (InProcess CustomMCPClient.init)) true [("hi", "hello")]
                  Ui.compat_mode [] in
  exceptions_only Sample.env /\
  exists w' answer,
    Ui.query_submitted Sample.builtins Sample.env "q" st empty_world
    = (Ui.mk (Some (InProcess CustomMCPClient.init)) true [("hi", "hello"); ("q", answer)]
             Ui.compat_mode [], w').
Proof.
  split; [exact sample_exceptions_only|].
  destruct (every_query_is_recorded Sample.builtins Sample.env "q"
              (Ui.mk (Some (InProcess CustomMCPClient.init)) true [("hi", "hello")]
                     Ui.compat_mode [])
              empty_world sample_exceptions_only eq_refl ltac:(discriminate))
    as [w' [answer [_ [Hrun _]]]].
  exists w', answer. exact Hrun.
Defined.
